(** * Luban recommendation core: recall merge, similarity, blending

    A shallow embedding of the Go sources

    - [internal/datacollection/datasource/multi.go] (modules [Datasource]
      and [MultiDataSource]), the in-memory data source (module
      [MemoryDataSource]) and [factory.go] (module [DataSourceFactory]),
    - [internal/recommendation/algorithms/collaborativefiltering.go],
      the content-based engine and [hybridfiltering.go]
      (module [Algorithms]),
    - [internal/recommendation/engine.go] (module [Recommendation]).

    Conventions of the embedding.

    - [float64] is read as a real number ([R]): sums, products, quotients
      and [math.Sqrt] are exact, there is no rounding, NaN or infinity.
      Comparisons are the boolean tests [Rgtb], [Rgeb], [Reqb].
    - A Go [map[string]V] is an association list with first-match lookup.
      Go does not fix the order in which [range] visits a map and
      [sort.Slice] is not stable; both choices are made by a [Runtime]
      value, and statements that hold "for every run" quantify over it.
      A [Runtime] picks the order as a function of the map it is given.
    - A map held in a struct field is a reference. Where the code
      depends on two structs sharing one map (item metadata in
      [MergeResults]) the maps live in an explicit heap; elsewhere the
      struct is written back after the update and the map is a value.
    - [topN] and [MaxNeighbors] are slice bounds and are natural numbers
      here (a negative bound makes the Go slice expression panic).
    - The clock ([time.Now]) is an argument [now] of the functions that
      read it.
    - A function that returns [(value, error)] returns a pair, with
      [None] for nil; where a call can panic the result is an [option]
      and [None] is the panic.
    - The goroutines of [ParallelRecall] file their results under a
      lock; the order in which they do so is chosen by the [Runtime].
    - Locks, loggers and contexts carry no data and are left out. *)

From Stdlib Require Import Reals Lra Lia List String Bool ZArith.
From Stdlib Require Import Permutation Sorted.
Import ListNotations.
Open Scope string_scope.
Open Scope list_scope.
Open Scope R_scope.

(** ** Comparisons on [float64] values *)

Definition Rgtb (x y : R) : bool := if Rgt_dec x y then true else false.
Definition Rgeb (x y : R) : bool := if Rge_dec x y then true else false.
Definition Reqb (x y : R) : bool := if Req_dec_T x y then true else false.

Lemma Rgtb_true x y : x > y -> Rgtb x y = true.
Proof. unfold Rgtb; destruct (Rgt_dec x y); tauto. Qed.

Lemma Rgtb_false x y : ~ x > y -> Rgtb x y = false.
Proof. unfold Rgtb; destruct (Rgt_dec x y); tauto. Qed.

Lemma Rgeb_true x y : x >= y -> Rgeb x y = true.
Proof. unfold Rgeb; destruct (Rge_dec x y); tauto. Qed.

Lemma Rgeb_false x y : ~ x >= y -> Rgeb x y = false.
Proof. unfold Rgeb; destruct (Rge_dec x y); tauto. Qed.

Lemma Reqb_true x y : x = y -> Reqb x y = true.
Proof. unfold Reqb; destruct (Req_dec_T x y); tauto. Qed.

Lemma Reqb_false x y : x <> y -> Reqb x y = false.
Proof. unfold Reqb; destruct (Req_dec_T x y); tauto. Qed.

Lemma Rgtb_spec x y : Rgtb x y = true <-> x > y.
Proof. unfold Rgtb; destruct (Rgt_dec x y); split; intros; try tauto; discriminate. Qed.

Lemma Rgeb_spec x y : Rgeb x y = true <-> x >= y.
Proof. unfold Rgeb; destruct (Rge_dec x y); split; intros; try tauto; discriminate. Qed.

Lemma Reqb_spec x y : Reqb x y = true <-> x = y.
Proof. unfold Reqb; destruct (Req_dec_T x y); split; intros; try tauto; discriminate. Qed.

(** Decides every comparison, minimum, maximum and absolute value of the
    goal whose operands are closed arithmetic terms. *)
Ltac rcmp :=
  repeat match goal with
  | |- context [Rgtb ?a ?b] =>
      first [ rewrite (Rgtb_true a b) by lra | rewrite (Rgtb_false a b) by lra ]
  | |- context [Rgeb ?a ?b] =>
      first [ rewrite (Rgeb_true a b) by lra | rewrite (Rgeb_false a b) by lra ]
  | |- context [Reqb ?a ?b] =>
      first [ rewrite (Reqb_true a b) by lra | rewrite (Reqb_false a b) by lra ]
  | |- context [Rmin ?a ?b] =>
      first [ rewrite (Rmin_left a b) by lra | rewrite (Rmin_right a b) by lra ]
  | |- context [Rmax ?a ?b] =>
      first [ rewrite (Rmax_left a b) by lra | rewrite (Rmax_right a b) by lra ]
  | |- context [Rabs ?a] =>
      first [ rewrite (Rabs_pos_eq a) by lra | rewrite (Rabs_left1 a) by lra ]
  end.

(** Evaluation of a call on concrete data: [run] computes everything but
    the arithmetic of [R]; [step] does the same and leaves calls folded
    when a comparison is still undecided; [same] closes equalities of
    data that agree up to arithmetic. *)
Ltac run :=
  cbv -[Rplus Rminus Rmult Rdiv Rinv Ropp IZR sqrt Reqb Rgtb Rgeb Rmax Rmin Rabs Rpower].

Ltac step :=
  cbn -[Rplus Rminus Rmult Rdiv Rinv Ropp IZR sqrt Reqb Rgtb Rgeb Rmax Rmin Rabs Rpower].

Ltac steps := repeat (progress (step; rcmp)).

Ltac same := repeat first [ reflexivity | lra | f_equal ].

(** Replaces the first square root of the goal by its value [r]. *)
Ltac sqrt_is r :=
  match goal with
  | |- context [sqrt ?e] =>
      replace (sqrt e) with r
        by (replace e with (r * r) by lra; rewrite sqrt_square by lra; reflexivity)
  end.

(** ** Go maps with string keys *)

Module GoMap.

Abbreviation t V := (list (string * V)) (only parsing).

Section Ops.
Context {V : Type}.

(** [v, ok := m[k]] *)
Fixpoint get (m : t V) (k : string) : option V :=
  match m with
  | [] => None
  | (k', v) :: m' => if String.eqb k' k then Some v else get m' k
  end.

(** [_, ok := m[k]] *)
Definition mem (m : t V) (k : string) : bool :=
  match get m k with Some _ => true | None => false end.

(** [m[k] = v] *)
Fixpoint set (m : t V) (k : string) (v : V) : t V :=
  match m with
  | [] => [(k, v)]
  | (k', v') :: m' =>
      if String.eqb k' k then (k', v) :: m' else (k', v') :: set m' k v
  end.

Definition keys (m : t V) : list string := map fst m.

(** A list stands for a Go map when no key occurs twice. *)
Definition wf (m : t V) : Prop := NoDup (keys m).

End Ops.

(** [m[k]] as an expression: the zero value of [V] when [k] is absent. *)
Definition index {V : Type} (zero : V) (m : t V) (k : string) : V :=
  match get m k with Some v => v | None => zero end.

(** [m[k]] for a [map[string]float64] *)
Definition at0 (m : t R) (k : string) : R := index 0 m k.

End GoMap.

(** ** What the Go runtime leaves open

    [range_order] is the order in which a [range] loop visits the entries
    of a map; [sort_slice] is [sort.Slice], of which the library promises
    a sorted rearrangement and nothing about equal elements. *)

Record Runtime : Type := {
  range_order : forall A : Type, list A -> list A;
  range_order_perm : forall (A : Type) (l : list A),
      Permutation (range_order A l) l;
  sort_slice : forall A : Type, (A -> A -> bool) -> list A -> list A;
  sort_slice_perm : forall (A : Type) (less : A -> A -> bool) (l : list A),
      Permutation (sort_slice A less l) l;
  sort_slice_sorted :
    forall (A : Type) (key : A -> R) (less : A -> A -> bool) (l : list A),
      (forall a b, less a b = Rgtb (key a) (key b)) ->
      StronglySorted (fun a b => key a >= key b) (sort_slice A less l)
}.

Definition range {V : Type} (rt : Runtime) (m : GoMap.t V) : list (string * V) :=
  range_order rt _ m.

(** [if len(l) > n { l = l[:n] }] *)
Definition truncate {A : Type} (n : nat) (l : list A) : list A :=
  if (n <? List.length l)%nat then firstn n l else l.

(** The insertion sort that [sort.Slice] runs on slices of at most twelve
    elements: each element moves left while it is [less] than its
    predecessor. *)
Fixpoint insert_right {A : Type} (less : A -> A -> bool) (x : A) (sorted_rev : list A)
  : list A :=
  match sorted_rev with
  | [] => [x]
  | y :: rest =>
      if less x y then y :: insert_right less x rest else x :: sorted_rev
  end.

Definition insertion_sort {A : Type} (less : A -> A -> bool) (l : list A) : list A :=
  rev (fold_left (fun acc x => insert_right less x acc) l []).

(** ** Two runs of the runtime

    [inOrder] visits a map in the order of its list and sorts by
    insertion; [rotated] starts every walk at the second entry. *)

Lemma insert_right_perm {A : Type} (less : A -> A -> bool) (x : A) (l : list A) :
  Permutation (insert_right less x l) (x :: l).
Proof.
  induction l as [|y l IH]; simpl; [reflexivity|].
  destruct (less x y); [|reflexivity].
  rewrite IH. apply perm_swap.
Qed.

Lemma insertion_sort_perm {A : Type} (less : A -> A -> bool) (l : list A) :
  Permutation (insertion_sort less l) l.
Proof.
  unfold insertion_sort. rewrite <- Permutation_rev.
  assert (H : forall acc, Permutation
             (fold_left (fun acc x => insert_right less x acc) l acc) (l ++ acc)).
  { induction l as [|x l IH]; intros acc; simpl; [reflexivity|].
    rewrite IH, insert_right_perm. symmetry. apply Permutation_middle. }
  rewrite H, app_nil_r. reflexivity.
Qed.

Lemma insert_right_ascending {A : Type} (key : A -> R) (less : A -> A -> bool)
      (x : A) (l : list A) :
  (forall a b, less a b = Rgtb (key a) (key b)) ->
  StronglySorted (fun a b => key a <= key b) l ->
  StronglySorted (fun a b => key a <= key b) (insert_right less x l).
Proof.
  intros Hless Hs. induction Hs as [|y l Hs IH Hall]; simpl.
  - repeat constructor.
  - rewrite Hless. destruct (Rgtb (key x) (key y)) eqn:E.
    + constructor; [exact IH|].
      apply Rgtb_spec in E.
      eapply Permutation_Forall; [symmetry; apply insert_right_perm|].
      constructor; [lra | exact Hall].
    + assert (Hle : key x <= key y).
      { destruct (Rle_dec (key x) (key y)) as [H|H]; [exact H|].
        rewrite Rgtb_true in E; [discriminate | lra]. }
      constructor; [constructor; assumption|].
      constructor; [exact Hle|].
      eapply Forall_impl; [|exact Hall]. simpl; intros; lra.
Qed.

Lemma StronglySorted_snoc {A : Type} (P : A -> A -> Prop) (l : list A) (x : A) :
  StronglySorted P l -> Forall (fun a => P a x) l -> StronglySorted P (l ++ [x]).
Proof.
  induction 1 as [|y l Hs IH Hall]; intros Hx; simpl.
  - repeat constructor.
  - inversion Hx; subst. constructor; [auto|].
    apply Forall_app; split; [exact Hall | repeat constructor; assumption].
Qed.

Lemma StronglySorted_rev_ge {A : Type} (key : A -> R) (l : list A) :
  StronglySorted (fun a b => key a <= key b) l ->
  StronglySorted (fun a b => key a >= key b) (rev l).
Proof.
  induction 1 as [|y l Hs IH Hall]; simpl; [constructor|].
  apply StronglySorted_snoc; [exact IH|].
  apply Forall_rev. eapply Forall_impl; [|exact Hall]. simpl; intros; lra.
Qed.

Lemma insertion_sort_sorted {A : Type} (key : A -> R) (less : A -> A -> bool)
      (l : list A) :
  (forall a b, less a b = Rgtb (key a) (key b)) ->
  StronglySorted (fun a b => key a >= key b) (insertion_sort less l).
Proof.
  intros Hless. unfold insertion_sort. apply StronglySorted_rev_ge.
  assert (H : forall acc, StronglySorted (fun a b => key a <= key b) acc ->
            StronglySorted (fun a b => key a <= key b)
              (fold_left (fun acc x => insert_right less x acc) l acc)).
  { induction l as [|x l IH]; intros acc Hacc; simpl; [exact Hacc|].
    apply IH. apply insert_right_ascending; assumption. }
  apply H. constructor.
Qed.

Definition inOrder : Runtime :=
  {| range_order := fun A l => l;
     range_order_perm := fun A l => Permutation_refl l;
     sort_slice := @insertion_sort;
     sort_slice_perm := @insertion_sort_perm;
     sort_slice_sorted := @insertion_sort_sorted |}.

(** Go starts the walk over a map at a random entry and wraps around. *)
Definition rotate {A : Type} (l : list A) : list A :=
  match l with
  | [] => []
  | x :: l' => l' ++ [x]
  end.

Lemma rotate_perm {A : Type} (l : list A) : Permutation (rotate l) l.
Proof.
  destruct l as [|x l]; simpl; [constructor|].
  symmetry. apply Permutation_cons_append.
Qed.

Definition rotated : Runtime :=
  {| range_order := @rotate;
     range_order_perm := @rotate_perm;
     sort_slice := @insertion_sort;
     sort_slice_perm := @insertion_sort_perm;
     sort_slice_sorted := @insertion_sort_sorted |}.

(** * Multi-source recall: [datasource/multi.go] *)

Module Datasource.

(** ** Data

    A value of type [interface{}]: the dynamic types that occur in item
    metadata. *)
Inductive Value : Type :=
| VStrings (l : list string)
| VString (s : string)
| VFloat (x : R).

(** A [map[string]interface{}] is a reference: copying an [ItemRecord]
    copies the pointer, not the map. The maps live in a heap addressed
    by position; a field holds [None] for the nil map. *)
Definition MetaMap : Type := GoMap.t Value.
Definition Heap : Type := list MetaMap.

Module ItemRecord.
Record t : Type := {
  ItemID : string;
  Category : string;
  Title : string;
  Description : string;
  Features : option nat;
  Metadata : option nat;
  Popularity : R
}.
End ItemRecord.

Module RecallResult.
Record t : Type := {
  Items : list ItemRecord.t;
  Score : R;
  Source : string;
  Metadata : option nat
}.
End RecallResult.

(** [item.Popularity = s] and [item.Metadata = r] on a struct value *)
Definition set_Popularity (item : ItemRecord.t) (s : R) : ItemRecord.t :=
  {| ItemRecord.ItemID := ItemRecord.ItemID item;
     ItemRecord.Category := ItemRecord.Category item;
     ItemRecord.Title := ItemRecord.Title item;
     ItemRecord.Description := ItemRecord.Description item;
     ItemRecord.Features := ItemRecord.Features item;
     ItemRecord.Metadata := ItemRecord.Metadata item;
     ItemRecord.Popularity := s |}.

Definition set_Metadata (item : ItemRecord.t) (r : option nat) : ItemRecord.t :=
  {| ItemRecord.ItemID := ItemRecord.ItemID item;
     ItemRecord.Category := ItemRecord.Category item;
     ItemRecord.Title := ItemRecord.Title item;
     ItemRecord.Description := ItemRecord.Description item;
     ItemRecord.Features := ItemRecord.Features item;
     ItemRecord.Metadata := r;
     ItemRecord.Popularity := ItemRecord.Popularity item |}.

(** ** The heap of metadata maps *)

Definition load (h : Heap) (a : nat) : option MetaMap := nth_error h a.

Fixpoint store (h : Heap) (a : nat) (m : MetaMap) : Heap :=
  match h, a with
  | [], _ => []
  | _ :: h', O => m :: h'
  | x :: h', S a' => x :: store h' a' m
  end.

(** [make(map[string]interface{})] *)
Definition alloc (h : Heap) : Heap * nat := (h ++ [[]], List.length h).

(** [if item.Metadata == nil { item.Metadata = make(...) }] *)
Definition ensureMetadata (h : Heap) (item : ItemRecord.t) : Heap * ItemRecord.t :=
  match ItemRecord.Metadata item with
  | Some _ => (h, item)
  | None => let '(h', a) := alloc h in (h', set_Metadata item (Some a))
  end.

(** A loop whose body may panic *)
Fixpoint foldM {A S : Type} (f : S -> A -> option S) (l : list A) (s : S) : option S :=
  match l with
  | [] => Some s
  | x :: l' => match f s x with Some s' => foldM f l' s' | None => None end
  end.

(** ** [MultiRecall] *)

Definition MultiRecall : Type := GoMap.t RecallResult.t.

Definition NewMultiRecall : MultiRecall := [].

Definition AddResult (m : MultiRecall) (source : string) (result : RecallResult.t)
  : MultiRecall :=
  GoMap.set m source result.

(** The body of the inner loop of [MergeResults], for one [item] of the
    result of [source]. The state is the heap and [itemMap]; [None] is a
    run-time panic (the type assertion [.([]string)] on a value that is
    not a [[]string], the nil interface included). *)
Definition mergeItem (source : string) (score : R)
           (st : Heap * GoMap.t ItemRecord.t) (item : ItemRecord.t)
  : option (Heap * GoMap.t ItemRecord.t) :=
  let '(h, itemMap) := st in
  match GoMap.get itemMap (ItemRecord.ItemID item) with
  | Some existing =>
      let item :=
        if Rgtb score (ItemRecord.Popularity existing)
        then set_Popularity item score else item in
      let '(h, item) := ensureMetadata h item in
      match ItemRecord.Metadata item with
      | Some a =>
          match load h a with
          | Some md =>
              match GoMap.get md "sources" with
              | Some (VStrings old) =>
                  Some (store h a (GoMap.set md "sources" (VStrings (old ++ [source]))),
                        itemMap)
              | _ => None
              end
          | None => None
          end
      | None => None
      end
  | None =>
      let item := set_Popularity item score in
      let '(h, item) := ensureMetadata h item in
      match ItemRecord.Metadata item with
      | Some a =>
          match load h a with
          | Some md =>
              Some (store h a (GoMap.set md "sources" (VStrings [source])),
                    GoMap.set itemMap (ItemRecord.ItemID item) item)
          | None => None
          end
      | None => None
      end
  end.

(** [MergeResults]: the merged slice and the heap it leaves behind, or
    [None] when the call panics. *)
Definition MergeResults (rt : Runtime) (h : Heap) (m : MultiRecall)
  : option (list ItemRecord.t * Heap) :=
  match
    foldM (fun st '(source, result) =>
             foldM (mergeItem source (RecallResult.Score result))
                   (RecallResult.Items result) st)
          (range rt m) (h, [])
  with
  | Some (h', itemMap) => Some (map snd (range rt itemMap), h')
  | None => None
  end.

(** The provenance list of a merged item: [item.Metadata["sources"]]. *)
Definition sourcesOf (h : Heap) (item : ItemRecord.t) : option Value :=
  match ItemRecord.Metadata item with
  | Some a => match load h a with Some md => GoMap.get md "sources" | None => None end
  | None => None
  end.

(** ** [MultiDataSource]: health check and close

    A registered source is given by its name and by what its
    [HealthCheck] and [Close] return ([None] for a nil error). *)

Inductive error : Type :=
| New (msg : string)
| Wrap (context : string) (cause : error).

Module DataSource.
Record t : Type := {
  GetName : string;
  HealthCheck : option error;
  Close : option error
}.
End DataSource.

(** [HealthCheck]: the names of the sources whose [HealthCheck] was
    called, in call order, and the returned error. *)
Fixpoint HealthCheck (sources : list DataSource.t) : list string * option error :=
  match sources with
  | [] => ([], None)
  | source :: rest =>
      match DataSource.HealthCheck source with
      | Some err =>
          ([DataSource.GetName source],
           Some (Wrap ("数据源 " ++ DataSource.GetName source ++ " 健康检查失败") err))
      | None =>
          let '(calls, res) := HealthCheck rest in
          (DataSource.GetName source :: calls, res)
      end
  end.

(** [Close]: the names of the sources whose [Close] was called, in call
    order, and the returned error [lastErr]. *)
Definition Close (sources : list DataSource.t) : list string * option error :=
  fold_left
    (fun '(calls, lastErr) source =>
       match DataSource.Close source with
       | Some err => (calls ++ [DataSource.GetName source], Some err)
       | None => (calls ++ [DataSource.GetName source], lastErr)
       end)
    sources ([], None).

End Datasource.


(** ** [MultiDataSource]: recall

    [executeRecall] and [ParallelRecall] for any type of sources and any
    four recall strategies.  A strategy returns the pair
    [(result, err)], [None] for nil, or [None] altogether when it
    panics. *)

Module MultiDataSource.

Section Recall.
Context {Source : Type}.
Variable GetName : Source -> string.
Variables recallPopularItems recallSimilarUsersItems
          recallRecentBehaviorItems recallCategoryPreferenceItems :
  Source -> string -> option (option Datasource.RecallResult.t * option Datasource.error).

Fixpoint executeRecall (source : Source) (userID : string) (recallTypes : list string)
  : option (option Datasource.RecallResult.t * option Datasource.error) :=
  match recallTypes with
  | [] => Some (None, Some (Datasource.New "没有可用的召回策略"))
  | recallType :: rest =>
      if String.eqb recallType "popular"
      then recallPopularItems source userID
      else if String.eqb recallType "similar_users"
      then recallSimilarUsersItems source userID
      else if String.eqb recallType "recent_behavior"
      then recallRecentBehaviorItems source userID
      else if String.eqb recallType "category_preference"
      then recallCategoryPreferenceItems source userID
      else executeRecall source userID rest
  end.

(** [ParallelRecall]. Each goroutine runs [executeRecall] for its source
    and files a result under the lock of the [MultiRecall]; the run time
    decides in which order the goroutines get there.  A panic in one of
    them ends the program ([None]). *)
Definition ParallelRecall (rt : Runtime) (sources : list Source) (userID : string)
           (recallTypes : list string)
  : option (Datasource.MultiRecall * option Datasource.error) :=
  match
    Datasource.foldM
      (fun multiRecall src =>
         match executeRecall src userID recallTypes with
         | None => None
         | Some (_, Some err) => Some multiRecall
         | Some (Some result, None) =>
             Some (Datasource.AddResult multiRecall (GetName src) result)
         | Some (None, None) => Some multiRecall
         end)
      (range_order rt _ sources) Datasource.NewMultiRecall
  with
  | Some multiRecall => Some (multiRecall, None)
  | None => None
  end.

End Recall.

End MultiDataSource.
(** * Recommendation algorithms: package [algorithms] *)

Module Algorithms.

Module Recommendation.
Record t : Type := { ItemID : string; Score : R }.
End Recommendation.

Module SimilarUser.
Record t : Type := { UserID : string; Similarity : R }.
End SimilarUser.

Module SimilarItem.
Record t : Type := { ItemID : string; Similarity : R }.
End SimilarItem.

(** ** Collaborative filtering: [collaborativefiltering.go] *)

Module CollaborativeFilteringConfig.
Record t : Type := {
  SimilarityThreshold : R;
  MaxNeighbors : nat;
  MinCommonItems : Z;
  NormalizationMethod : string
}.
End CollaborativeFilteringConfig.

Module CollaborativeFilteringEngine.

Record t : Type := {
  userItemMatrix : GoMap.t (GoMap.t R);
  itemUserMatrix : GoMap.t (GoMap.t R);
  userSimilarity : GoMap.t (GoMap.t R);
  itemSimilarity : GoMap.t (GoMap.t R);
  config : CollaborativeFilteringConfig.t
}.

Definition NewCollaborativeFilteringEngine : t :=
  {| userItemMatrix := [];
     itemUserMatrix := [];
     userSimilarity := [];
     itemSimilarity := [];
     config :=
       {| CollaborativeFilteringConfig.SimilarityThreshold := 0.1;
          CollaborativeFilteringConfig.MaxNeighbors := 50;
          CollaborativeFilteringConfig.MinCommonItems := 2;
          CollaborativeFilteringConfig.NormalizationMethod := "mean_centering" |} |}.

(** [if m[outer] == nil { m[outer] = make(...) }; m[outer][inner] = rating] *)
Definition setRating (m : GoMap.t (GoMap.t R)) (outer inner : string) (rating : R)
  : GoMap.t (GoMap.t R) :=
  let m := match GoMap.get m outer with
           | Some _ => m
           | None => GoMap.set m outer []
           end in
  GoMap.set m outer (GoMap.set (GoMap.index [] m outer) inner rating).

Definition AddUserRating (c : t) (userID itemID : string) (rating : R) : t :=
  {| userItemMatrix := setRating (userItemMatrix c) userID itemID rating;
     itemUserMatrix := setRating (itemUserMatrix c) itemID userID rating;
     userSimilarity := userSimilarity c;
     itemSimilarity := itemSimilarity c;
     config := config c |}.

(** The keys of [ratings1] that [ratings2] has too, in the order in which
    the [range] loop over [ratings1] meets them. *)
Definition commonKeys (rt : Runtime) (ratings1 ratings2 : GoMap.t R) : list string :=
  filter (GoMap.mem ratings2) (map fst (range rt ratings1)).

Definition pearsonCorrelation (c : t) (ratings1 ratings2 : GoMap.t R)
           (commonItems : list string) : R :=
  if (List.length commonItems =? 0)%nat then 0 else
  let sums :=
    fold_left
      (fun acc itemID =>
         (fst acc + GoMap.at0 ratings1 itemID, snd acc + GoMap.at0 ratings2 itemID))
      commonItems (0, 0) in
  let mean1 := fst sums / INR (List.length commonItems) in
  let mean2 := snd sums / INR (List.length commonItems) in
  let acc :=
    fold_left
      (fun acc itemID =>
         let diff1 := GoMap.at0 ratings1 itemID - mean1 in
         let diff2 := GoMap.at0 ratings2 itemID - mean2 in
         (fst (fst acc) + diff1 * diff2,
          snd (fst acc) + diff1 * diff1,
          snd acc + diff2 * diff2))
      commonItems (0, 0, 0) in
  let numerator := fst (fst acc) in
  let denominator1 := snd (fst acc) in
  let denominator2 := snd acc in
  if Reqb denominator1 0 || Reqb denominator2 0 then 0 else
  let correlation := numerator / sqrt (denominator1 * denominator2) in
  let weight :=
    INR (List.length commonItems)
    / INR (CollaborativeFilteringConfig.MaxNeighbors (config c)) in
  correlation * weight.

Definition CalculateUserSimilarity (rt : Runtime) (c : t) (userID1 userID2 : string) : R :=
  match GoMap.get (userItemMatrix c) userID1, GoMap.get (userItemMatrix c) userID2 with
  | Some ratings1, Some ratings2 =>
      let commonItems := commonKeys rt ratings1 ratings2 in
      if (Z.of_nat (List.length commonItems)
          <? CollaborativeFilteringConfig.MinCommonItems (config c))%Z
      then 0
      else pearsonCorrelation c ratings1 ratings2 commonItems
  | _, _ => 0
  end.

Definition cosineSimilarity (rt : Runtime) (ratings1 ratings2 : GoMap.t R) : R :=
  let commonUsers := commonKeys rt ratings1 ratings2 in
  if (List.length commonUsers =? 0)%nat then 0 else
  let acc :=
    fold_left
      (fun acc userID =>
         let rating1 := GoMap.at0 ratings1 userID in
         let rating2 := GoMap.at0 ratings2 userID in
         (fst (fst acc) + rating1 * rating2,
          snd (fst acc) + rating1 * rating1,
          snd acc + rating2 * rating2))
      commonUsers (0, 0, 0) in
  let dotProduct := fst (fst acc) in
  let norm1 := snd (fst acc) in
  let norm2 := snd acc in
  if Reqb norm1 0 || Reqb norm2 0 then 0 else
  dotProduct / sqrt (norm1 * norm2).

Definition CalculateItemSimilarity (rt : Runtime) (c : t) (itemID1 itemID2 : string) : R :=
  match GoMap.get (itemUserMatrix c) itemID1, GoMap.get (itemUserMatrix c) itemID2 with
  | Some ratings1, Some ratings2 => cosineSimilarity rt ratings1 ratings2
  | _, _ => 0
  end.

Definition findSimilarUsers (rt : Runtime) (c : t) (userID : string) : list SimilarUser.t :=
  let similarUsers :=
    flat_map
      (fun entry =>
         let otherUserID := fst entry in
         if String.eqb otherUserID userID then [] else
         let similarity := CalculateUserSimilarity rt c userID otherUserID in
         if Rgeb similarity (CollaborativeFilteringConfig.SimilarityThreshold (config c))
         then [{| SimilarUser.UserID := otherUserID;
                  SimilarUser.Similarity := similarity |}]
         else [])
      (range rt (userItemMatrix c)) in
  let similarUsers :=
    sort_slice rt _
      (fun a b => Rgtb (SimilarUser.Similarity a) (SimilarUser.Similarity b))
      similarUsers in
  truncate (CollaborativeFilteringConfig.MaxNeighbors (config c)) similarUsers.

Definition findSimilarItems (rt : Runtime) (c : t) (itemID : string) : list SimilarItem.t :=
  let similarItems :=
    flat_map
      (fun entry =>
         let otherItemID := fst entry in
         if String.eqb otherItemID itemID then [] else
         let similarity := CalculateItemSimilarity rt c itemID otherItemID in
         if Rgeb similarity (CollaborativeFilteringConfig.SimilarityThreshold (config c))
         then [{| SimilarItem.ItemID := otherItemID;
                  SimilarItem.Similarity := similarity |}]
         else [])
      (range rt (itemUserMatrix c)) in
  let similarItems :=
    sort_slice rt _
      (fun a b => Rgtb (SimilarItem.Similarity a) (SimilarItem.Similarity b))
      similarItems in
  truncate (CollaborativeFilteringConfig.MaxNeighbors (config c)) similarItems.

Definition buildItemSimilarityMatrix (rt : Runtime) (c : t) : t :=
  {| userItemMatrix := userItemMatrix c;
     itemUserMatrix := itemUserMatrix c;
     userSimilarity := userSimilarity c;
     itemSimilarity :=
       fold_left
         (fun sim entry1 =>
            let itemID1 := fst entry1 in
            fold_left
              (fun sim entry2 =>
                 let itemID2 := fst entry2 in
                 if String.eqb itemID1 itemID2 then sim else
                 GoMap.set sim itemID1
                   (GoMap.set (GoMap.index [] sim itemID1) itemID2
                      (CalculateItemSimilarity rt c itemID1 itemID2)))
              (range rt (itemUserMatrix c))
              (GoMap.set sim itemID1 []))
         (range rt (itemUserMatrix c)) [];
     config := config c |}.

(** [if _, ok := recs[id]; !ok { recs[id] = 0.0 }; recs[id] += w] *)
Definition accumulate (recs : GoMap.t R) (itemID : string) (w : R) : GoMap.t R :=
  let recs := if GoMap.mem recs itemID then recs else GoMap.set recs itemID 0 in
  GoMap.set recs itemID (GoMap.at0 recs itemID + w).

(** The tail shared by both recommenders: the score map as a slice,
    sorted by descending score, cut to [topN]. *)
Definition rankTop (rt : Runtime) (recommendations : GoMap.t R) (topN : nat)
  : list Recommendation.t :=
  let result :=
    map (fun entry => {| Recommendation.ItemID := fst entry;
                         Recommendation.Score := snd entry |})
        (range rt recommendations) in
  truncate topN
    (sort_slice rt _
       (fun a b => Rgtb (Recommendation.Score a) (Recommendation.Score b)) result).

Definition UserBasedRecommend (rt : Runtime) (c : t) (userID : string) (topN : nat)
  : list Recommendation.t :=
  match GoMap.get (userItemMatrix c) userID with
  | None => []
  | Some userRatings =>
      let similarUsers := findSimilarUsers rt c userID in
      let recommendations :=
        fold_left
          (fun recs similarUser =>
             let similarUserRatings :=
               GoMap.index [] (userItemMatrix c) (SimilarUser.UserID similarUser) in
             fold_left
               (fun recs entry =>
                  let itemID := fst entry in
                  let rating := snd entry in
                  if GoMap.mem userRatings itemID then recs
                  else accumulate recs itemID
                         (SimilarUser.Similarity similarUser * rating))
               (range rt similarUserRatings) recs)
          similarUsers [] in
      rankTop rt recommendations topN
  end.

(** [ItemBasedRecommend] also fills the [itemSimilarity] cache when it is
    empty; the engine after the call is the second component. *)
Definition ItemBasedRecommend (rt : Runtime) (c : t) (userID : string) (topN : nat)
  : list Recommendation.t * t :=
  match GoMap.get (userItemMatrix c) userID with
  | None => ([], c)
  | Some userRatings =>
      let c := if (List.length (itemSimilarity c) =? 0)%nat
               then buildItemSimilarityMatrix rt c else c in
      let recommendations :=
        fold_left
          (fun recs entry =>
             let userItemID := fst entry in
             let userRating := snd entry in
             fold_left
               (fun recs similarItem =>
                  if GoMap.mem userRatings (SimilarItem.ItemID similarItem) then recs
                  else accumulate recs (SimilarItem.ItemID similarItem)
                         (SimilarItem.Similarity similarItem * userRating))
               (findSimilarItems rt c userItemID) recs)
          (range rt userRatings) [] in
      (rankTop rt recommendations topN, c)
  end.

End CollaborativeFilteringEngine.

(** ** Content-based filtering *)

Module ContentBasedFilteringConfig.
Record t : Type := {
  FeatureWeightThreshold : R;
  MaxFeatures : Z;
  SimilarityThreshold : R;
  LearningRate : R;
  DecayFactor : R
}.
End ContentBasedFilteringConfig.

Module UserProfile.
Record t : Type := {
  UserID : string;
  FeatureVector : GoMap.t R;
  Preferences : GoMap.t R;
  UpdateTime : Z
}.
End UserProfile.

Module ItemFeatures.
Record t : Type := {
  ItemID : string;
  Category : string;
  Keywords : list string;
  Features : GoMap.t R;
  Metadata : GoMap.t Datasource.Value
}.
End ItemFeatures.

Module ContentBasedFilteringEngine.

Record t : Type := {
  userProfiles : GoMap.t UserProfile.t;
  itemFeatures : GoMap.t ItemFeatures.t;
  userItemHistory : GoMap.t (GoMap.t R);
  config : ContentBasedFilteringConfig.t
}.

Definition NewContentBasedFilteringEngine : t :=
  {| userProfiles := [];
     itemFeatures := [];
     userItemHistory := [];
     config :=
       {| ContentBasedFilteringConfig.FeatureWeightThreshold := 0.1;
          ContentBasedFilteringConfig.MaxFeatures := 100;
          ContentBasedFilteringConfig.SimilarityThreshold := 0.3;
          ContentBasedFilteringConfig.LearningRate := 0.01;
          ContentBasedFilteringConfig.DecayFactor := 0.95 |} |}.

Definition AddItemFeatures (c : t) (itemID category : string) (keywords : list string)
           (features : GoMap.t R) : t :=
  {| userProfiles := userProfiles c;
     itemFeatures :=
       GoMap.set (itemFeatures c) itemID
         {| ItemFeatures.ItemID := itemID;
            ItemFeatures.Category := category;
            ItemFeatures.Keywords := keywords;
            ItemFeatures.Features := features;
            ItemFeatures.Metadata := [] |};
     userItemHistory := userItemHistory c;
     config := config c |}.

(** [applyFeatureDecay]. [now] is the value of [getCurrentTimestamp()];
    [math.Pow] is [Rpower], which agrees with it for a positive base. *)
Definition applyFeatureDecay (now : Z) (c : t) (profile : UserProfile.t) : UserProfile.t :=
  let timeDiff := (now - UserProfile.UpdateTime profile)%Z in
  if (0 <? timeDiff)%Z then
    let decayFactor :=
      Rpower (ContentBasedFilteringConfig.DecayFactor (config c))
             (IZR timeDiff / 86400) in
    {| UserProfile.UserID := UserProfile.UserID profile;
       UserProfile.FeatureVector :=
         map (fun entry => (fst entry, snd entry * decayFactor))
             (UserProfile.FeatureVector profile);
       UserProfile.Preferences :=
         map (fun entry => (fst entry, snd entry * decayFactor))
             (UserProfile.Preferences profile);
       UserProfile.UpdateTime := UserProfile.UpdateTime profile |}
  else profile.

(** [if m[k] == 0 { m[k] = 0 }; m[k] += w] *)
Definition bump (m : GoMap.t R) (k : string) (w : R) : GoMap.t R :=
  let m := if Reqb (GoMap.at0 m k) 0 then GoMap.set m k 0 else m in
  GoMap.set m k (GoMap.at0 m k + w).

Definition updateUserProfile (rt : Runtime) (now : Z) (c : t) (userID : string)
           (itemFeatures : ItemFeatures.t) (rating : R) : t :=
  let profile :=
    match GoMap.get (userProfiles c) userID with
    | Some profile => profile
    | None => {| UserProfile.UserID := userID;
                 UserProfile.FeatureVector := [];
                 UserProfile.Preferences := [];
                 UserProfile.UpdateTime := 0 |}
    end in
  let profile := applyFeatureDecay now c profile in
  let learningRate := ContentBasedFilteringConfig.LearningRate (config c) in
  let featureVector :=
    fold_left
      (fun fv entry => bump fv (fst entry) (learningRate * rating * snd entry))
      (range rt (ItemFeatures.Features itemFeatures))
      (UserProfile.FeatureVector profile) in
  let preferences :=
    fold_left
      (fun prefs keyword => bump prefs keyword (learningRate * rating))
      (ItemFeatures.Keywords itemFeatures) (UserProfile.Preferences profile) in
  let preferences :=
    bump preferences (ItemFeatures.Category itemFeatures) (learningRate * rating) in
  {| userProfiles :=
       GoMap.set (userProfiles c) userID
         {| UserProfile.UserID := UserProfile.UserID profile;
            UserProfile.FeatureVector := featureVector;
            UserProfile.Preferences := preferences;
            UserProfile.UpdateTime := now |};
     itemFeatures := ContentBasedFilteringEngine.itemFeatures c;
     userItemHistory := userItemHistory c;
     config := config c |}.

Definition AddUserBehavior (rt : Runtime) (now : Z) (c : t) (userID itemID : string)
           (rating : R) : t :=
  let c :=
    {| userProfiles := userProfiles c;
       itemFeatures := itemFeatures c;
       userItemHistory :=
         CollaborativeFilteringEngine.setRating (userItemHistory c) userID itemID rating;
       config := config c |} in
  match GoMap.get (itemFeatures c) itemID with
  | None => c
  | Some itemFeatures => updateUserProfile rt now c userID itemFeatures rating
  end.

Definition UpdateUserPreference (now : Z) (c : t) (userID preference : string)
           (weight : R) : t :=
  let profile :=
    match GoMap.get (userProfiles c) userID with
    | Some profile => profile
    | None => {| UserProfile.UserID := userID;
                 UserProfile.FeatureVector := [];
                 UserProfile.Preferences := [];
                 UserProfile.UpdateTime := now |}
    end in
  {| userProfiles :=
       GoMap.set (userProfiles c) userID
         {| UserProfile.UserID := UserProfile.UserID profile;
            UserProfile.FeatureVector := UserProfile.FeatureVector profile;
            UserProfile.Preferences :=
              GoMap.set (UserProfile.Preferences profile) preference weight;
            UserProfile.UpdateTime := now |};
     itemFeatures := itemFeatures c;
     userItemHistory := userItemHistory c;
     config := config c |}.

Definition calculateFeatureSimilarity (rt : Runtime)
           (userFeatures itemFeatures : GoMap.t R) : R :=
  let acc :=
    fold_left
      (fun acc entry =>
         let feature := fst entry in
         let userValue := snd entry in
         (match GoMap.get itemFeatures feature with
          | Some itemValue => fst acc + userValue * itemValue
          | None => fst acc
          end,
          snd acc + userValue * userValue))
      (range rt userFeatures) (0, 0) in
  let dotProduct := fst acc in
  let normUser := snd acc in
  let normItem :=
    fold_left (fun norm entry => norm + snd entry * snd entry)
              (range rt itemFeatures) 0 in
  if Reqb normUser 0 || Reqb normItem 0 then 0 else
  dotProduct / (sqrt normUser * sqrt normItem).

Definition calculateKeywordSimilarity (userPreferences : GoMap.t R)
           (itemKeywords : list string) : R :=
  if (List.length itemKeywords =? 0)%nat then 0 else
  let acc :=
    fold_left
      (fun acc keyword =>
         match GoMap.get userPreferences keyword with
         | Some preference => (fst acc + preference, S (snd acc))
         | None => acc
         end)
      itemKeywords (0, 0%nat) in
  let totalScore := fst acc in
  let matchedCount := snd acc in
  if (matchedCount =? 0)%nat then 0 else
  totalScore / INR (List.length itemKeywords).

Definition calculateCategorySimilarity (userPreferences : GoMap.t R) (category : string)
  : R :=
  match GoMap.get userPreferences category with
  | Some preference => preference
  | None => 0
  end.

Definition calculateSimilarity (rt : Runtime) (profile : UserProfile.t)
           (item : ItemFeatures.t) : R :=
  let featureSimilarity :=
    calculateFeatureSimilarity rt (UserProfile.FeatureVector profile)
                               (ItemFeatures.Features item) in
  let keywordSimilarity :=
    calculateKeywordSimilarity (UserProfile.Preferences profile)
                               (ItemFeatures.Keywords item) in
  let categorySimilarity :=
    calculateCategorySimilarity (UserProfile.Preferences profile)
                                (ItemFeatures.Category item) in
  0.5 * featureSimilarity + 0.3 * keywordSimilarity + 0.2 * categorySimilarity.

Definition GenerateRecommendations (rt : Runtime) (c : t) (userID : string) (topN : nat)
  : list Recommendation.t :=
  match GoMap.get (userProfiles c) userID with
  | None => []
  | Some profile =>
      let userHistory := GoMap.index [] (userItemHistory c) userID in
      let recommendations :=
        flat_map
          (fun entry =>
             let itemID := fst entry in
             let itemFeatures := snd entry in
             if GoMap.mem userHistory itemID then [] else
             let similarity := calculateSimilarity rt profile itemFeatures in
             if Rgeb similarity
                     (ContentBasedFilteringConfig.SimilarityThreshold (config c))
             then [{| Recommendation.ItemID := itemID;
                      Recommendation.Score := similarity |}]
             else [])
          (range rt (itemFeatures c)) in
      truncate topN
        (sort_slice rt _
           (fun a b => Rgtb (Recommendation.Score a) (Recommendation.Score b))
           recommendations)
  end.

(** The local type [KeywordCount] of [GetPopularKeywords]. *)
Record KeywordCount : Type := { Keyword : string; Count : nat }.


End ContentBasedFilteringEngine.

(** ** Hybrid blending: [hybridfiltering.go] *)

Module HybridFilteringConfig.
Record t : Type := {
  CollaborativeWeight : R;
  ContentBasedWeight : R;
  DiversityWeight : R;
  PopularityWeight : R;
  RecencyWeight : R;
  EnableDiversity : bool;
  EnablePopularity : bool;
  EnableRecency : bool
}.
End HybridFilteringConfig.

Module HybridRecommendation.
Record t : Type := {
  ItemID : string;
  Score : R;
  CollaborativeScore : R;
  ContentBasedScore : R;
  DiversityScore : R;
  PopularityScore : R;
  RecencyScore : R;
  Confidence : R;
  Reason : string
}.
End HybridRecommendation.

Module HybridFilteringEngine.

Record t : Type := {
  collaborative : CollaborativeFilteringEngine.t;
  contentBased : ContentBasedFilteringEngine.t;
  weights : GoMap.t R;
  config : HybridFilteringConfig.t
}.

Definition NewHybridFilteringEngine (collaborative : CollaborativeFilteringEngine.t)
           (contentBased : ContentBasedFilteringEngine.t) : t :=
  {| collaborative := collaborative;
     contentBased := contentBased;
     weights := [];
     config :=
       {| HybridFilteringConfig.CollaborativeWeight := 0.4;
          HybridFilteringConfig.ContentBasedWeight := 0.4;
          HybridFilteringConfig.DiversityWeight := 0.1;
          HybridFilteringConfig.PopularityWeight := 0.05;
          HybridFilteringConfig.RecencyWeight := 0.05;
          HybridFilteringConfig.EnableDiversity := true;
          HybridFilteringConfig.EnablePopularity := true;
          HybridFilteringConfig.EnableRecency := true |} |}.

(** A [HybridRecommendation] literal that names the identifier and the
    two component scores; the other fields take their zero value. *)
Definition newHybrid (itemID : string) (collaborativeScore contentBasedScore : R)
  : HybridRecommendation.t :=
  {| HybridRecommendation.ItemID := itemID;
     HybridRecommendation.Score := 0;
     HybridRecommendation.CollaborativeScore := collaborativeScore;
     HybridRecommendation.ContentBasedScore := contentBasedScore;
     HybridRecommendation.DiversityScore := 0;
     HybridRecommendation.PopularityScore := 0;
     HybridRecommendation.RecencyScore := 0;
     HybridRecommendation.Confidence := 0;
     HybridRecommendation.Reason := "" |}.

Definition set_CollaborativeScore (r : HybridRecommendation.t) (s : R)
  : HybridRecommendation.t :=
  {| HybridRecommendation.ItemID := HybridRecommendation.ItemID r;
     HybridRecommendation.Score := HybridRecommendation.Score r;
     HybridRecommendation.CollaborativeScore := s;
     HybridRecommendation.ContentBasedScore := HybridRecommendation.ContentBasedScore r;
     HybridRecommendation.DiversityScore := HybridRecommendation.DiversityScore r;
     HybridRecommendation.PopularityScore := HybridRecommendation.PopularityScore r;
     HybridRecommendation.RecencyScore := HybridRecommendation.RecencyScore r;
     HybridRecommendation.Confidence := HybridRecommendation.Confidence r;
     HybridRecommendation.Reason := HybridRecommendation.Reason r |}.

Definition set_ContentBasedScore (r : HybridRecommendation.t) (s : R)
  : HybridRecommendation.t :=
  {| HybridRecommendation.ItemID := HybridRecommendation.ItemID r;
     HybridRecommendation.Score := HybridRecommendation.Score r;
     HybridRecommendation.CollaborativeScore := HybridRecommendation.CollaborativeScore r;
     HybridRecommendation.ContentBasedScore := s;
     HybridRecommendation.DiversityScore := HybridRecommendation.DiversityScore r;
     HybridRecommendation.PopularityScore := HybridRecommendation.PopularityScore r;
     HybridRecommendation.RecencyScore := HybridRecommendation.RecencyScore r;
     HybridRecommendation.Confidence := HybridRecommendation.Confidence r;
     HybridRecommendation.Reason := HybridRecommendation.Reason r |}.

Definition mergeRecommendations (collaborativeRecs contentBasedRecs : list Recommendation.t)
  : GoMap.t HybridRecommendation.t :=
  let merged :=
    fold_left
      (fun merged rec =>
         match GoMap.get merged (Recommendation.ItemID rec) with
         | None =>
             GoMap.set merged (Recommendation.ItemID rec)
               (newHybrid (Recommendation.ItemID rec) (Recommendation.Score rec) 0)
         | Some hybridRec =>
             GoMap.set merged (Recommendation.ItemID rec)
               (set_CollaborativeScore hybridRec (Recommendation.Score rec))
         end)
      collaborativeRecs [] in
  fold_left
    (fun merged rec =>
       match GoMap.get merged (Recommendation.ItemID rec) with
       | None =>
           GoMap.set merged (Recommendation.ItemID rec)
             (newHybrid (Recommendation.ItemID rec) 0 (Recommendation.Score rec))
       | Some hybridRec =>
           GoMap.set merged (Recommendation.ItemID rec)
             (set_ContentBasedScore hybridRec (Recommendation.Score rec))
       end)
    contentBasedRecs merged.

Definition calculateDiversityScore (rt : Runtime) (h : t) (userID itemID : string) : R :=
  let userHistory :=
    GoMap.index [] (CollaborativeFilteringEngine.userItemMatrix (collaborative h)) userID in
  if (List.length userHistory =? 0)%nat then 1 else
  let catalog := ContentBasedFilteringEngine.itemFeatures (contentBased h) in
  match GoMap.get catalog itemID with
  | None => 0.5
  | Some itemFeatures =>
      let categoryCount :=
        fold_left
          (fun count entry =>
             match GoMap.get catalog (fst entry) with
             | Some histItemFeatures =>
                 GoMap.set count (ItemFeatures.Category histItemFeatures)
                   (S (GoMap.index 0%nat count (ItemFeatures.Category histItemFeatures)))
             | None => count
             end)
          (range rt userHistory) [] in
      let histCategoryCount :=
        GoMap.index 0%nat categoryCount (ItemFeatures.Category itemFeatures) in
      let maxCount :=
        fold_left
          (fun maxCount entry =>
             if (maxCount <? snd entry)%nat then snd entry else maxCount)
          (range rt categoryCount) 0%nat in
      if (maxCount =? 0)%nat then 1 else
      Rmax 0 (1 - INR histCategoryCount / INR maxCount)
  end.

(** The number of users whose rating map holds [itemID]. *)
Definition ratingCount (rt : Runtime) (h : t) (itemID : string) : nat :=
  fold_left
    (fun count entry => if GoMap.mem (snd entry) itemID then S count else count)
    (range rt (CollaborativeFilteringEngine.userItemMatrix (collaborative h))) 0%nat.

Definition calculatePopularityScore (rt : Runtime) (h : t) (itemID : string) : R :=
  let ratingCount := ratingCount rt h itemID in
  let maxRatingCount :=
    fold_left
      (fun maxRatingCount entry =>
         if (maxRatingCount <? List.length (snd entry))%nat
         then List.length (snd entry) else maxRatingCount)
      (range rt (CollaborativeFilteringEngine.userItemMatrix (collaborative h))) 0%nat in
  if (maxRatingCount =? 0)%nat then 0.5 else
  INR ratingCount / INR maxRatingCount.

Definition calculateRecencyScore (rt : Runtime) (h : t) (itemID : string) : R :=
  Rmin 1 (INR (ratingCount rt h itemID) / 100).

Definition calculateConfidence (rec : HybridRecommendation.t) : R :=
  let collaborativeScore := HybridRecommendation.CollaborativeScore rec in
  let contentBasedScore := HybridRecommendation.ContentBasedScore rec in
  if Rgtb collaborativeScore 0.5 && Rgtb contentBasedScore 0.5 then 0.9 else
  let scoreDiff := Rabs (collaborativeScore - contentBasedScore) in
  if Rgtb scoreDiff 0.8 then 0.3 else 0.7.

Definition generateRecommendationReason (rec : HybridRecommendation.t) : string :=
  let reasons :=
    (if Rgtb (HybridRecommendation.CollaborativeScore rec) 0.5
     then ["基于您的历史偏好"] else [])
    ++ (if Rgtb (HybridRecommendation.ContentBasedScore rec) 0.5
        then ["与您喜欢的内容相似"] else [])
    ++ (if Rgtb (HybridRecommendation.DiversityScore rec) 0.7
        then ["为您推荐新类型"] else [])
    ++ (if Rgtb (HybridRecommendation.PopularityScore rec) 0.7
        then ["热门推荐"] else []) in
  if (List.length reasons =? 0)%nat then "为您推荐" else String.concat "，" reasons.

(** The body of the loop of [calculateHybridScores] for one candidate. *)
Definition scoreCandidate (rt : Runtime) (h : t) (userID : string)
           (rec : HybridRecommendation.t) : HybridRecommendation.t :=
  let baseScore :=
    HybridFilteringConfig.CollaborativeWeight (config h)
    * HybridRecommendation.CollaborativeScore rec
    + HybridFilteringConfig.ContentBasedWeight (config h)
      * HybridRecommendation.ContentBasedScore rec in
  let diversityScore :=
    if HybridFilteringConfig.EnableDiversity (config h)
    then calculateDiversityScore rt h userID (HybridRecommendation.ItemID rec) else 0 in
  let popularityScore :=
    if HybridFilteringConfig.EnablePopularity (config h)
    then calculatePopularityScore rt h (HybridRecommendation.ItemID rec) else 0 in
  let recencyScore :=
    if HybridFilteringConfig.EnableRecency (config h)
    then calculateRecencyScore rt h (HybridRecommendation.ItemID rec) else 0 in
  let finalScore :=
    baseScore
    + HybridFilteringConfig.DiversityWeight (config h) * diversityScore
    + HybridFilteringConfig.PopularityWeight (config h) * popularityScore
    + HybridFilteringConfig.RecencyWeight (config h) * recencyScore in
  let rec :=
    {| HybridRecommendation.ItemID := HybridRecommendation.ItemID rec;
       HybridRecommendation.Score := finalScore;
       HybridRecommendation.CollaborativeScore :=
         HybridRecommendation.CollaborativeScore rec;
       HybridRecommendation.ContentBasedScore :=
         HybridRecommendation.ContentBasedScore rec;
       HybridRecommendation.DiversityScore := diversityScore;
       HybridRecommendation.PopularityScore := popularityScore;
       HybridRecommendation.RecencyScore := recencyScore;
       HybridRecommendation.Confidence := HybridRecommendation.Confidence rec;
       HybridRecommendation.Reason := HybridRecommendation.Reason rec |} in
  {| HybridRecommendation.ItemID := HybridRecommendation.ItemID rec;
     HybridRecommendation.Score := HybridRecommendation.Score rec;
     HybridRecommendation.CollaborativeScore := HybridRecommendation.CollaborativeScore rec;
     HybridRecommendation.ContentBasedScore := HybridRecommendation.ContentBasedScore rec;
     HybridRecommendation.DiversityScore := HybridRecommendation.DiversityScore rec;
     HybridRecommendation.PopularityScore := HybridRecommendation.PopularityScore rec;
     HybridRecommendation.RecencyScore := HybridRecommendation.RecencyScore rec;
     HybridRecommendation.Confidence := calculateConfidence rec;
     HybridRecommendation.Reason := generateRecommendationReason rec |}.

Definition calculateHybridScores (rt : Runtime) (h : t) (userID : string)
           (recommendations : GoMap.t HybridRecommendation.t)
  : list HybridRecommendation.t :=
  map (fun entry => scoreCandidate rt h userID (snd entry)) (range rt recommendations).

(** [l[i] = x] *)
Fixpoint list_set {A : Type} (l : list A) (i : nat) (x : A) : list A :=
  match l, i with
  | [], _ => []
  | _ :: l', O => x :: l'
  | y :: l', S i' => y :: list_set l' i' x
  end.

(** [l[i], l[j] = l[j], l[i]] *)
Definition swap {A : Type} (l : list A) (i j : nat) : list A :=
  match nth_error l i, nth_error l j with
  | Some a, Some b => list_set (list_set l i b) j a
  | _, _ => l
  end.

(** The inner loop of [applyDiversityOptimization]: [bestIdx] ([None]
    for -1) and [bestDiversityScore] after scanning positions [i..]. *)
Definition bestCandidate (h : t) (selectedCategories : GoMap.t bool)
           (recommendations : list HybridRecommendation.t) (i : nat) : option nat * R :=
  fold_left
    (fun best j =>
       match nth_error recommendations j with
       | None => best
       | Some rec =>
           match GoMap.get (ContentBasedFilteringEngine.itemFeatures (contentBased h))
                           (HybridRecommendation.ItemID rec) with
           | None => best
           | Some itemFeatures =>
               let diversityScore :=
                 if GoMap.index false selectedCategories (ItemFeatures.Category itemFeatures)
                 then HybridRecommendation.DiversityScore rec * 0.5
                 else HybridRecommendation.DiversityScore rec in
               if Rgtb diversityScore (snd best) then (Some j, diversityScore) else best
           end
       end)
    (seq i (List.length recommendations - i)) (None, -1).

(** [selectedCategories[category] = true] when the item is in the catalog *)
Definition selectCategory (h : t) (selectedCategories : GoMap.t bool)
           (rec : HybridRecommendation.t) : GoMap.t bool :=
  match GoMap.get (ContentBasedFilteringEngine.itemFeatures (contentBased h))
                  (HybridRecommendation.ItemID rec) with
  | Some itemFeatures =>
      GoMap.set selectedCategories (ItemFeatures.Category itemFeatures) true
  | None => selectedCategories
  end.

Definition applyDiversityOptimization (h : t)
           (recommendations : list HybridRecommendation.t)
  : list HybridRecommendation.t :=
  if (List.length recommendations <=? 1)%nat then recommendations else
  match recommendations with
  | [] => []
  | first :: _ =>
      snd
        (fold_left
           (fun st i =>
              let recommendations := fst (fst st) in
              let selectedCategories := snd (fst st) in
              let optimized := snd st in
              match fst (bestCandidate h selectedCategories recommendations i) with
              | None => st
              | Some bestIdx =>
                  let recommendations := swap recommendations i bestIdx in
                  match nth_error recommendations i with
                  | None => st
                  | Some chosen =>
                      (recommendations,
                       selectCategory h selectedCategories chosen,
                       optimized ++ [chosen])
                  end
              end)
           (seq 1 (List.length recommendations - 1))
           (recommendations, selectCategory h [] first, [first]))
  end.

Definition GenerateRecommendations (rt : Runtime) (h : t) (userID : string) (topN : nat)
  : list HybridRecommendation.t :=
  let collaborativeRecs :=
    CollaborativeFilteringEngine.UserBasedRecommend rt (collaborative h) userID (topN * 2) in
  let contentBasedRecs :=
    ContentBasedFilteringEngine.GenerateRecommendations rt (contentBased h) userID
                                                        (topN * 2) in
  let allRecommendations := mergeRecommendations collaborativeRecs contentBasedRecs in
  let hybridRecs := calculateHybridScores rt h userID allRecommendations in
  let hybridRecs :=
    if HybridFilteringConfig.EnableDiversity (config h)
    then applyDiversityOptimization h hybridRecs else hybridRecs in
  truncate topN
    (sort_slice rt _
       (fun a b => Rgtb (HybridRecommendation.Score a) (HybridRecommendation.Score b))
       hybridRecs).





End HybridFilteringEngine.

End Algorithms.


(** * The engine manager: [recommendation/engine.go] *)

Module Recommendation.

(** An [error] value: a [*RecommendationError] of the manager or the
    error of an engine. *)
Inductive error : Type :=
| RecommendationError (Message : string)
| EngineError (err : Datasource.error).

Module RecommendationRequest.
Record t : Type := {
  UserID : string;
  Scenario : string;
  Context : option nat;
  Filters : option nat;
  Limit : Z;
  Algorithm : string;
  Parameters : option nat
}.
End RecommendationRequest.

Module RecommendationResult.
Record t : Type := {
  ItemID : string;
  Score : R;
  Reason : string;
  Algorithm : string;
  Confidence : R;
  Metadata : option nat
}.
End RecommendationResult.

Module RecommendationResponse.
Record t : Type := {
  UserID : string;
  Recommendations : list RecommendationResult.t;
  TotalCount : Z;
  Algorithm : string;
  ProcessingTime : Z;
  Metadata : option nat
}.
End RecommendationResponse.

(** What the manager uses of a [RecommendationEngine]: the pair
    [(response, err)] its [Recommend] returns, [None] for nil. *)
Module RecommendationEngine.
Record t : Type := {
  Recommend : RecommendationRequest.t -> option RecommendationResponse.t * option error
}.
End RecommendationEngine.

Module EngineConfig.
Record t : Type := {
  DefaultAlgorithm : string;
  MaxRecommendations : Z;
  MinConfidenceScore : R;
  EnableFallback : bool;
  FallbackAlgorithm : string
}.
End EngineConfig.

Module RecommendationEngineManager.

Record t : Type := {
  engines : GoMap.t RecommendationEngine.t;
  config : EngineConfig.t
}.

Definition NewRecommendationEngineManager : t :=
  {| engines := [];
     config :=
       {| EngineConfig.DefaultAlgorithm := "collaborative_filtering";
          EngineConfig.MaxRecommendations := 50;
          EngineConfig.MinConfidenceScore := 0.1;
          EngineConfig.EnableFallback := true;
          EngineConfig.FallbackAlgorithm := "content_based_filtering" |} |}.

Definition RegisterEngine (m : t) (algorithm : string) (engine : RecommendationEngine.t)
  : t :=
  {| engines := GoMap.set (engines m) algorithm engine; config := config m |}.

Definition filterLowConfidenceRecommendations (rt : Runtime) (m : t)
           (recommendations : list RecommendationResult.t)
  : list RecommendationResult.t :=
  let filtered :=
    filter (fun rec => Rgeb (RecommendationResult.Confidence rec)
                            (EngineConfig.MinConfidenceScore (config m)))
           recommendations in
  sort_slice rt _
    (fun a b => Rgtb (RecommendationResult.Score a) (RecommendationResult.Score b))
    filtered.

(** [request.Algorithm = algorithm] on the copy of the request *)
Definition set_Algorithm (request : RecommendationRequest.t) (algorithm : string)
  : RecommendationRequest.t :=
  {| RecommendationRequest.UserID := RecommendationRequest.UserID request;
     RecommendationRequest.Scenario := RecommendationRequest.Scenario request;
     RecommendationRequest.Context := RecommendationRequest.Context request;
     RecommendationRequest.Filters := RecommendationRequest.Filters request;
     RecommendationRequest.Limit := RecommendationRequest.Limit request;
     RecommendationRequest.Algorithm := algorithm;
     RecommendationRequest.Parameters := RecommendationRequest.Parameters request |}.

(** [Recommend]. [elapsed] is [time.Since(startTime).Milliseconds()];
    the result is the pair [(response, err)], or [None] when the call
    panics (an engine that returns a nil response with a nil error). *)
Definition Recommend (rt : Runtime) (elapsed : Z) (m : t)
           (request : RecommendationRequest.t)
  : option (option RecommendationResponse.t * option error) :=
  let algorithm :=
    if String.eqb (RecommendationRequest.Algorithm request) ""
    then EngineConfig.DefaultAlgorithm (config m)
    else RecommendationRequest.Algorithm request in
  match GoMap.get (engines m) algorithm with
  | None => Some (None, Some (RecommendationError ("算法引擎不存在: " ++ algorithm)))
  | Some engine =>
      match RecommendationEngine.Recommend engine request with
      | (_, Some err) =>
          if EngineConfig.EnableFallback (config m)
             && negb (String.eqb algorithm (EngineConfig.FallbackAlgorithm (config m)))
          then
            match GoMap.get (engines m) (EngineConfig.FallbackAlgorithm (config m)) with
            | Some fallbackEngine =>
                Some (RecommendationEngine.Recommend fallbackEngine
                        (set_Algorithm request
                           (EngineConfig.FallbackAlgorithm (config m))))
            | None => Some (None, Some err)
            end
          else Some (None, Some err)
      | (None, None) => None
      | (Some response, None) =>
          let filteredRecommendations :=
            filterLowConfidenceRecommendations
              rt m (RecommendationResponse.Recommendations response) in
          let filteredRecommendations :=
            if (RecommendationRequest.Limit request
                <? Z.of_nat (List.length filteredRecommendations))%Z
               && (0 <? RecommendationRequest.Limit request)%Z
            then firstn (Z.to_nat (RecommendationRequest.Limit request))
                        filteredRecommendations
            else filteredRecommendations in
          Some (Some {| RecommendationResponse.UserID :=
                          RecommendationResponse.UserID response;
                        RecommendationResponse.Recommendations := filteredRecommendations;
                        RecommendationResponse.TotalCount :=
                          Z.of_nat (List.length filteredRecommendations);
                        RecommendationResponse.Algorithm :=
                          RecommendationResponse.Algorithm response;
                        RecommendationResponse.ProcessingTime := elapsed;
                        RecommendationResponse.Metadata :=
                          RecommendationResponse.Metadata response |},
                None)
      end
  end.

End RecommendationEngineManager.

End Recommendation.

(** * The in-memory data source *)

Module MemoryDataSource.

Definition Rltb (x y : R) : bool := if Rlt_dec x y then true else false.

Module UserBehaviorRecord.
Record t : Type := {
  UserID : string;
  ItemID : string;
  Behavior : string;
  Value : R;
  Timestamp : Z;
  Context : option nat
}.
End UserBehaviorRecord.

Module UserRecord.
Record t : Type := {
  UserID : string;
  Demographics : option nat;
  Preferences : option nat;
  BehaviorStats : option nat
}.
End UserRecord.

Module SimilarUserRecord.
Record t : Type := {
  UserID : string;
  Similarity : R
}.
End SimilarUserRecord.

Record t : Type := {
  name : string;
  userBehaviors : GoMap.t (list UserBehaviorRecord.t);
  items : GoMap.t Datasource.ItemRecord.t;
  users : GoMap.t UserRecord.t;
  popularItems : GoMap.t (list Datasource.ItemRecord.t)
}.

(** The two loops shared by [sortItemsByPopularity] and
    [sortSimilarUsers]: neighbours [j], [j+1] are exchanged when
    [less l[j] l[j+1]]. *)
Definition bubbleSort {A : Type} (less : A -> A -> bool) (l : list A) : list A :=
  fold_left
    (fun l i =>
       fold_left
         (fun l j =>
            match nth_error l j, nth_error l (S j) with
            | Some a, Some b =>
                if less a b then Algorithms.HybridFilteringEngine.swap l j (S j) else l
            | _, _ => l
            end)
         (seq 0 (List.length l - i - 1)) l)
    (seq 0 (List.length l - 1)) l.

Definition sortItemsByPopularity (items : list Datasource.ItemRecord.t)
  : list Datasource.ItemRecord.t :=
  bubbleSort (fun a b => Rltb (Datasource.ItemRecord.Popularity a)
                              (Datasource.ItemRecord.Popularity b))
             items.

Definition sortSimilarUsers (users : list SimilarUserRecord.t)
  : list SimilarUserRecord.t :=
  bubbleSort (fun a b => Rltb (SimilarUserRecord.Similarity a)
                              (SimilarUserRecord.Similarity b))
             users.


(** [startTime] and [endTime] are instants, like [Timestamp]. *)
Definition GetUserBehaviorData (m : t) (userID : string) (startTime endTime : Z)
  : list UserBehaviorRecord.t * option Datasource.error :=
  match GoMap.get (userBehaviors m) userID with
  | None => ([], None)
  | Some behaviors =>
      (filter (fun behavior =>
                 (startTime <? UserBehaviorRecord.Timestamp behavior)%Z
                 && (UserBehaviorRecord.Timestamp behavior <? endTime)%Z)
              behaviors,
       None)
  end.

Definition GetItemData (m : t) (itemIDs : list string)
  : list Datasource.ItemRecord.t * option Datasource.error :=
  (flat_map (fun itemID => match GoMap.get (items m) itemID with
                           | Some item => [item]
                           | None => []
                           end) itemIDs,
   None).

Definition GetUserData (m : t) (userID : string)
  : option UserRecord.t * option Datasource.error :=
  match GoMap.get (users m) userID with
  | None => (None, Some (Datasource.New ("用户不存在: " ++ userID)))
  | Some user => (Some user, None)
  end.



Definition HealthCheck (m : t) : option Datasource.error := None.

Definition GetName (m : t) : string := name m.

Definition Close (m : t) : option Datasource.error := None.


End MemoryDataSource.

(** * The data source factory: [datasource/factory.go] *)

Module DataSourceConfig.
Record t : Type := {
  Type_ : string;
  Name : string;
  Address : string;
  Port : Z;
  Username : string;
  Password : string;
  Database : string;
  Options : option nat
}.
End DataSourceConfig.

Module DataSourceFactory.

(** A [DataSourceCreator] returns the pair [(source, err)]; a
    [DataSource] is an interface value, [None] for nil. *)
Definition DataSourceCreator : Type :=
  DataSourceConfig.t -> option Datasource.DataSource.t * option Datasource.error.

Record t : Type := {
  creators : GoMap.t DataSourceCreator;
  sources : GoMap.t (option Datasource.DataSource.t)
}.

Definition RegisterCreator (f : t) (dataSourceType : string) (creator : DataSourceCreator)
  : t :=
  {| creators := GoMap.set (creators f) dataSourceType creator;
     sources := sources f |}.

(** The in-memory source as the factory sees it. *)
Definition NewMemoryDataSource (config : DataSourceConfig.t) : Datasource.DataSource.t :=
  {| Datasource.DataSource.GetName := DataSourceConfig.Name config;
     Datasource.DataSource.HealthCheck := None;
     Datasource.DataSource.Close := None |}.

Definition NewDataSourceFactory : t :=
  RegisterCreator {| creators := []; sources := [] |} "memory"
                  (fun config => (Some (NewMemoryDataSource config), None)).

Definition CreateDataSource (f : t) (config : DataSourceConfig.t)
  : t * (option Datasource.DataSource.t * option Datasource.error) :=
  match GoMap.get (creators f) (DataSourceConfig.Type_ config) with
  | None =>
      (f, (None, Some (Datasource.New ("不支持的数据源类型: "
                                       ++ DataSourceConfig.Type_ config))))
  | Some creator =>
      match creator config with
      | (_, Some err) => (f, (None, Some (Datasource.Wrap "创建数据源失败" err)))
      | (source, None) =>
          ({| creators := creators f;
              sources := GoMap.set (sources f) (DataSourceConfig.Name config) source |},
           (source, None))
      end
  end.

Definition GetDataSource (f : t) (name : string)
  : option Datasource.DataSource.t * option Datasource.error :=
  match GoMap.get (sources f) name with
  | None => (None, Some (Datasource.New ("数据源不存在: " ++ name)))
  | Some source => (source, None)
  end.

(** [CreateMultiDataSource]: the factory it leaves behind, and the
    sources of the [MultiDataSource] or the error. *)
Fixpoint createAll (f : t) (configs : list DataSourceConfig.t)
         (sources : list (option Datasource.DataSource.t))
  : t * (option (list (option Datasource.DataSource.t)) * option Datasource.error) :=
  match configs with
  | [] => (f, (Some sources, None))
  | config :: rest =>
      match CreateDataSource f config with
      | (f', (_, Some err)) =>
          (f', (None,
                Some (Datasource.Wrap
                        ("创建数据源 " ++ DataSourceConfig.Name config ++ " 失败") err)))
      | (f', (source, None)) => createAll f' rest (sources ++ [source])
      end
  end.

Definition CreateMultiDataSource (f : t) (configs : list DataSourceConfig.t)
  : t * (option (list (option Datasource.DataSource.t)) * option Datasource.error) :=
  createAll f configs [].

Definition GetAllDataSources (rt : Runtime) (f : t)
  : GoMap.t (option Datasource.DataSource.t) :=
  fold_left (fun result entry => GoMap.set result (fst entry) (snd entry))
            (range rt (sources f)) [].

(** [Close]: the factory with its cache emptied and [lastErr], or
    [None] when a cached source is nil and calling its [Close] panics. *)
Definition Close (rt : Runtime) (f : t) : option (t * option Datasource.error) :=
  match
    Datasource.foldM
      (fun lastErr entry =>
         match snd entry with
         | None => None
         | Some source =>
             match Datasource.DataSource.Close source with
             | Some err => Some (Some err)
             | None => Some lastErr
             end
         end)
      (range rt (sources f)) None
  with
  | Some lastErr => Some ({| creators := creators f; sources := [] |}, lastErr)
  | None => None
  end.

End DataSourceFactory.
(** * Verified properties *)

(** ** Facts about maps, [range] and ranking *)

Lemma get_None_not_In {V : Type} (m : GoMap.t V) (k : string) :
  GoMap.get m k = None <-> ~ In k (GoMap.keys m).
Proof.
  induction m as [|[k' v] m IH]; simpl; [tauto|].
  destruct (String.eqb_spec k' k) as [->|Hne].
  - split; [discriminate | intros H; exfalso; apply H; now left].
  - rewrite IH. split; intros H; [intros [E|Hin]; [congruence | tauto] | tauto].
Qed.

Lemma mem_true_In {V : Type} (m : GoMap.t V) (k : string) :
  GoMap.mem m k = true <-> In k (GoMap.keys m).
Proof.
  unfold GoMap.mem. destruct (GoMap.get m k) eqn:E.
  - split; [intros _ | reflexivity].
    destruct (in_dec string_dec k (GoMap.keys m)) as [H|H]; [exact H|].
    apply get_None_not_In in H. congruence.
  - apply get_None_not_In in E. split; [discriminate | tauto].
Qed.

Lemma get_In {V : Type} (m : GoMap.t V) (k : string) (v : V) :
  GoMap.get m k = Some v -> In (k, v) m.
Proof.
  induction m as [|[k' v'] m IH]; simpl; [discriminate|].
  destruct (String.eqb_spec k' k) as [->|Hne].
  - intros [= ->]. now left.
  - intros H. right. now apply IH.
Qed.

Lemma Forall_set {V : Type} (P : string * V -> Prop) (m : GoMap.t V) (k : string) (v : V) :
  Forall P m -> (forall k', P (k', v)) -> Forall P (GoMap.set m k v).
Proof.
  intros Hm Hv. induction Hm as [|[k0 v0] m H0 Hm IH]; simpl.
  - repeat constructor. apply Hv.
  - destruct (String.eqb k0 k); constructor; auto.
Qed.

Lemma get_set_same {V : Type} (m : GoMap.t V) (k : string) (v : V) :
  GoMap.get (GoMap.set m k v) k = Some v.
Proof.
  induction m as [|[k' v'] m IH]; simpl.
  - now rewrite String.eqb_refl.
  - destruct (String.eqb_spec k' k) as [->|Hne]; simpl.
    + now rewrite String.eqb_refl.
    + apply String.eqb_neq in Hne. now rewrite Hne.
Qed.

Lemma get_set_other {V : Type} (m : GoMap.t V) (k k' : string) (v : V) :
  k <> k' -> GoMap.get (GoMap.set m k v) k' = GoMap.get m k'.
Proof.
  intros Hne. induction m as [|[k0 v0] m IH]; simpl.
  - apply String.eqb_neq in Hne. now rewrite Hne.
  - destruct (String.eqb_spec k0 k) as [->|Hne0]; simpl.
    + apply String.eqb_neq in Hne. now rewrite Hne.
    + now rewrite IH.
Qed.

Lemma keys_set {V : Type} (m : GoMap.t V) (k k' : string) (v : V) :
  In k' (GoMap.keys (GoMap.set m k v)) <-> k' = k \/ In k' (GoMap.keys m).
Proof.
  induction m as [|[k0 v0] m IH]; simpl.
  - intuition congruence.
  - destruct (String.eqb_spec k0 k) as [->|Hne]; simpl.
    + intuition congruence.
    + rewrite IH. intuition congruence.
Qed.

Lemma wf_set {V : Type} (m : GoMap.t V) (k : string) (v : V) :
  GoMap.wf m -> GoMap.wf (GoMap.set m k v).
Proof.
  unfold GoMap.wf. induction m as [|[k0 v0] m IH]; simpl; intros H.
  - repeat constructor. simpl; tauto.
  - inversion H as [|? ? Hnotin Hnd]; subst.
    destruct (String.eqb_spec k0 k) as [->|Hne]; simpl.
    + now constructor.
    + constructor; [|now apply IH].
      intros Hin. apply keys_set in Hin. destruct Hin; [congruence | tauto].
Qed.

Lemma range_In {V : Type} (rt : Runtime) (m : GoMap.t V) (e : string * V) :
  In e (range rt m) <-> In e m.
Proof.
  unfold range. split; apply Permutation_in;
    [ | symmetry ]; apply range_order_perm.
Qed.

Lemma range_keys_perm {V : Type} (rt : Runtime) (m : GoMap.t V) :
  Permutation (map fst (range rt m)) (GoMap.keys m).
Proof. unfold range, GoMap.keys. apply Permutation_map, range_order_perm. Qed.

Lemma truncate_incl {A : Type} (n : nat) (l : list A) (x : A) :
  In x (truncate n l) -> In x l.
Proof.
  unfold truncate. destruct (n <? List.length l)%nat; [|tauto].
  intros H. rewrite <- (firstn_skipn n l). apply in_or_app. now left.
Qed.

Lemma sort_slice_In {A : Type} (rt : Runtime) (less : A -> A -> bool) (l : list A) (x : A) :
  In x (sort_slice rt A less l) <-> In x l.
Proof.
  split; apply Permutation_in; [ | symmetry ]; apply sort_slice_perm.
Qed.

Lemma StronglySorted_firstn {A : Type} (P : A -> A -> Prop) (n : nat) (l : list A) :
  StronglySorted P l -> StronglySorted P (firstn n l).
Proof.
  intros H. revert n. induction H as [|x l Hs IH Hall]; intros [|n]; simpl;
    try constructor.
  - apply IH.
  - rewrite Forall_forall in *. intros y Hy. apply Hall.
    rewrite <- (firstn_skipn n l). apply in_or_app. now left.
Qed.

Lemma truncate_sorted {A : Type} (P : A -> A -> Prop) (n : nat) (l : list A) :
  StronglySorted P l -> StronglySorted P (truncate n l).
Proof.
  unfold truncate. destruct (n <? List.length l)%nat; [|tauto].
  apply StronglySorted_firstn.
Qed.

Lemma truncate_length {A : Type} (n : nat) (l : list A) :
  (List.length (truncate n l) <= n)%nat.
Proof.
  unfold truncate. destruct (Nat.ltb_spec n (List.length l)).
  - rewrite length_firstn. lia.
  - lia.
Qed.

Lemma fold_left_invariant {A S : Type} (P : S -> Prop) (f : S -> A -> S)
      (l : list A) (s : S) :
  P s -> (forall s x, In x l -> P s -> P (f s x)) -> P (fold_left f l s).
Proof.
  revert s. induction l as [|x l IH]; simpl; intros s Hs Hstep; [exact Hs|].
  apply IH; [apply Hstep; [now left | exact Hs]|].
  intros s' y Hy. apply Hstep. now right.
Qed.

(** ** Recall merge *)

Section MergeExamples.
Import Datasource.

(** Item ["x"] as a source hands it over, with its metadata reference. *)
Definition item_x (metadata : option nat) : ItemRecord.t :=
  {| ItemRecord.ItemID := "x";
     ItemRecord.Category := "books";
     ItemRecord.Title := "";
     ItemRecord.Description := "";
     ItemRecord.Features := None;
     ItemRecord.Metadata := metadata;
     ItemRecord.Popularity := 0 |}.

Definition result_of (items : list ItemRecord.t) (score : R) : RecallResult.t :=
  {| RecallResult.Items := items;
     RecallResult.Score := score;
     RecallResult.Source := "popular_items";
     RecallResult.Metadata := None |}.

(** Sources ["a"] and ["b"] both recall item ["x"], each with a metadata
    map of its own. *)
Definition two_sources (ma mb : option nat) (sa sb : R) : MultiRecall :=
  AddResult (AddResult NewMultiRecall "a" (result_of [item_x ma] sa))
            "b" (result_of [item_x mb] sb).

(** The metadata maps of the two records as the sources first hand them
    over, without a ["sources"] entry. *)
Definition heap_of_fresh_records : Heap :=
  [[("release_date", VString "2023-09-12")]; [("release_date", VString "2023-09-12")]].

(** The two metadata maps after an earlier merge has written a
    ["sources"] entry into each. *)
Definition heap_after_earlier_merge : Heap :=
  [[("sources", VStrings ["a"])]; [("sources", VStrings ["b"])]].

End MergeExamples.

(** C1. [MergeResults] on two sources that both hold item ["x"]: the item
    is returned once, but with the score of the source visited first
    whatever the other score is, and the name of the second source is
    appended to the metadata map of the discarded copy, not to that of
    the returned item. Which source is first depends on the run. With
    scores 0.6 and 0.8 and ["a"] first the returned popularity is 0.6,
    not the maximum, and the provenance is [["a"]] only. *)
Theorem MergeResults_collision_keeps_first_source :
  (forall sa sb : R,
      Datasource.MergeResults inOrder heap_after_earlier_merge
        (two_sources (Some 0%nat) (Some 1%nat) sa sb)
      = Some ([Datasource.set_Popularity (item_x (Some 0%nat)) sa],
              [[("sources", Datasource.VStrings ["a"])];
               [("sources", Datasource.VStrings ["b"; "b"])]]))
  /\ (forall sa sb : R,
         Datasource.MergeResults rotated heap_after_earlier_merge
           (two_sources (Some 0%nat) (Some 1%nat) sa sb)
         = Some ([Datasource.set_Popularity (item_x (Some 1%nat)) sb],
                 [[("sources", Datasource.VStrings ["a"; "a"])];
                  [("sources", Datasource.VStrings ["b"])]]))
  /\ (exists item h,
         Datasource.MergeResults inOrder heap_after_earlier_merge
           (two_sources (Some 0%nat) (Some 1%nat) 0.6 0.8) = Some ([item], h)
         /\ Datasource.ItemRecord.Popularity item = 0.6
         /\ Datasource.ItemRecord.Popularity item <> Rmax 0.6 0.8
         /\ Datasource.sourcesOf h item = Some (Datasource.VStrings ["a"])).
Proof.
  assert (E : forall sa sb : R,
      Datasource.MergeResults inOrder heap_after_earlier_merge
        (two_sources (Some 0%nat) (Some 1%nat) sa sb)
      = Some ([Datasource.set_Popularity (item_x (Some 0%nat)) sa],
              [[("sources", Datasource.VStrings ["a"])];
               [("sources", Datasource.VStrings ["b"; "b"])]])).
  { intros sa sb. unfold Datasource.MergeResults, two_sources, range. cbn.
    destruct (Rgtb sb sa); reflexivity. }
  split; [exact E|]. split.
  { intros sa sb. unfold Datasource.MergeResults, two_sources, range. cbn.
    destruct (Rgtb sa sb); reflexivity. }
  eexists; eexists. split; [apply E|]. cbn.
  repeat split.
  unfold Rmax. destruct (Rle_dec 0.6 0.8); lra.
Qed.

(** C2. [MergeResults] panics when an item identifier comes up a second
    time and the incoming record has a nil metadata map, or a map
    without a ["sources"] entry: across two sources, and twice within
    the list of one source. *)
Theorem MergeResults_panics_on_collision :
  Datasource.MergeResults inOrder [] (two_sources None None 0.8 0.7) = None
  /\ Datasource.MergeResults inOrder heap_of_fresh_records
       (two_sources (Some 0%nat) (Some 1%nat) 0.8 0.7) = None
  /\ Datasource.MergeResults inOrder []
       (Datasource.AddResult Datasource.NewMultiRecall "a"
          (result_of [item_x None; item_x None] 0.8)) = None.
Proof.
  repeat split;
    unfold Datasource.MergeResults, two_sources, range; cbn; rcmp; reflexivity.
Qed.

(** ** Health check and close *)

Section HealthExamples.
Import Datasource.

Definition source (name : string) (health close : option error) : DataSource.t :=
  {| DataSource.GetName := name;
     DataSource.HealthCheck := health;
     DataSource.Close := close |}.

Definition healthy (s : DataSource.t) : Prop := DataSource.HealthCheck s = None.
Definition closes (s : DataSource.t) : Prop := DataSource.Close s = None.

End HealthExamples.

Lemma Close_fold_calls (sources : list Datasource.DataSource.t)
      (calls : list string) (lastErr : option Datasource.error) :
  fst (fold_left
         (fun '(calls, lastErr) source =>
            match Datasource.DataSource.Close source with
            | Some err => (calls ++ [Datasource.DataSource.GetName source], Some err)
            | None => (calls ++ [Datasource.DataSource.GetName source], lastErr)
            end) sources (calls, lastErr))
  = calls ++ map Datasource.DataSource.GetName sources.
Proof.
  revert calls lastErr.
  induction sources as [|s rest IH]; intros calls lastErr; simpl.
  - now rewrite app_nil_r.
  - destruct (Datasource.DataSource.Close s); rewrite IH, <- app_assoc; reflexivity.
Qed.

Lemma Close_fold_all_close (sources : list Datasource.DataSource.t)
      (calls : list string) (lastErr : option Datasource.error) :
  Forall closes sources ->
  snd (fold_left
         (fun '(calls, lastErr) source =>
            match Datasource.DataSource.Close source with
            | Some err => (calls ++ [Datasource.DataSource.GetName source], Some err)
            | None => (calls ++ [Datasource.DataSource.GetName source], lastErr)
            end) sources (calls, lastErr))
  = lastErr.
Proof.
  intros H. revert calls.
  induction H as [|s rest Hs _ IH]; intros calls; simpl; [reflexivity|].
  unfold closes in Hs. rewrite Hs. apply IH.
Qed.

(** C9, as the code has it. [Close] calls [Close] on every source, in
    order, whether or not an earlier one failed, and returns the error
    of the last source that failed (nil when none did). [HealthCheck]
    stops at the first source that fails and returns that one error,
    wrapped with the name of the source; it returns nil when every
    source is healthy. Neither builds a per-source report. *)
Theorem Close_attempts_all_HealthCheck_stops (sources : list Datasource.DataSource.t) :
  fst (Datasource.Close sources) = map Datasource.DataSource.GetName sources
  /\ (Forall closes sources -> snd (Datasource.Close sources) = None)
  /\ (forall pre s err post,
         sources = pre ++ s :: post ->
         Datasource.DataSource.Close s = Some err ->
         Forall closes post ->
         snd (Datasource.Close sources) = Some err)
  /\ (Forall healthy sources ->
      Datasource.HealthCheck sources
      = (map Datasource.DataSource.GetName sources, None))
  /\ (forall pre s err post,
         sources = pre ++ s :: post ->
         Forall healthy pre ->
         Datasource.DataSource.HealthCheck s = Some err ->
         Datasource.HealthCheck sources
         = (map Datasource.DataSource.GetName pre ++ [Datasource.DataSource.GetName s],
            Some (Datasource.Wrap
                    ("数据源 " ++ Datasource.DataSource.GetName s ++ " 健康检查失败")
                    err))).
Proof.
  repeat split.
  - unfold Datasource.Close. now rewrite Close_fold_calls.
  - intros H. unfold Datasource.Close. now apply Close_fold_all_close.
  - intros pre s err post -> Hs Hpost. unfold Datasource.Close.
    rewrite fold_left_app. simpl.
    destruct (fold_left _ pre ([], None)) as [calls lastErr].
    rewrite Hs. now apply Close_fold_all_close.
  - induction 1 as [|s rest Hs _ IH]; simpl; [reflexivity|].
    unfold healthy in Hs. now rewrite Hs, IH.
  - intros pre s err post -> Hpre Hs.
    induction Hpre as [|p pre Hp _ IH]; simpl.
    + now rewrite Hs.
    + unfold healthy in Hp. now rewrite Hp, IH.
Qed.

(** The theorem at three sources of which the second and third fail. *)
Lemma Close_attempts_all_HealthCheck_stops_witness :
  snd (Datasource.Close
         [source "s1" None None;
          source "s2" (Some (Datasource.New "down")) (Some (Datasource.New "busy"));
          source "s3" (Some (Datasource.New "slow")) (Some (Datasource.New "stuck"))])
  = Some (Datasource.New "stuck")
  /\ fst (Datasource.HealthCheck
         [source "s1" None None;
          source "s2" (Some (Datasource.New "down")) (Some (Datasource.New "busy"));
          source "s3" (Some (Datasource.New "slow")) (Some (Datasource.New "stuck"))])
     = ["s1"; "s2"].
Proof.
  destruct (Close_attempts_all_HealthCheck_stops
              [source "s1" None None;
               source "s2" (Some (Datasource.New "down")) (Some (Datasource.New "busy"));
               source "s3" (Some (Datasource.New "slow")) (Some (Datasource.New "stuck"))])
    as (_ & _ & Hclose & _ & Hhealth).
  split.
  - apply (Hclose [source "s1" None None;
                   source "s2" (Some (Datasource.New "down")) (Some (Datasource.New "busy"))]
                  (source "s3" (Some (Datasource.New "slow")) (Some (Datasource.New "stuck")))
                  (Datasource.New "stuck") []).
    + reflexivity.
    + reflexivity.
    + constructor.
  - rewrite (Hhealth [source "s1" None None]
                     (source "s2" (Some (Datasource.New "down")) (Some (Datasource.New "busy")))
                     (Datasource.New "down")
                     [source "s3" (Some (Datasource.New "slow")) (Some (Datasource.New "stuck"))]).
    + reflexivity.
    + reflexivity.
    + repeat constructor.
    + reflexivity.
Defined.

(** C9 as stated fails: with a failing first source [HealthCheck] never
    calls the second one, and when two sources fail to close [Close]
    returns one error only, the last. *)
Lemma HealthCheck_skips_Close_keeps_last :
  fst (Datasource.HealthCheck
         [source "s1" (Some (Datasource.New "down")) None; source "s2" None None])
  <> map Datasource.DataSource.GetName
       [source "s1" (Some (Datasource.New "down")) None; source "s2" None None]
  /\ snd (Datasource.Close
            [source "s1" None (Some (Datasource.New "busy"));
             source "s2" None (Some (Datasource.New "stuck"))])
     = Some (Datasource.New "stuck").
Proof. split; [discriminate | reflexivity]. Qed.

(** ** Similarity *)

Section SimilaritySpec.
Import Algorithms.

(** The sum of a list of numbers, in no particular order. *)
Definition Rsum (l : list R) : R := fold_right Rplus 0 l.

(** The items rated by both users. *)
Definition coRated (ratings1 ratings2 : GoMap.t R) : list string :=
  filter (GoMap.mem ratings2) (GoMap.keys ratings1).

Definition meanOver (ratings : GoMap.t R) (items : list string) : R :=
  Rsum (map (GoMap.at0 ratings) items) / INR (List.length items).

(** The sum of squared deviations from the mean over [items]. *)
Definition centeredVariance (ratings : GoMap.t R) (items : list string) : R :=
  Rsum (map (fun i => (GoMap.at0 ratings i - meanOver ratings items)
                      * (GoMap.at0 ratings i - meanOver ratings items)) items).

(** Pearson's correlation coefficient of the two rating vectors over
    [items]. *)
Definition pearson (ratings1 ratings2 : GoMap.t R) (items : list string) : R :=
  Rsum (map (fun i => (GoMap.at0 ratings1 i - meanOver ratings1 items)
                      * (GoMap.at0 ratings2 i - meanOver ratings2 items)) items)
  / sqrt (centeredVariance ratings1 items * centeredVariance ratings2 items).

(** [userSimilarity] as the specification words it. *)
Definition userSimilarity_spec (c : CollaborativeFilteringEngine.t)
           (userID1 userID2 : string) : R :=
  let ratings1 := GoMap.index [] (CollaborativeFilteringEngine.userItemMatrix c) userID1 in
  let ratings2 := GoMap.index [] (CollaborativeFilteringEngine.userItemMatrix c) userID2 in
  if (List.length ratings1 =? 0)%nat || (List.length ratings2 =? 0)%nat then 0 else
  let commonItems := coRated ratings1 ratings2 in
  if (Z.of_nat (List.length commonItems)
      <? CollaborativeFilteringConfig.MinCommonItems
           (CollaborativeFilteringEngine.config c))%Z
  then 0 else
  if Reqb (centeredVariance ratings1 commonItems) 0
     || Reqb (centeredVariance ratings2 commonItems) 0
  then 0 else
  pearson ratings1 ratings2 commonItems
  * (INR (List.length commonItems)
     / INR (CollaborativeFilteringConfig.MaxNeighbors
              (CollaborativeFilteringEngine.config c))).

(** Cosine of the two rating vectors over the raters both items have. *)
Definition cosine_spec (ratings1 ratings2 : GoMap.t R) : R :=
  let users := coRated ratings1 ratings2 in
  let norm1 := Rsum (map (fun u => GoMap.at0 ratings1 u * GoMap.at0 ratings1 u) users) in
  let norm2 := Rsum (map (fun u => GoMap.at0 ratings2 u * GoMap.at0 ratings2 u) users) in
  if Reqb norm1 0 || Reqb norm2 0 then 0 else
  Rsum (map (fun u => GoMap.at0 ratings1 u * GoMap.at0 ratings2 u) users)
  / sqrt (norm1 * norm2).

(** Every row of a rating matrix is a map. *)
Definition wfMatrix (m : GoMap.t (GoMap.t R)) : Prop :=
  Forall (fun entry => GoMap.wf (snd entry)) m.

End SimilaritySpec.

Lemma Rsum_perm (l l' : list R) : Permutation l l' -> Rsum l = Rsum l'.
Proof.
  induction 1; simpl; lra.
Qed.

Lemma Rsum_map_perm {A : Type} (f : A -> R) (l l' : list A) :
  Permutation l l' -> Rsum (map f l) = Rsum (map f l').
Proof. intros H. apply Rsum_perm, Permutation_map, H. Qed.

Lemma fold_left_sums2 {A : Type} (f g : A -> R) (l : list A) (a b : R) :
  fold_left (fun acc x => (fst acc + f x, snd acc + g x)) l (a, b)
  = (a + Rsum (map f l), b + Rsum (map g l)).
Proof.
  revert a b. induction l as [|x l IH]; intros a b; simpl.
  - f_equal; lra.
  - rewrite IH. f_equal; lra.
Qed.

Lemma fold_left_sums3 {A : Type} (f g h : A -> R) (l : list A) (a b c : R) :
  fold_left (fun acc x => (fst (fst acc) + f x, snd (fst acc) + g x, snd acc + h x))
            l (a, b, c)
  = (a + Rsum (map f l), b + Rsum (map g l), c + Rsum (map h l)).
Proof.
  revert a b c. induction l as [|x l IH]; intros a b c; simpl.
  - f_equal; [f_equal|]; lra.
  - rewrite IH. f_equal; [f_equal|]; lra.
Qed.

Lemma meanOver_perm (ratings : GoMap.t R) (l l' : list string) :
  Permutation l l' -> meanOver ratings l = meanOver ratings l'.
Proof.
  intros H. unfold meanOver.
  now rewrite (Rsum_map_perm _ _ _ H), (Permutation_length H).
Qed.

Lemma centeredVariance_perm (ratings : GoMap.t R) (l l' : list string) :
  Permutation l l' -> centeredVariance ratings l = centeredVariance ratings l'.
Proof.
  intros H. unfold centeredVariance.
  rewrite (meanOver_perm _ _ _ H). now apply Rsum_map_perm.
Qed.

Lemma pearson_perm (ratings1 ratings2 : GoMap.t R) (l l' : list string) :
  Permutation l l' -> pearson ratings1 ratings2 l = pearson ratings1 ratings2 l'.
Proof.
  intros H. unfold pearson.
  rewrite (centeredVariance_perm ratings1 _ _ H), (centeredVariance_perm ratings2 _ _ H).
  rewrite (meanOver_perm ratings1 _ _ H), (meanOver_perm ratings2 _ _ H).
  now rewrite (Rsum_map_perm _ _ _ H).
Qed.


(** The loop of [pearsonCorrelation] computes the closed formula. *)
Lemma pearsonCorrelation_formula (c : Algorithms.CollaborativeFilteringEngine.t)
      (ratings1 ratings2 : GoMap.t R) (items : list string) :
  Algorithms.CollaborativeFilteringEngine.pearsonCorrelation c ratings1 ratings2 items
  = if Reqb (centeredVariance ratings1 items) 0
       || Reqb (centeredVariance ratings2 items) 0
    then 0
    else pearson ratings1 ratings2 items
         * (INR (List.length items)
            / INR (Algorithms.CollaborativeFilteringConfig.MaxNeighbors
                     (Algorithms.CollaborativeFilteringEngine.config c))).
Proof.
  unfold Algorithms.CollaborativeFilteringEngine.pearsonCorrelation.
  destruct (Nat.eqb_spec (List.length items) 0) as [Hlen|Hlen].
  - apply length_zero_iff_nil in Hlen. subst items.
    unfold centeredVariance. simpl. now rewrite Reqb_true.
  - rewrite (fold_left_sums2 (GoMap.at0 ratings1) (GoMap.at0 ratings2)).
    cbv zeta. cbn [fst snd]. rewrite !Rplus_0_l.
    fold (meanOver ratings1 items). fold (meanOver ratings2 items).
    rewrite (fold_left_sums3
               (fun itemID => (GoMap.at0 ratings1 itemID - meanOver ratings1 items)
                              * (GoMap.at0 ratings2 itemID - meanOver ratings2 items))
               (fun itemID => (GoMap.at0 ratings1 itemID - meanOver ratings1 items)
                              * (GoMap.at0 ratings1 itemID - meanOver ratings1 items))
               (fun itemID => (GoMap.at0 ratings2 itemID - meanOver ratings2 items)
                              * (GoMap.at0 ratings2 itemID - meanOver ratings2 items))).
    cbn [fst snd]. rewrite !Rplus_0_l.
    reflexivity.
Qed.

Lemma Permutation_filter_compat {A : Type} (f : A -> bool) (l l' : list A) :
  Permutation l l' -> Permutation (filter f l) (filter f l').
Proof.
  induction 1 as [|x l l' _ IH|x y l|l l' l'' _ IH1 _ IH2]; simpl.
  - constructor.
  - destruct (f x); [now constructor | exact IH].
  - destruct (f x), (f y); try reflexivity. apply perm_swap.
  - now transitivity (filter f l').
Qed.

Lemma commonKeys_coRated (rt : Runtime) (ratings1 ratings2 : GoMap.t R) :
  Permutation
    (Algorithms.CollaborativeFilteringEngine.commonKeys rt ratings1 ratings2)
    (coRated ratings1 ratings2).
Proof.
  unfold Algorithms.CollaborativeFilteringEngine.commonKeys, coRated.
  apply Permutation_filter_compat, range_keys_perm.
Qed.

Lemma coRated_nil_r (ratings1 : GoMap.t R) : coRated ratings1 [] = [].
Proof.
  unfold coRated. induction (GoMap.keys ratings1) as [|k l IH]; simpl; auto.
Qed.

Lemma CalculateUserSimilarity_refines
        (rt : Runtime) (c : Algorithms.CollaborativeFilteringEngine.t)
        (userID1 userID2 : string) :
  Algorithms.CollaborativeFilteringEngine.CalculateUserSimilarity rt c userID1 userID2
  = userSimilarity_spec c userID1 userID2.
Proof.
  unfold Algorithms.CollaborativeFilteringEngine.CalculateUserSimilarity,
         userSimilarity_spec, GoMap.index.
  destruct (GoMap.get _ userID1) as [ratings1|]; [|reflexivity].
  destruct (GoMap.get _ userID2) as [ratings2|]; [|now rewrite orb_true_r].
  pose proof (commonKeys_coRated rt ratings1 ratings2) as Hperm.
  rewrite (Permutation_length Hperm).
  rewrite pearsonCorrelation_formula.
  rewrite (centeredVariance_perm ratings1 _ _ Hperm).
  rewrite (centeredVariance_perm ratings2 _ _ Hperm).
  rewrite (pearson_perm _ _ _ _ Hperm), (Permutation_length Hperm).
  destruct ratings1 as [|e1 ratings1].
  - simpl. destruct (0 <? _)%Z; [reflexivity|].
    unfold centeredVariance. simpl. now rewrite Reqb_true.
  - destruct ratings2 as [|e2 ratings2].
    + rewrite coRated_nil_r. simpl. destruct (0 <? _)%Z; [reflexivity|].
      unfold centeredVariance. simpl. now rewrite Reqb_true.
    + reflexivity.
Qed.


(** *** Symmetry *)


Lemma wfMatrix_get (m : GoMap.t (GoMap.t R)) (k : string) (row : GoMap.t R) :
  wfMatrix m -> GoMap.get m k = Some row -> GoMap.wf row.
Proof.
  intros Hwf Hget. apply get_In in Hget.
  unfold wfMatrix in Hwf. rewrite Forall_forall in Hwf.
  apply (Hwf _ Hget).
Qed.

(** The matrices that [AddUserRating] builds are well formed. *)
Lemma wfMatrix_setRating (m : GoMap.t (GoMap.t R)) (outer inner : string) (rating : R) :
  wfMatrix m ->
  wfMatrix (Algorithms.CollaborativeFilteringEngine.setRating m outer inner rating).
Proof.
  intros Hwf. unfold Algorithms.CollaborativeFilteringEngine.setRating, GoMap.index.
  destruct (GoMap.get _ outer) as [row|] eqn:E.
  - apply Forall_set; [exact Hwf|]. intros k'. simpl. rewrite E.
    apply wf_set. now apply (wfMatrix_get m outer).
  - rewrite get_set_same. apply Forall_set.
    + apply Forall_set; [exact Hwf|]. intros k'. simpl. constructor.
    + intros k'. simpl. repeat constructor. simpl; tauto.
Qed.


(** The loop of [cosineSimilarity] computes the closed formula. *)
Lemma cosineSimilarity_formula (rt : Runtime) (ratings1 ratings2 : GoMap.t R) :
  Algorithms.CollaborativeFilteringEngine.cosineSimilarity rt ratings1 ratings2
  = cosine_spec ratings1 ratings2.
Proof.
  unfold Algorithms.CollaborativeFilteringEngine.cosineSimilarity, cosine_spec.
  pose proof (commonKeys_coRated rt ratings1 ratings2) as Hperm.
  rewrite (fold_left_sums3
             (fun userID => GoMap.at0 ratings1 userID * GoMap.at0 ratings2 userID)
             (fun userID => GoMap.at0 ratings1 userID * GoMap.at0 ratings1 userID)
             (fun userID => GoMap.at0 ratings2 userID * GoMap.at0 ratings2 userID)).
  cbv zeta. cbn [fst snd]. rewrite !Rplus_0_l.
  rewrite !(Rsum_map_perm _ _ _ Hperm), (Permutation_length Hperm).
  destruct (Nat.eqb_spec (List.length (coRated ratings1 ratings2)) 0) as [Hlen|Hlen];
    [|reflexivity].
  apply length_zero_iff_nil in Hlen. rewrite Hlen. simpl. now rewrite Reqb_true.
Qed.





(** ** Ranking of the collaborative recommenders *)

Lemma rankTop_sorted (rt : Runtime) (recommendations : GoMap.t R) (topN : nat) :
  StronglySorted
    (fun a b => Algorithms.Recommendation.Score a >= Algorithms.Recommendation.Score b)
    (Algorithms.CollaborativeFilteringEngine.rankTop rt recommendations topN).
Proof.
  unfold Algorithms.CollaborativeFilteringEngine.rankTop.
  apply truncate_sorted.
  apply (sort_slice_sorted rt _ Algorithms.Recommendation.Score).
  reflexivity.
Qed.

Lemma rankTop_length (rt : Runtime) (recommendations : GoMap.t R) (topN : nat) :
  (List.length (Algorithms.CollaborativeFilteringEngine.rankTop rt recommendations topN)
   <= topN)%nat.
Proof. apply truncate_length. Qed.

(** C10, as the code has it. In every run both recommenders return at
    most [topN] items in descending order of score. Nothing orders items
    of equal score. *)
Theorem recommenders_rank_by_score_only
        (rt : Runtime) (c : Algorithms.CollaborativeFilteringEngine.t)
        (userID : string) (topN : nat) :
  StronglySorted
    (fun a b => Algorithms.Recommendation.Score a >= Algorithms.Recommendation.Score b)
    (Algorithms.CollaborativeFilteringEngine.UserBasedRecommend rt c userID topN)
  /\ (List.length
        (Algorithms.CollaborativeFilteringEngine.UserBasedRecommend rt c userID topN)
      <= topN)%nat
  /\ StronglySorted
       (fun a b => Algorithms.Recommendation.Score a >= Algorithms.Recommendation.Score b)
       (fst (Algorithms.CollaborativeFilteringEngine.ItemBasedRecommend rt c userID topN))
  /\ (List.length
        (fst (Algorithms.CollaborativeFilteringEngine.ItemBasedRecommend rt c userID topN))
      <= topN)%nat.
Proof.
  unfold Algorithms.CollaborativeFilteringEngine.UserBasedRecommend,
         Algorithms.CollaborativeFilteringEngine.ItemBasedRecommend.
  destruct (GoMap.get _ userID) as [userRatings|]; simpl.
  - repeat split; try apply rankTop_sorted; apply rankTop_length.
  - repeat split; try constructor; lia.
Qed.

(** User ["u"] and user ["v"] agree on five items; ["v"] also gave 3
    to ["y"] and then to ["x"]. *)
Definition five_common : Algorithms.CollaborativeFilteringEngine.t :=
  fold_left
    (fun c entry =>
       Algorithms.CollaborativeFilteringEngine.AddUserRating c "v" (fst entry) (snd entry))
    [("a1", 1); ("a2", 2); ("a3", 3); ("a4", 4); ("a5", 5); ("y", 3); ("x", 3)]
    (fold_left
       (fun c entry =>
          Algorithms.CollaborativeFilteringEngine.AddUserRating c "u" (fst entry) (snd entry))
       [("a1", 1); ("a2", 2); ("a3", 3); ("a4", 4); ("a5", 5)]
       Algorithms.CollaborativeFilteringEngine.NewCollaborativeFilteringEngine).

(** The state [five_common], written out. *)
Definition five_common_state : Algorithms.CollaborativeFilteringEngine.t :=
  {| Algorithms.CollaborativeFilteringEngine.userItemMatrix :=
       [("u", [("a1", 1); ("a2", 2); ("a3", 3); ("a4", 4); ("a5", 5)]);
        ("v", [("a1", 1); ("a2", 2); ("a3", 3); ("a4", 4); ("a5", 5);
               ("y", 3); ("x", 3)])];
     Algorithms.CollaborativeFilteringEngine.itemUserMatrix :=
       [("a1", [("u", 1); ("v", 1)]); ("a2", [("u", 2); ("v", 2)]);
        ("a3", [("u", 3); ("v", 3)]); ("a4", [("u", 4); ("v", 4)]);
        ("a5", [("u", 5); ("v", 5)]); ("y", [("v", 3)]); ("x", [("v", 3)])];
     Algorithms.CollaborativeFilteringEngine.userSimilarity := [];
     Algorithms.CollaborativeFilteringEngine.itemSimilarity := [];
     Algorithms.CollaborativeFilteringEngine.config :=
       {| Algorithms.CollaborativeFilteringConfig.SimilarityThreshold := 0.1;
          Algorithms.CollaborativeFilteringConfig.MaxNeighbors := 50;
          Algorithms.CollaborativeFilteringConfig.MinCommonItems := 2;
          Algorithms.CollaborativeFilteringConfig.NormalizationMethod :=
            "mean_centering" |} |}.

Lemma five_common_eq : five_common = five_common_state.
Proof. reflexivity. Qed.

Arguments Algorithms.CollaborativeFilteringEngine.CalculateUserSimilarity : simpl never.
Arguments Algorithms.CollaborativeFilteringEngine.findSimilarUsers : simpl never.

Lemma five_common_similarity (rt : Runtime) :
  Algorithms.CollaborativeFilteringEngine.CalculateUserSimilarity
    rt five_common_state "u" "v" = 0.1.
Proof.
  rewrite CalculateUserSimilarity_refines.
  unfold userSimilarity_spec. run. rcmp.
  sqrt_is 10. lra.
Qed.

Lemma five_common_neighbours_inOrder :
  Algorithms.CollaborativeFilteringEngine.findSimilarUsers inOrder five_common_state "u"
  = [{| Algorithms.SimilarUser.UserID := "v"; Algorithms.SimilarUser.Similarity := 0.1 |}].
Proof.
  unfold Algorithms.CollaborativeFilteringEngine.findSimilarUsers. step.
  rewrite five_common_similarity. steps. reflexivity.
Qed.

Lemma five_common_neighbours_rotated :
  Algorithms.CollaborativeFilteringEngine.findSimilarUsers rotated five_common_state "u"
  = [{| Algorithms.SimilarUser.UserID := "v"; Algorithms.SimilarUser.Similarity := 0.1 |}].
Proof.
  unfold Algorithms.CollaborativeFilteringEngine.findSimilarUsers. step.
  rewrite five_common_similarity. steps. reflexivity.
Qed.

Lemma five_common_user_based_inOrder :
  Algorithms.CollaborativeFilteringEngine.UserBasedRecommend inOrder five_common "u" 10
  = [{| Algorithms.Recommendation.ItemID := "y";
        Algorithms.Recommendation.Score := 0 + 0.1 * 3 |};
     {| Algorithms.Recommendation.ItemID := "x";
        Algorithms.Recommendation.Score := 0 + 0.1 * 3 |}].
Proof.
  rewrite five_common_eq.
  unfold Algorithms.CollaborativeFilteringEngine.UserBasedRecommend. step.
  rewrite five_common_neighbours_inOrder. step.
  unfold Algorithms.CollaborativeFilteringEngine.rankTop. steps.
  reflexivity.
Qed.

Lemma five_common_user_based_rotated :
  Algorithms.CollaborativeFilteringEngine.UserBasedRecommend rotated five_common "u" 10
  = [{| Algorithms.Recommendation.ItemID := "x";
        Algorithms.Recommendation.Score := 0 + 0.1 * 3 |};
     {| Algorithms.Recommendation.ItemID := "y";
        Algorithms.Recommendation.Score := 0 + 0.1 * 3 |}].
Proof.
  rewrite five_common_eq.
  unfold Algorithms.CollaborativeFilteringEngine.UserBasedRecommend. step.
  rewrite five_common_neighbours_rotated. step.
  unfold Algorithms.CollaborativeFilteringEngine.rankTop. steps.
  reflexivity.
Qed.

(** User ["u"] rated item ["a"]; user ["v"] rated ["a"], then ["y"],
    then ["x"], all with 1. *)
Definition one_common : Algorithms.CollaborativeFilteringEngine.t :=
  Algorithms.CollaborativeFilteringEngine.AddUserRating
    (Algorithms.CollaborativeFilteringEngine.AddUserRating
       (Algorithms.CollaborativeFilteringEngine.AddUserRating
          (Algorithms.CollaborativeFilteringEngine.AddUserRating
             Algorithms.CollaborativeFilteringEngine.NewCollaborativeFilteringEngine
             "u" "a" 1)
          "v" "a" 1)
       "v" "y" 1)
    "v" "x" 1.

Definition one_common_state : Algorithms.CollaborativeFilteringEngine.t :=
  Eval cbv -[Rplus Rminus Rmult Rdiv Rinv Ropp IZR] in one_common.

Arguments Algorithms.CollaborativeFilteringEngine.CalculateItemSimilarity : simpl never.
Arguments Algorithms.CollaborativeFilteringEngine.findSimilarItems : simpl never.
Arguments Algorithms.CollaborativeFilteringEngine.buildItemSimilarityMatrix : simpl never.

Lemma one_common_similarity (rt : Runtime) (itemID : string) :
  itemID = "y" \/ itemID = "x" ->
  Algorithms.CollaborativeFilteringEngine.CalculateItemSimilarity
    rt one_common_state "a" itemID = 1.
Proof.
  intros [-> | ->];
    unfold Algorithms.CollaborativeFilteringEngine.CalculateItemSimilarity;
    cbn [GoMap.get Algorithms.CollaborativeFilteringEngine.itemUserMatrix
         one_common_state String.eqb Ascii.eqb Bool.eqb];
    rewrite cosineSimilarity_formula; unfold cosine_spec; run; rcmp;
    sqrt_is 1; lra.
Qed.

(** Filling the similarity cache does not change what
    [findSimilarItems] returns: it computes similarities afresh. *)
Lemma findSimilarItems_ignores_cache
      (rt rt' : Runtime) (c : Algorithms.CollaborativeFilteringEngine.t)
      (itemID : string) :
  Algorithms.CollaborativeFilteringEngine.findSimilarItems
    rt (Algorithms.CollaborativeFilteringEngine.buildItemSimilarityMatrix rt' c) itemID
  = Algorithms.CollaborativeFilteringEngine.findSimilarItems rt c itemID.
Proof. reflexivity. Qed.

Lemma one_common_similar_items_inOrder :
  Algorithms.CollaborativeFilteringEngine.findSimilarItems inOrder one_common_state "a"
  = [{| Algorithms.SimilarItem.ItemID := "y"; Algorithms.SimilarItem.Similarity := 1 |};
     {| Algorithms.SimilarItem.ItemID := "x"; Algorithms.SimilarItem.Similarity := 1 |}].
Proof.
  unfold Algorithms.CollaborativeFilteringEngine.findSimilarItems. step.
  rewrite !one_common_similarity by tauto. steps. reflexivity.
Qed.

Lemma one_common_similar_items_rotated :
  Algorithms.CollaborativeFilteringEngine.findSimilarItems rotated one_common_state "a"
  = [{| Algorithms.SimilarItem.ItemID := "y"; Algorithms.SimilarItem.Similarity := 1 |};
     {| Algorithms.SimilarItem.ItemID := "x"; Algorithms.SimilarItem.Similarity := 1 |}].
Proof.
  unfold Algorithms.CollaborativeFilteringEngine.findSimilarItems. step.
  rewrite !one_common_similarity by tauto. steps. reflexivity.
Qed.

Lemma one_common_item_based_inOrder :
  fst (Algorithms.CollaborativeFilteringEngine.ItemBasedRecommend inOrder one_common "u" 10)
  = [{| Algorithms.Recommendation.ItemID := "y";
        Algorithms.Recommendation.Score := 0 + 1 * 1 |};
     {| Algorithms.Recommendation.ItemID := "x";
        Algorithms.Recommendation.Score := 0 + 1 * 1 |}].
Proof.
  change one_common with one_common_state.
  unfold Algorithms.CollaborativeFilteringEngine.ItemBasedRecommend. step.
  rewrite findSimilarItems_ignores_cache, one_common_similar_items_inOrder. step.
  unfold Algorithms.CollaborativeFilteringEngine.rankTop. steps.
  reflexivity.
Qed.

Lemma one_common_item_based_rotated :
  fst (Algorithms.CollaborativeFilteringEngine.ItemBasedRecommend rotated one_common "u" 10)
  = [{| Algorithms.Recommendation.ItemID := "x";
        Algorithms.Recommendation.Score := 0 + 1 * 1 |};
     {| Algorithms.Recommendation.ItemID := "y";
        Algorithms.Recommendation.Score := 0 + 1 * 1 |}].
Proof.
  change one_common with one_common_state.
  unfold Algorithms.CollaborativeFilteringEngine.ItemBasedRecommend. step.
  rewrite findSimilarItems_ignores_cache, one_common_similar_items_rotated. step.
  unfold Algorithms.CollaborativeFilteringEngine.rankTop. steps.
  reflexivity.
Qed.

(** C10 as stated fails: for each of the two recommenders the same user,
    [topN] and matrix give two different lists in two runs, and in the
    first run the two items of equal score come out as ["y"] before
    ["x"]. *)
Lemma recommenders_order_depends_on_run :
  (Algorithms.CollaborativeFilteringEngine.UserBasedRecommend inOrder five_common "u" 10
   <> Algorithms.CollaborativeFilteringEngine.UserBasedRecommend rotated five_common "u" 10
   /\ map Algorithms.Recommendation.ItemID
          (Algorithms.CollaborativeFilteringEngine.UserBasedRecommend
             inOrder five_common "u" 10)
      = ["y"; "x"]
   /\ map Algorithms.Recommendation.Score
          (Algorithms.CollaborativeFilteringEngine.UserBasedRecommend
             inOrder five_common "u" 10)
      = [0 + 0.1 * 3; 0 + 0.1 * 3])
  /\ (fst (Algorithms.CollaborativeFilteringEngine.ItemBasedRecommend
             inOrder one_common "u" 10)
      <> fst (Algorithms.CollaborativeFilteringEngine.ItemBasedRecommend
                rotated one_common "u" 10)
      /\ map Algorithms.Recommendation.ItemID
             (fst (Algorithms.CollaborativeFilteringEngine.ItemBasedRecommend
                     inOrder one_common "u" 10))
         = ["y"; "x"]
      /\ map Algorithms.Recommendation.Score
             (fst (Algorithms.CollaborativeFilteringEngine.ItemBasedRecommend
                     inOrder one_common "u" 10))
         = [0 + 1 * 1; 0 + 1 * 1]).
Proof.
  rewrite five_common_user_based_inOrder, five_common_user_based_rotated.
  rewrite one_common_item_based_inOrder, one_common_item_based_rotated.
  repeat split; discriminate.
Qed.

(** ** Interaction history and recommendations *)

Section History.
Import Algorithms.

(** [itemID] has a rating by [userID] in the collaborative engine. *)
Definition rated (c : CollaborativeFilteringEngine.t) (userID itemID : string) : Prop :=
  GoMap.mem (GoMap.index [] (CollaborativeFilteringEngine.userItemMatrix c) userID) itemID
  = true.


End History.

Lemma keys_In {V : Type} (m : GoMap.t V) (k : string) (v : V) :
  In (k, v) m -> In k (GoMap.keys m).
Proof. intros H. unfold GoMap.keys. change k with (fst (k, v)). now apply in_map. Qed.

Lemma In_set {V : Type} (m : GoMap.t V) (k k' : string) (v v' : V) :
  In (k', v') (GoMap.set m k v) -> (k' = k /\ v' = v) \/ In (k', v') m.
Proof.
  induction m as [|[k0 v0] m IH]; simpl.
  - intros [[= <- <-]|[]]. now left.
  - destruct (String.eqb_spec k0 k) as [->|Hne]; simpl.
    + intros [[= <- <-]|H]; [now left | right; now right].
    + intros [H|H]; [right; now left|].
      destruct (IH H) as [?|?]; [now left | right; now right].
Qed.



Lemma accumulate_keys (recs : GoMap.t R) (itemID k : string) (w : R) :
  In k (GoMap.keys (Algorithms.CollaborativeFilteringEngine.accumulate recs itemID w)) ->
  k = itemID \/ In k (GoMap.keys recs).
Proof.
  unfold Algorithms.CollaborativeFilteringEngine.accumulate.
  intros H. apply keys_set in H. destruct H as [H|H]; [now left|].
  destruct (GoMap.mem recs itemID); [now right|].
  apply keys_set in H. exact H.
Qed.

Lemma rankTop_ids (rt : Runtime) (recommendations : GoMap.t R) (topN : nat)
      (r : Algorithms.Recommendation.t) :
  In r (Algorithms.CollaborativeFilteringEngine.rankTop rt recommendations topN) ->
  In (Algorithms.Recommendation.ItemID r) (GoMap.keys recommendations).
Proof.
  unfold Algorithms.CollaborativeFilteringEngine.rankTop.
  intros H. apply truncate_incl, sort_slice_In, in_map_iff in H.
  destruct H as ([k v] & <- & H). simpl.
  apply range_In in H. now apply keys_In in H.
Qed.

Lemma UserBasedRecommend_excludes_rated
      (rt : Runtime) (c : Algorithms.CollaborativeFilteringEngine.t)
      (userID itemID : string) (topN : nat) :
  rated c userID itemID ->
  ~ In itemID
       (map Algorithms.Recommendation.ItemID
            (Algorithms.CollaborativeFilteringEngine.UserBasedRecommend rt c userID topN)).
Proof.
  unfold rated, Algorithms.CollaborativeFilteringEngine.UserBasedRecommend, GoMap.index.
  destruct (GoMap.get _ userID) as [userRatings|]; [|simpl; tauto].
  intros Hrated Hin. apply in_map_iff in Hin. destruct Hin as (r & <- & Hr).
  apply rankTop_ids in Hr. revert Hr.
  match goal with
  | |- In _ (GoMap.keys (fold_left ?f ?l ?s)) -> _ =>
      assert (Hinv : forall k, In k (GoMap.keys (fold_left f l s)) ->
                               GoMap.mem userRatings k = false)
  end.
  { apply fold_left_invariant; [simpl; tauto|].
    intros recs similarUser _ Hrecs.
    apply fold_left_invariant; [exact Hrecs|].
    intros recs' entry _ Hrecs' k Hk.
    destruct (GoMap.mem userRatings (fst entry)) eqn:E; [now apply Hrecs'|].
    apply accumulate_keys in Hk. destruct Hk as [->|Hk]; [exact E | now apply Hrecs']. }
  intros Hr. apply Hinv in Hr. congruence.
Qed.



(** ** The hybrid blend *)

Section BlendInvariant.
Import Algorithms.


End BlendInvariant.


Lemma In_list_set {A : Type} (l : list A) (i : nat) (x y : A) :
  In y (Algorithms.HybridFilteringEngine.list_set l i x) -> y = x \/ In y l.
Proof.
  revert i. induction l as [|z l IH]; intros [|i]; simpl; try tauto.
  - intros [H|H]; [now left | right; now right].
  - intros [H|H]; [right; now left|].
    destruct (IH _ H); [now left | right; now right].
Qed.

Lemma In_swap {A : Type} (l : list A) (i j : nat) (y : A) :
  In y (Algorithms.HybridFilteringEngine.swap l i j) -> In y l.
Proof.
  unfold Algorithms.HybridFilteringEngine.swap.
  destruct (nth_error l i) as [a|] eqn:Ea; [|tauto].
  destruct (nth_error l j) as [b|] eqn:Eb; [|tauto].
  intros H. apply In_list_set in H. destruct H as [->|H].
  - eapply nth_error_In; eauto.
  - apply In_list_set in H. destruct H as [->|H]; [|exact H].
    eapply nth_error_In; eauto.
Qed.

(** The diversity pass returns candidates it was given. *)
Lemma applyDiversityOptimization_incl
      (h : Algorithms.HybridFilteringEngine.t)
      (recommendations : list Algorithms.HybridRecommendation.t)
      (rec : Algorithms.HybridRecommendation.t) :
  In rec (Algorithms.HybridFilteringEngine.applyDiversityOptimization h recommendations) ->
  In rec recommendations.
Proof.
  unfold Algorithms.HybridFilteringEngine.applyDiversityOptimization.
  destruct (List.length recommendations <=? 1)%nat; [tauto|].
  destruct recommendations as [|first rest]; [tauto|].
  set (l := first :: rest).
  match goal with
  | |- In rec (snd (fold_left ?f ?idx ?s)) -> _ =>
      assert (Hinv : (forall x, In x (fst (fst (fold_left f idx s))) -> In x l)
                     /\ (forall x, In x (snd (fold_left f idx s)) -> In x l))
  end.
  { apply fold_left_invariant.
    - simpl. split; [tauto|]. intros x [<-|[]]. now left.
    - intros [[recs selected] optimized] i _ [Hrecs Hopt]. cbn [fst snd].
      destruct (fst (Algorithms.HybridFilteringEngine.bestCandidate h selected recs i))
        as [bestIdx|]; [|split; assumption].
      destruct (nth_error (Algorithms.HybridFilteringEngine.swap recs i bestIdx) i)
        as [chosen|] eqn:E; [|split; assumption].
      cbn [fst snd]. split.
      + intros x Hx. now apply Hrecs, (In_swap recs i bestIdx).
      + intros x Hx. apply in_app_or in Hx. destruct Hx as [Hx|[<-|[]]].
        * now apply Hopt.
        * apply nth_error_In in E. now apply Hrecs, (In_swap recs i bestIdx). }
  intros H. now apply (proj2 Hinv).
Qed.

(** Every recommendation of the blend is a scored entry of the merged
    candidate map. *)
Lemma GenerateRecommendations_candidates
      (rt : Runtime) (h : Algorithms.HybridFilteringEngine.t)
      (userID : string) (topN : nat) (rec : Algorithms.HybridRecommendation.t) :
  In rec (Algorithms.HybridFilteringEngine.GenerateRecommendations rt h userID topN) ->
  exists k candidate,
    In (k, candidate)
       (Algorithms.HybridFilteringEngine.mergeRecommendations
          (Algorithms.CollaborativeFilteringEngine.UserBasedRecommend
             rt (Algorithms.HybridFilteringEngine.collaborative h) userID (topN * 2))
          (Algorithms.ContentBasedFilteringEngine.GenerateRecommendations
             rt (Algorithms.HybridFilteringEngine.contentBased h) userID (topN * 2)))
    /\ rec = Algorithms.HybridFilteringEngine.scoreCandidate rt h userID candidate.
Proof.
  unfold Algorithms.HybridFilteringEngine.GenerateRecommendations. cbv zeta.
  intros H. apply truncate_incl, sort_slice_In in H.
  assert (Hscored : In rec (Algorithms.HybridFilteringEngine.calculateHybridScores
                              rt h userID
                              (Algorithms.HybridFilteringEngine.mergeRecommendations
          (Algorithms.CollaborativeFilteringEngine.UserBasedRecommend
             rt (Algorithms.HybridFilteringEngine.collaborative h) userID (topN * 2))
          (Algorithms.ContentBasedFilteringEngine.GenerateRecommendations
             rt (Algorithms.HybridFilteringEngine.contentBased h) userID (topN * 2))))).
  { destruct (Algorithms.HybridFilteringConfig.EnableDiversity _);
      [now apply applyDiversityOptimization_incl in H | exact H]. }
  unfold Algorithms.HybridFilteringEngine.calculateHybridScores in Hscored.
  apply in_map_iff in Hscored. destruct Hscored as ([k candidate] & <- & Hin).
  apply range_In in Hin. now exists k, candidate.
Qed.




(** ** The blend on concrete catalogs *)

Section BlendExamples.
Import Algorithms.

(** A catalog of three items, two of them in category ["cat1"], and a
    user whose preference weights were set to 5, 2 and 2. No ratings. *)
Definition catalog3 : ContentBasedFilteringEngine.t :=
  ContentBasedFilteringEngine.UpdateUserPreference 0
    (ContentBasedFilteringEngine.UpdateUserPreference 0
       (ContentBasedFilteringEngine.UpdateUserPreference 0
          (ContentBasedFilteringEngine.AddItemFeatures
             (ContentBasedFilteringEngine.AddItemFeatures
                (ContentBasedFilteringEngine.AddItemFeatures
                   ContentBasedFilteringEngine.NewContentBasedFilteringEngine
                   "A" "cat1" ["k"] [])
                "B" "cat1" [] [])
             "C" "cat2" [] [])
          "u" "cat1" 5)
       "u" "cat2" 2)
    "u" "k" 2.

Definition blender3 : HybridFilteringEngine.t :=
  HybridFilteringEngine.NewHybridFilteringEngine
    CollaborativeFilteringEngine.NewCollaborativeFilteringEngine catalog3.

(** The blend with its steps in the order of the specification: score,
    sort by final score, then rebuild greedily for diversity, then cut. *)
Definition blend_as_specified (rt : Runtime) (h : HybridFilteringEngine.t)
           (userID : string) (topN : nat) : list HybridRecommendation.t :=
  let collaborativeRecs :=
    CollaborativeFilteringEngine.UserBasedRecommend
      rt (HybridFilteringEngine.collaborative h) userID (topN * 2) in
  let contentBasedRecs :=
    ContentBasedFilteringEngine.GenerateRecommendations
      rt (HybridFilteringEngine.contentBased h) userID (topN * 2) in
  let hybridRecs :=
    HybridFilteringEngine.calculateHybridScores rt h userID
      (HybridFilteringEngine.mergeRecommendations collaborativeRecs contentBasedRecs) in
  let sorted :=
    sort_slice rt _
      (fun a b => Rgtb (HybridRecommendation.Score a) (HybridRecommendation.Score b))
      hybridRecs in
  truncate topN (HybridFilteringEngine.applyDiversityOptimization h sorted).

(** Two users rated item ["x"] and nothing else; a third user has a
    preference for its category. *)
Definition popular_x : HybridFilteringEngine.t :=
  HybridFilteringEngine.NewHybridFilteringEngine
    (CollaborativeFilteringEngine.AddUserRating
       (CollaborativeFilteringEngine.AddUserRating
          CollaborativeFilteringEngine.NewCollaborativeFilteringEngine "u1" "x" 5)
       "u2" "x" 4)
    (ContentBasedFilteringEngine.UpdateUserPreference 0
       (ContentBasedFilteringEngine.AddItemFeatures
          ContentBasedFilteringEngine.NewContentBasedFilteringEngine "x" "cat" [] [])
       "u3" "cat" 5).



End BlendExamples.

Arguments Algorithms.ContentBasedFilteringEngine.GenerateRecommendations : simpl never.
Arguments Algorithms.CollaborativeFilteringEngine.UserBasedRecommend : simpl never.
Arguments Algorithms.HybridFilteringEngine.calculateHybridScores : simpl never.
Arguments Algorithms.HybridFilteringEngine.applyDiversityOptimization : simpl never.
Arguments Algorithms.HybridFilteringEngine.mergeRecommendations : simpl never.

Lemma blender3_content :
  Algorithms.ContentBasedFilteringEngine.GenerateRecommendations inOrder catalog3 "u" 6
  = [ {| Algorithms.Recommendation.ItemID := "A"; Algorithms.Recommendation.Score := 1.6 |};
      {| Algorithms.Recommendation.ItemID := "B"; Algorithms.Recommendation.Score := 1 |};
      {| Algorithms.Recommendation.ItemID := "C"; Algorithms.Recommendation.Score := 0.4 |} ].
Proof.
  unfold Algorithms.ContentBasedFilteringEngine.GenerateRecommendations. run.
  steps. same.
Qed.

Lemma blender3_scored :
  Algorithms.HybridFilteringEngine.calculateHybridScores inOrder blender3 "u"
    (Algorithms.HybridFilteringEngine.mergeRecommendations
       (Algorithms.CollaborativeFilteringEngine.UserBasedRecommend
          inOrder Algorithms.CollaborativeFilteringEngine.NewCollaborativeFilteringEngine
          "u" 6)
       (Algorithms.ContentBasedFilteringEngine.GenerateRecommendations
          inOrder catalog3 "u" 6))
  = map (Algorithms.HybridFilteringEngine.scoreCandidate inOrder blender3 "u")
        [Algorithms.HybridFilteringEngine.newHybrid "A" 0 1.6;
         Algorithms.HybridFilteringEngine.newHybrid "B" 0 1;
         Algorithms.HybridFilteringEngine.newHybrid "C" 0 0.4].
Proof.
  rewrite blender3_content.
  unfold Algorithms.HybridFilteringEngine.calculateHybridScores,
         Algorithms.HybridFilteringEngine.mergeRecommendations,
         Algorithms.CollaborativeFilteringEngine.UserBasedRecommend.
  reflexivity.
Qed.

(** A scored candidate without collaborative score, of a user without
    ratings in an engine without ratings. *)
Definition contentOnly (itemID : string) (score contentBasedScore confidence : R)
           (reason : string) : Algorithms.HybridRecommendation.t :=
  {| Algorithms.HybridRecommendation.ItemID := itemID;
     Algorithms.HybridRecommendation.Score := score;
     Algorithms.HybridRecommendation.CollaborativeScore := 0;
     Algorithms.HybridRecommendation.ContentBasedScore := contentBasedScore;
     Algorithms.HybridRecommendation.DiversityScore := 1;
     Algorithms.HybridRecommendation.PopularityScore := 0.5;
     Algorithms.HybridRecommendation.RecencyScore := 0;
     Algorithms.HybridRecommendation.Confidence := confidence;
     Algorithms.HybridRecommendation.Reason := reason |}.

Definition scored_A : Algorithms.HybridRecommendation.t :=
  contentOnly "A" 0.765 1.6 0.3 "与您喜欢的内容相似，为您推荐新类型".
Definition scored_B : Algorithms.HybridRecommendation.t :=
  contentOnly "B" 0.525 1 0.3 "与您喜欢的内容相似，为您推荐新类型".
Definition scored_C : Algorithms.HybridRecommendation.t :=
  contentOnly "C" 0.285 0.4 0.7 "为您推荐新类型".

Lemma blender3_candidates :
  map (Algorithms.HybridFilteringEngine.scoreCandidate inOrder blender3 "u")
      [Algorithms.HybridFilteringEngine.newHybrid "A" 0 1.6;
       Algorithms.HybridFilteringEngine.newHybrid "B" 0 1;
       Algorithms.HybridFilteringEngine.newHybrid "C" 0 0.4]
  = [scored_A; scored_B; scored_C].
Proof.
  unfold Algorithms.HybridFilteringEngine.scoreCandidate. run. steps. same.
Qed.

(** The diversity pass moves ["C"] before ["B"], whose category is
    taken. *)
Lemma blender3_diversity_pass :
  Algorithms.HybridFilteringEngine.applyDiversityOptimization
    blender3 [scored_A; scored_B; scored_C]
  = [scored_A; scored_C; scored_B].
Proof.
  unfold Algorithms.HybridFilteringEngine.applyDiversityOptimization. step.
  unfold Algorithms.HybridFilteringEngine.bestCandidate. steps.
  reflexivity.
Qed.

Lemma blender3_sort_after_pass :
  insertion_sort
    (fun a b => Rgtb (Algorithms.HybridRecommendation.Score a)
                     (Algorithms.HybridRecommendation.Score b))
    [scored_A; scored_C; scored_B]
  = [scored_A; scored_B; scored_C].
Proof. unfold insertion_sort. steps. reflexivity. Qed.

Lemma blender3_sort_before_pass :
  insertion_sort
    (fun a b => Rgtb (Algorithms.HybridRecommendation.Score a)
                     (Algorithms.HybridRecommendation.Score b))
    [scored_A; scored_B; scored_C]
  = [scored_A; scored_B; scored_C].
Proof. unfold insertion_sort. steps. reflexivity. Qed.

Lemma blender3_blend :
  Algorithms.HybridFilteringEngine.GenerateRecommendations inOrder blender3 "u" 3
  = [scored_A; scored_B; scored_C].
Proof.
  unfold Algorithms.HybridFilteringEngine.GenerateRecommendations. cbv zeta.
  change (Algorithms.HybridFilteringEngine.collaborative blender3)
    with Algorithms.CollaborativeFilteringEngine.NewCollaborativeFilteringEngine.
  change (Algorithms.HybridFilteringEngine.contentBased blender3) with catalog3.
  change (3 * 2)%nat with 6%nat.
  rewrite blender3_scored, blender3_candidates.
  change (Algorithms.HybridFilteringConfig.EnableDiversity
            (Algorithms.HybridFilteringEngine.config blender3)) with true.
  cbv iota.
  change (sort_slice inOrder) with (@insertion_sort).
  rewrite blender3_diversity_pass, blender3_sort_after_pass.
  reflexivity.
Qed.

Lemma blender3_as_specified :
  blend_as_specified inOrder blender3 "u" 3 = [scored_A; scored_C; scored_B].
Proof.
  unfold blend_as_specified. cbv zeta.
  change (Algorithms.HybridFilteringEngine.collaborative blender3)
    with Algorithms.CollaborativeFilteringEngine.NewCollaborativeFilteringEngine.
  change (Algorithms.HybridFilteringEngine.contentBased blender3) with catalog3.
  change (3 * 2)%nat with 6%nat.
  rewrite blender3_scored, blender3_candidates.
  change (sort_slice inOrder) with (@insertion_sort).
  rewrite blender3_sort_before_pass, blender3_diversity_pass.
  reflexivity.
Qed.

(** C3. In every run the blend returns its candidates in descending
    order of final score: the greedy diversity pass runs before the sort
    and the sort undoes its order. On the three-item catalog the result
    is ["A"], ["B"], ["C"]. The greedy rebuild of the sorted candidates,
    which the specification describes, is ["A"], ["C"], ["B"]. *)
Theorem GenerateRecommendations_sorts_after_diversity_pass :
  (forall rt h userID topN,
      StronglySorted
        (fun a b => Algorithms.HybridRecommendation.Score a
                    >= Algorithms.HybridRecommendation.Score b)
        (Algorithms.HybridFilteringEngine.GenerateRecommendations rt h userID topN))
  /\ map Algorithms.HybridRecommendation.ItemID
         (Algorithms.HybridFilteringEngine.GenerateRecommendations inOrder blender3 "u" 3)
     = ["A"; "B"; "C"]
  /\ map Algorithms.HybridRecommendation.ItemID
         (blend_as_specified inOrder blender3 "u" 3)
     = ["A"; "C"; "B"].
Proof.
  split.
  { intros rt h userID topN.
    unfold Algorithms.HybridFilteringEngine.GenerateRecommendations. cbv zeta.
    apply truncate_sorted.
    apply (sort_slice_sorted rt _ Algorithms.HybridRecommendation.Score).
    reflexivity. }
  rewrite blender3_blend, blender3_as_specified. split; reflexivity.
Qed.

(** C4. For item ["x"], rated by two users who rated nothing else, the
    popularity component is 2: the code divides the number of raters by
    the largest number of items that one user rated, which is 1. The
    largest number of raters of an item is 2, so the quotient that the
    specification names is 1. *)
Theorem calculatePopularityScore_divides_by_user_history_size :
  map (fun rec => (Algorithms.HybridRecommendation.ItemID rec,
                   Algorithms.HybridRecommendation.PopularityScore rec))
      (Algorithms.HybridFilteringEngine.GenerateRecommendations inOrder popular_x "u3" 1)
  = [("x", 2)]
  /\ Algorithms.HybridFilteringEngine.calculatePopularityScore inOrder popular_x "x" = 2
  /\ Algorithms.HybridFilteringEngine.ratingCount inOrder popular_x "x" = 2%nat
  /\ map (fun entry => (fst entry, List.length (snd entry)))
         (Algorithms.CollaborativeFilteringEngine.itemUserMatrix
            (Algorithms.HybridFilteringEngine.collaborative popular_x))
     = [("x", 2%nat)]
  /\ map (fun entry => (fst entry, List.length (snd entry)))
         (Algorithms.CollaborativeFilteringEngine.userItemMatrix
            (Algorithms.HybridFilteringEngine.collaborative popular_x))
     = [("u1", 1%nat); ("u2", 1%nat)].
Proof.
  assert (Hpop : Algorithms.HybridFilteringEngine.calculatePopularityScore
                   inOrder popular_x "x" = 2).
  { unfold Algorithms.HybridFilteringEngine.calculatePopularityScore. run. lra. }
  split; [|split; [exact Hpop | repeat split]].
  unfold Algorithms.HybridFilteringEngine.GenerateRecommendations,
         Algorithms.HybridFilteringEngine.calculateHybridScores,
         Algorithms.HybridFilteringEngine.mergeRecommendations,
         Algorithms.HybridFilteringEngine.applyDiversityOptimization,
         Algorithms.CollaborativeFilteringEngine.UserBasedRecommend,
         Algorithms.ContentBasedFilteringEngine.GenerateRecommendations.
  run. steps. same.
Qed.










(** * Further properties of the collaborative engine *)

(** ** The rating matrices *)

Section RatingMatrix.
Import Algorithms.

(** [m[outer][inner]], with its presence flag. *)
Definition ratingOf (m : GoMap.t (GoMap.t R)) (outer inner : string) : option R :=
  match GoMap.get m outer with
  | Some row => GoMap.get row inner
  | None => None
  end.

Definition rowsNonEmpty (m : GoMap.t (GoMap.t R)) : Prop :=
  Forall (fun entry => snd entry <> []) m.

(** The state that [AddUserRating] maintains: both matrices are maps of
    non-empty maps, and each is the transpose of the other. *)
Definition consistent (c : CollaborativeFilteringEngine.t) : Prop :=
  GoMap.wf (CollaborativeFilteringEngine.userItemMatrix c)
  /\ GoMap.wf (CollaborativeFilteringEngine.itemUserMatrix c)
  /\ wfMatrix (CollaborativeFilteringEngine.userItemMatrix c)
  /\ wfMatrix (CollaborativeFilteringEngine.itemUserMatrix c)
  /\ rowsNonEmpty (CollaborativeFilteringEngine.userItemMatrix c)
  /\ rowsNonEmpty (CollaborativeFilteringEngine.itemUserMatrix c)
  /\ (forall userID itemID,
         ratingOf (CollaborativeFilteringEngine.userItemMatrix c) userID itemID
         = ratingOf (CollaborativeFilteringEngine.itemUserMatrix c) itemID userID).

End RatingMatrix.

Lemma set_set {V : Type} (m : GoMap.t V) (k : string) (v1 v2 : V) :
  GoMap.set (GoMap.set m k v1) k v2 = GoMap.set m k v2.
Proof.
  induction m as [|[k0 v0] m IH]; simpl.
  - now rewrite String.eqb_refl.
  - destruct (String.eqb k0 k) eqn:E; simpl; rewrite E; [reflexivity | now rewrite IH].
Qed.

Lemma set_not_nil {V : Type} (m : GoMap.t V) (k : string) (v : V) :
  GoMap.set m k v <> [].
Proof. destruct m as [|[k0 v0] m]; simpl; [|destruct (String.eqb k0 k)]; discriminate. Qed.

Lemma setRating_eq (m : GoMap.t (GoMap.t R)) (outer inner : string) (rating : R) :
  Algorithms.CollaborativeFilteringEngine.setRating m outer inner rating
  = GoMap.set m outer (GoMap.set (GoMap.index [] m outer) inner rating).
Proof.
  unfold Algorithms.CollaborativeFilteringEngine.setRating, GoMap.index.
  destruct (GoMap.get m outer) as [row|] eqn:E.
  - now rewrite E.
  - now rewrite get_set_same, set_set.
Qed.

Lemma setRating_ratingOf (m : GoMap.t (GoMap.t R)) (outer inner : string) (rating : R)
      (o i : string) :
  ratingOf (Algorithms.CollaborativeFilteringEngine.setRating m outer inner rating) o i
  = if String.eqb o outer && String.eqb i inner then Some rating else ratingOf m o i.
Proof.
  rewrite setRating_eq. unfold ratingOf, GoMap.index.
  destruct (String.eqb_spec o outer) as [->|Ho]; simpl.
  - rewrite get_set_same.
    destruct (String.eqb_spec i inner) as [->|Hi].
    + apply get_set_same.
    + rewrite get_set_other by congruence.
      destruct (GoMap.get m outer); reflexivity.
  - rewrite get_set_other by congruence. reflexivity.
Qed.

Lemma setRating_wf (m : GoMap.t (GoMap.t R)) (outer inner : string) (rating : R) :
  GoMap.wf m ->
  GoMap.wf (Algorithms.CollaborativeFilteringEngine.setRating m outer inner rating).
Proof. rewrite setRating_eq. apply wf_set. Qed.

Lemma setRating_rowsNonEmpty (m : GoMap.t (GoMap.t R)) (outer inner : string) (rating : R) :
  rowsNonEmpty m ->
  rowsNonEmpty (Algorithms.CollaborativeFilteringEngine.setRating m outer inner rating).
Proof.
  rewrite setRating_eq. intros H. apply Forall_set; [exact H|].
  intros k'. simpl. apply set_not_nil.
Qed.

(** X1. The rating state stays consistent: in the new engine, and after
    every [AddUserRating] on a consistent engine, both matrices are maps
    whose rows are non-empty maps, and a user's rating of an item is the
    same in the user-item and in the item-user matrix. *)
Theorem AddUserRating_keeps_matrices_consistent :
  consistent Algorithms.CollaborativeFilteringEngine.NewCollaborativeFilteringEngine
  /\ (forall c userID itemID rating,
         consistent c ->
         consistent (Algorithms.CollaborativeFilteringEngine.AddUserRating
                       c userID itemID rating)).
Proof.
  split.
  - unfold consistent, rowsNonEmpty, wfMatrix, GoMap.wf. simpl.
    repeat split; constructor.
  - intros c userID itemID rating (Hu & Hi & Hwu & Hwi & Hnu & Hni & Ht).
    unfold consistent. simpl.
    repeat split;
      try (now apply setRating_wf);
      try (now apply wfMatrix_setRating);
      try (now apply setRating_rowsNonEmpty).
    intros u i. rewrite !setRating_ratingOf, Ht.
    now rewrite andb_comm.
Qed.

(** The theorem for the first rating of a new engine. *)
Lemma AddUserRating_keeps_matrices_consistent_witness :
  consistent
    (Algorithms.CollaborativeFilteringEngine.AddUserRating
       Algorithms.CollaborativeFilteringEngine.NewCollaborativeFilteringEngine "u" "x" 5).
Proof.
  apply (proj2 AddUserRating_keeps_matrices_consistent).
  unfold consistent, rowsNonEmpty, wfMatrix, GoMap.wf. simpl.
  repeat split; constructor.
Defined.

(** X2. [AddUserRating] writes one cell: afterwards the rating of
    [userID] for [itemID] is [rating] in both matrices, whether or not
    there was one before, every other cell of both matrices is as it
    was, and the configuration is unchanged. *)
Theorem AddUserRating_overwrites_one_cell
        (c : Algorithms.CollaborativeFilteringEngine.t)
        (userID itemID : string) (rating : R) (u i : string) :
  ratingOf (Algorithms.CollaborativeFilteringEngine.userItemMatrix
              (Algorithms.CollaborativeFilteringEngine.AddUserRating
                 c userID itemID rating)) u i
  = (if String.eqb u userID && String.eqb i itemID then Some rating
     else ratingOf (Algorithms.CollaborativeFilteringEngine.userItemMatrix c) u i)
  /\ ratingOf (Algorithms.CollaborativeFilteringEngine.itemUserMatrix
                 (Algorithms.CollaborativeFilteringEngine.AddUserRating
                    c userID itemID rating)) i u
     = (if String.eqb u userID && String.eqb i itemID then Some rating
        else ratingOf (Algorithms.CollaborativeFilteringEngine.itemUserMatrix c) i u)
  /\ Algorithms.CollaborativeFilteringEngine.config
       (Algorithms.CollaborativeFilteringEngine.AddUserRating c userID itemID rating)
     = Algorithms.CollaborativeFilteringEngine.config c.
Proof.
  simpl. rewrite !setRating_ratingOf. rewrite (andb_comm (String.eqb i itemID)).
  repeat split.
Qed.

(** ** Neighbours and recommendation lists *)

Lemma NoDup_firstn {A : Type} (n : nat) (l : list A) : NoDup l -> NoDup (firstn n l).
Proof.
  intros H. rewrite <- (firstn_skipn n l) in H. now apply NoDup_app_remove_r in H.
Qed.

Lemma NoDup_truncate {A : Type} (n : nat) (l : list A) : NoDup l -> NoDup (truncate n l).
Proof.
  unfold truncate. destruct (n <? List.length l)%nat; [apply NoDup_firstn | tauto].
Qed.

Lemma map_truncate {A B : Type} (f : A -> B) (n : nat) (l : list A) :
  map f (truncate n l) = truncate n (map f l).
Proof.
  unfold truncate. rewrite length_map.
  destruct (n <? List.length l)%nat; [now rewrite firstn_map | reflexivity].
Qed.

(** X3. [findSimilarUsers] and [findSimilarItems] return at most
    [MaxNeighbors] neighbours in descending order of similarity; a
    neighbour is never the user (item) asked about, is a key of the
    matrix, carries the similarity that [CalculateUserSimilarity]
    ([CalculateItemSimilarity]) computes, and that similarity has
    reached [SimilarityThreshold]. *)
Theorem neighbours_are_others_above_threshold
        (rt : Runtime) (c : Algorithms.CollaborativeFilteringEngine.t) (id : string) :
  (Forall
     (fun su =>
        Algorithms.SimilarUser.UserID su <> id
        /\ In (Algorithms.SimilarUser.UserID su)
              (GoMap.keys (Algorithms.CollaborativeFilteringEngine.userItemMatrix c))
        /\ Algorithms.SimilarUser.Similarity su
           = Algorithms.CollaborativeFilteringEngine.CalculateUserSimilarity
               rt c id (Algorithms.SimilarUser.UserID su)
        /\ Algorithms.SimilarUser.Similarity su
           >= Algorithms.CollaborativeFilteringConfig.SimilarityThreshold
                (Algorithms.CollaborativeFilteringEngine.config c))
     (Algorithms.CollaborativeFilteringEngine.findSimilarUsers rt c id)
   /\ StronglySorted
        (fun a b => Algorithms.SimilarUser.Similarity a
                    >= Algorithms.SimilarUser.Similarity b)
        (Algorithms.CollaborativeFilteringEngine.findSimilarUsers rt c id)
   /\ (List.length (Algorithms.CollaborativeFilteringEngine.findSimilarUsers rt c id)
       <= Algorithms.CollaborativeFilteringConfig.MaxNeighbors
            (Algorithms.CollaborativeFilteringEngine.config c))%nat)
  /\ (Forall
        (fun si =>
           Algorithms.SimilarItem.ItemID si <> id
           /\ In (Algorithms.SimilarItem.ItemID si)
                 (GoMap.keys (Algorithms.CollaborativeFilteringEngine.itemUserMatrix c))
           /\ Algorithms.SimilarItem.Similarity si
              = Algorithms.CollaborativeFilteringEngine.CalculateItemSimilarity
                  rt c id (Algorithms.SimilarItem.ItemID si)
           /\ Algorithms.SimilarItem.Similarity si
              >= Algorithms.CollaborativeFilteringConfig.SimilarityThreshold
                   (Algorithms.CollaborativeFilteringEngine.config c))
        (Algorithms.CollaborativeFilteringEngine.findSimilarItems rt c id)
      /\ StronglySorted
           (fun a b => Algorithms.SimilarItem.Similarity a
                       >= Algorithms.SimilarItem.Similarity b)
           (Algorithms.CollaborativeFilteringEngine.findSimilarItems rt c id)
      /\ (List.length (Algorithms.CollaborativeFilteringEngine.findSimilarItems rt c id)
          <= Algorithms.CollaborativeFilteringConfig.MaxNeighbors
               (Algorithms.CollaborativeFilteringEngine.config c))%nat).
Proof.
  split; (split; [|split]).
  - apply Forall_forall. intros su Hin.
    unfold Algorithms.CollaborativeFilteringEngine.findSimilarUsers in Hin.
    apply truncate_incl, sort_slice_In, in_flat_map in Hin.
    destruct Hin as ([k row] & Hk & Hin). cbn [fst snd] in Hin.
    destruct (String.eqb_spec k id) as [->|Hne]; [destruct Hin|].
    destruct (Rgeb _ _) eqn:E; [|destruct Hin].
    destruct Hin as [<-|[]]. simpl. apply Rgeb_spec in E.
    apply range_In, keys_In in Hk. auto.
  - unfold Algorithms.CollaborativeFilteringEngine.findSimilarUsers.
    apply truncate_sorted.
    now apply (sort_slice_sorted rt _ Algorithms.SimilarUser.Similarity).
  - apply truncate_length.
  - apply Forall_forall. intros si Hin.
    unfold Algorithms.CollaborativeFilteringEngine.findSimilarItems in Hin.
    apply truncate_incl, sort_slice_In, in_flat_map in Hin.
    destruct Hin as ([k row] & Hk & Hin). cbn [fst snd] in Hin.
    destruct (String.eqb_spec k id) as [->|Hne]; [destruct Hin|].
    destruct (Rgeb _ _) eqn:E; [|destruct Hin].
    destruct Hin as [<-|[]]. simpl. apply Rgeb_spec in E.
    apply range_In, keys_In in Hk. auto.
  - unfold Algorithms.CollaborativeFilteringEngine.findSimilarItems.
    apply truncate_sorted.
    now apply (sort_slice_sorted rt _ Algorithms.SimilarItem.Similarity).
  - apply truncate_length.
Qed.

Lemma accumulate_wf (recs : GoMap.t R) (itemID : string) (w : R) :
  GoMap.wf recs ->
  GoMap.wf (Algorithms.CollaborativeFilteringEngine.accumulate recs itemID w).
Proof.
  intros H. unfold Algorithms.CollaborativeFilteringEngine.accumulate.
  apply wf_set. destruct (GoMap.mem recs itemID); [exact H | now apply wf_set].
Qed.

Lemma rankTop_NoDup (rt : Runtime) (recommendations : GoMap.t R) (topN : nat) :
  GoMap.wf recommendations ->
  NoDup (map Algorithms.Recommendation.ItemID
             (Algorithms.CollaborativeFilteringEngine.rankTop rt recommendations topN)).
Proof.
  intros Hwf. unfold Algorithms.CollaborativeFilteringEngine.rankTop.
  rewrite map_truncate. apply NoDup_truncate.
  eapply Permutation_NoDup; [|exact Hwf].
  symmetry. etransitivity; [apply Permutation_map, sort_slice_perm|].
  rewrite map_map. simpl. apply range_keys_perm.
Qed.

(** X4. No item occurs twice in the list that [UserBasedRecommend] or
    [ItemBasedRecommend] returns. *)
Theorem collaborative_recommendations_are_distinct
        (rt : Runtime) (c : Algorithms.CollaborativeFilteringEngine.t)
        (userID : string) (topN : nat) :
  NoDup (map Algorithms.Recommendation.ItemID
             (Algorithms.CollaborativeFilteringEngine.UserBasedRecommend
                rt c userID topN))
  /\ NoDup (map Algorithms.Recommendation.ItemID
                (fst (Algorithms.CollaborativeFilteringEngine.ItemBasedRecommend
                        rt c userID topN))).
Proof.
  unfold Algorithms.CollaborativeFilteringEngine.UserBasedRecommend,
         Algorithms.CollaborativeFilteringEngine.ItemBasedRecommend.
  destruct (GoMap.get _ userID) as [userRatings|]; [|split; constructor].
  split; cbn [fst]; apply rankTop_NoDup.
  - apply fold_left_invariant; [constructor|].
    intros recs su _ Hrecs. apply fold_left_invariant; [exact Hrecs|].
    intros recs' entry _ Hrecs'.
    destruct (GoMap.mem userRatings (fst entry)); [exact Hrecs' | now apply accumulate_wf].
  - apply fold_left_invariant; [constructor|].
    intros recs entry _ Hrecs. apply fold_left_invariant; [exact Hrecs|].
    intros recs' si _ Hrecs'.
    destruct (GoMap.mem userRatings _); [exact Hrecs' | now apply accumulate_wf].
Qed.

(** X5. [ItemBasedRecommend] never reads the similarity cache it fills:
    the list it returns is the same for every content of
    [itemSimilarity], and the call changes neither the matrices nor the
    configuration. *)
Theorem ItemBasedRecommend_ignores_its_cache
        (rt : Runtime) (c : Algorithms.CollaborativeFilteringEngine.t)
        (cache : GoMap.t (GoMap.t R)) (userID : string) (topN : nat) :
  fst (Algorithms.CollaborativeFilteringEngine.ItemBasedRecommend
         rt
         {| Algorithms.CollaborativeFilteringEngine.userItemMatrix :=
              Algorithms.CollaborativeFilteringEngine.userItemMatrix c;
            Algorithms.CollaborativeFilteringEngine.itemUserMatrix :=
              Algorithms.CollaborativeFilteringEngine.itemUserMatrix c;
            Algorithms.CollaborativeFilteringEngine.userSimilarity :=
              Algorithms.CollaborativeFilteringEngine.userSimilarity c;
            Algorithms.CollaborativeFilteringEngine.itemSimilarity := cache;
            Algorithms.CollaborativeFilteringEngine.config :=
              Algorithms.CollaborativeFilteringEngine.config c |}
         userID topN)
  = fst (Algorithms.CollaborativeFilteringEngine.ItemBasedRecommend rt c userID topN)
  /\ Algorithms.CollaborativeFilteringEngine.userItemMatrix
       (snd (Algorithms.CollaborativeFilteringEngine.ItemBasedRecommend rt c userID topN))
     = Algorithms.CollaborativeFilteringEngine.userItemMatrix c
  /\ Algorithms.CollaborativeFilteringEngine.itemUserMatrix
       (snd (Algorithms.CollaborativeFilteringEngine.ItemBasedRecommend rt c userID topN))
     = Algorithms.CollaborativeFilteringEngine.itemUserMatrix c
  /\ Algorithms.CollaborativeFilteringEngine.config
       (snd (Algorithms.CollaborativeFilteringEngine.ItemBasedRecommend rt c userID topN))
     = Algorithms.CollaborativeFilteringEngine.config c.
Proof.
  unfold Algorithms.CollaborativeFilteringEngine.ItemBasedRecommend.
  cbn [Algorithms.CollaborativeFilteringEngine.userItemMatrix
       Algorithms.CollaborativeFilteringEngine.itemSimilarity].
  destruct (GoMap.get _ userID) as [userRatings|]; [|repeat split].
  destruct (List.length cache =? 0)%nat,
           (List.length (Algorithms.CollaborativeFilteringEngine.itemSimilarity c) =? 0)%nat;
    repeat split.
Qed.

(** ** Bounds on the similarities *)

Section CauchySchwarz.
Context {A : Type} (f g : A -> R).





End CauchySchwarz.








(** ** The scores of the user-based recommender *)

Lemma In_get {V : Type} (m : GoMap.t V) (k : string) (v : V) :
  GoMap.wf m -> In (k, v) m -> GoMap.get m k = Some v.
Proof.
  unfold GoMap.wf, GoMap.keys. induction m as [|[k' v'] m IH]; simpl; [tauto|].
  intros Hnd [Heq|Hin].
  - injection Heq as -> ->. now rewrite String.eqb_refl.
  - inversion Hnd as [|? ? Hnotin Hnd']; subst.
    destruct (String.eqb_spec k' k) as [->|_].
    + exfalso. apply Hnotin. apply (in_map fst) in Hin. exact Hin.
    + now apply IH.
Qed.

Lemma at0_accumulate (recs : GoMap.t R) (itemID i : string) (w : R) :
  GoMap.at0 (Algorithms.CollaborativeFilteringEngine.accumulate recs itemID w) i
  = GoMap.at0 recs i + (if String.eqb itemID i then w else 0).
Proof.
  unfold Algorithms.CollaborativeFilteringEngine.accumulate, GoMap.at0, GoMap.index,
         GoMap.mem.
  destruct (String.eqb_spec itemID i) as [->|Hne].
  - rewrite get_set_same. destruct (GoMap.get recs i) eqn:E.
    + rewrite E. reflexivity.
    + rewrite get_set_same. lra.
  - rewrite get_set_other by exact Hne.
    destruct (GoMap.get recs itemID); [|rewrite get_set_other by exact Hne];
      destruct (GoMap.get recs i); lra.
Qed.

Lemma Rsum_row (row : GoMap.t R) (i : string) (s : R) :
  GoMap.wf row ->
  Rsum (map (fun e => if String.eqb (fst e) i then s * snd e else 0) row)
  = s * GoMap.at0 row i.
Proof.
  unfold GoMap.wf, GoMap.keys, GoMap.at0, GoMap.index.
  induction row as [|[k v] row IH]; simpl; [intros _; lra|].
  intros Hnd. inversion Hnd as [|? ? Hnotin Hnd']; subst.
  rewrite (IH Hnd'). destruct (String.eqb_spec k i) as [->|_]; [|lra].
  apply get_None_not_In in Hnotin. rewrite Hnotin. lra.
Qed.

Lemma Rsum_map_ext {A : Type} (f g : A -> R) (l : list A) :
  (forall x, f x = g x) -> Rsum (map f l) = Rsum (map g l).
Proof. intros H. f_equal. apply map_ext, H. Qed.

Lemma Rsum_map_zero {A : Type} (l : list A) : Rsum (map (fun _ => 0) l) = 0.
Proof. induction l as [|x l IH]; simpl; lra. Qed.

(** One neighbour's ratings, added to the running scores. *)
Lemma at0_fold_ratings (rt : Runtime) (userRatings row : GoMap.t R) (s : R)
      (recs : GoMap.t R) (i : string) :
  GoMap.wf row ->
  GoMap.at0
    (fold_left
       (fun recs entry =>
          if GoMap.mem userRatings (fst entry) then recs
          else Algorithms.CollaborativeFilteringEngine.accumulate
                 recs (fst entry) (s * snd entry))
       (range rt row) recs) i
  = GoMap.at0 recs i + (if GoMap.mem userRatings i then 0 else s * GoMap.at0 row i).
Proof.
  intros Hwf.
  transitivity
    (GoMap.at0 recs i
     + Rsum (map (fun e => if GoMap.mem userRatings (fst e) then 0
                           else if String.eqb (fst e) i then s * snd e else 0)
                 (range rt row))).
  - generalize (range rt row) as l. intros l. revert recs.
    induction l as [|e l IH]; intros recs; simpl; [lra|].
    rewrite IH. destruct (GoMap.mem userRatings (fst e)); [lra|].
    rewrite at0_accumulate. lra.
  - f_equal.
    rewrite (Rsum_map_perm _ _ _ (range_order_perm rt _ row)).
    destruct (GoMap.mem userRatings i) eqn:E.
    + transitivity (Rsum (map (fun _ : string * R => 0) row));
        [|apply Rsum_map_zero].
      apply Rsum_map_ext. intros e.
      destruct (String.eqb_spec (fst e) i) as [->|_]; [now rewrite E|].
      now destruct (GoMap.mem userRatings (fst e)).
    + rewrite <- (Rsum_row row i s Hwf). apply Rsum_map_ext. intros e.
      destruct (String.eqb_spec (fst e) i) as [->|_]; [now rewrite E|].
      now destruct (GoMap.mem userRatings (fst e)).
Qed.

Lemma wfMatrix_index (m : GoMap.t (GoMap.t R)) (k : string) :
  wfMatrix m -> GoMap.wf (GoMap.index [] m k).
Proof.
  intros Hwf. unfold GoMap.index. destruct (GoMap.get m k) eqn:E.
  - exact (wfMatrix_get _ _ _ Hwf E).
  - constructor.
Qed.

(** X8. Under a well-formed matrix, the score [UserBasedRecommend]
    gives an item is the sum, over the neighbours found by
    [findSimilarUsers], of the neighbour's similarity times the
    neighbour's rating of the item (0 when the neighbour has not rated
    it); the sum is not divided by the sum of the similarities.  Each
    returned item has been rated by at least one neighbour. *)
Theorem UserBasedRecommend_score_is_weighted_sum
        (rt : Runtime) (c : Algorithms.CollaborativeFilteringEngine.t)
        (userID : string) (topN : nat) (r : Algorithms.Recommendation.t) :
  wfMatrix (Algorithms.CollaborativeFilteringEngine.userItemMatrix c) ->
  In r (Algorithms.CollaborativeFilteringEngine.UserBasedRecommend rt c userID topN) ->
  Algorithms.Recommendation.Score r
  = Rsum (map (fun su =>
                 Algorithms.SimilarUser.Similarity su
                 * GoMap.at0
                     (GoMap.index []
                        (Algorithms.CollaborativeFilteringEngine.userItemMatrix c)
                        (Algorithms.SimilarUser.UserID su))
                     (Algorithms.Recommendation.ItemID r))
              (Algorithms.CollaborativeFilteringEngine.findSimilarUsers rt c userID))
  /\ exists su,
       In su (Algorithms.CollaborativeFilteringEngine.findSimilarUsers rt c userID)
       /\ GoMap.mem
            (GoMap.index []
               (Algorithms.CollaborativeFilteringEngine.userItemMatrix c)
               (Algorithms.SimilarUser.UserID su))
            (Algorithms.Recommendation.ItemID r) = true.
Proof.
  intros Hwf Hin.
  assert (Hnew : ~ rated c userID (Algorithms.Recommendation.ItemID r)).
  { intros Hrated.
    apply (UserBasedRecommend_excludes_rated rt c userID _ topN Hrated).
    now apply in_map. }
  unfold rated, GoMap.index in Hnew.
  unfold Algorithms.CollaborativeFilteringEngine.UserBasedRecommend in Hin.
  destruct (GoMap.get _ userID) as [userRatings|]; [|destruct Hin].
  cbv zeta in Hin.
  generalize dependent (Algorithms.CollaborativeFilteringEngine.findSimilarUsers rt c userID).
  intros similarUsers.
  match goal with
  | |- In _ (_ _ (fold_left ?f _ _) _) -> _ => set (addNeighbour := f)
  end.
  assert (Hsum : forall l recs i,
             GoMap.at0 (fold_left addNeighbour l recs) i
             = GoMap.at0 recs i
               + (if GoMap.mem userRatings i then 0 else
                    Rsum (map (fun su =>
                                 Algorithms.SimilarUser.Similarity su
                                 * GoMap.at0
                                     (GoMap.index []
                                        (Algorithms.CollaborativeFilteringEngine.userItemMatrix c)
                                        (Algorithms.SimilarUser.UserID su)) i) l))).
  { induction l as [|su l IH]; intros recs i; simpl.
    - destruct (GoMap.mem userRatings i); lra.
    - rewrite IH. unfold addNeighbour.
      rewrite at0_fold_ratings by apply wfMatrix_index, Hwf.
      destruct (GoMap.mem userRatings i); lra. }
  assert (Hwfrecs : GoMap.wf (fold_left addNeighbour similarUsers [])).
  { apply fold_left_invariant; [constructor|].
    intros recs su _ Hrecs. apply fold_left_invariant; [exact Hrecs|].
    intros recs' entry _ Hrecs'.
    destruct (GoMap.mem userRatings (fst entry)); [exact Hrecs' | now apply accumulate_wf]. }
  assert (Hsrc : forall k, In k (GoMap.keys (fold_left addNeighbour similarUsers [])) ->
                           exists su, In su similarUsers
                                      /\ GoMap.mem
                                           (GoMap.index []
                                              (Algorithms.CollaborativeFilteringEngine.userItemMatrix c)
                                              (Algorithms.SimilarUser.UserID su)) k = true).
  { apply fold_left_invariant; [intros k []|].
    intros recs su Hsu Hrecs. apply fold_left_invariant; [exact Hrecs|].
    intros recs' [k' v] He Hrecs' k Hk. cbn [fst snd] in Hk.
    destruct (GoMap.mem userRatings k'); [now apply Hrecs'|].
    apply accumulate_keys in Hk. destruct Hk as [->|Hk]; [|now apply Hrecs'].
    exists su. split; [exact Hsu|]. apply mem_true_In.
    apply range_In in He. now apply keys_In in He. }
  intros Hr. split.
  - unfold Algorithms.CollaborativeFilteringEngine.rankTop in Hr.
    apply truncate_incl, sort_slice_In, in_map_iff in Hr.
    destruct Hr as ([k v] & <- & Hr). cbn [fst snd] in *. cbn.
    apply range_In, (In_get _ _ _ Hwfrecs) in Hr.
    specialize (Hsum similarUsers [] k).
    unfold GoMap.at0 at 1, GoMap.index at 1 in Hsum. rewrite Hr in Hsum.
    rewrite Hsum. cbn in Hnew.
    destruct (GoMap.mem userRatings k); [congruence|].
    unfold GoMap.at0 at 1, GoMap.index. simpl. lra.
  - apply Hsrc. now apply rankTop_ids in Hr.
Qed.

Lemma five_common_wfMatrix :
  wfMatrix (Algorithms.CollaborativeFilteringEngine.userItemMatrix five_common).
Proof.
  rewrite five_common_eq. unfold wfMatrix, GoMap.wf. cbn.
  repeat constructor; cbn; intuition discriminate.
Qed.

Lemma UserBasedRecommend_score_is_weighted_sum_witness :
  let r := {| Algorithms.Recommendation.ItemID := "y";
              Algorithms.Recommendation.Score := 0 + 0.1 * 3 |} in
  Algorithms.Recommendation.Score r
  = Rsum (map (fun su =>
                 Algorithms.SimilarUser.Similarity su
                 * GoMap.at0
                     (GoMap.index []
                        (Algorithms.CollaborativeFilteringEngine.userItemMatrix five_common)
                        (Algorithms.SimilarUser.UserID su))
                     (Algorithms.Recommendation.ItemID r))
              (Algorithms.CollaborativeFilteringEngine.findSimilarUsers
                 inOrder five_common "u"))
  /\ exists su,
       In su (Algorithms.CollaborativeFilteringEngine.findSimilarUsers
                inOrder five_common "u")
       /\ GoMap.mem
            (GoMap.index []
               (Algorithms.CollaborativeFilteringEngine.userItemMatrix five_common)
               (Algorithms.SimilarUser.UserID su))
            (Algorithms.Recommendation.ItemID r) = true.
Proof.
  intros r.
  apply (UserBasedRecommend_score_is_weighted_sum inOrder five_common "u" 10 r).
  - exact five_common_wfMatrix.
  - rewrite five_common_user_based_inOrder. left. reflexivity.
Defined.

(** * Further properties of the content-based engine *)

(** X9. The content-based [GenerateRecommendations] returns nothing for
    a user without a profile.  Otherwise every returned entry is an item
    of the catalog whose score is the similarity [calculateSimilarity]
    computes between the user's profile and the item, and that score has
    reached [SimilarityThreshold]; the list is in descending order of
    score and holds at most [topN] entries. *)
Theorem content_recommendations_reach_threshold
        (rt : Runtime) (c : Algorithms.ContentBasedFilteringEngine.t)
        (userID : string) (topN : nat) :
  match GoMap.get (Algorithms.ContentBasedFilteringEngine.userProfiles c) userID with
  | None =>
      Algorithms.ContentBasedFilteringEngine.GenerateRecommendations rt c userID topN = []
  | Some profile =>
      Forall
        (fun r =>
           exists item,
             In (Algorithms.Recommendation.ItemID r, item)
                (Algorithms.ContentBasedFilteringEngine.itemFeatures c)
             /\ Algorithms.Recommendation.Score r
                = Algorithms.ContentBasedFilteringEngine.calculateSimilarity rt profile item
             /\ Algorithms.Recommendation.Score r
                >= Algorithms.ContentBasedFilteringConfig.SimilarityThreshold
                     (Algorithms.ContentBasedFilteringEngine.config c))
        (Algorithms.ContentBasedFilteringEngine.GenerateRecommendations rt c userID topN)
  end
  /\ StronglySorted
       (fun a b => Algorithms.Recommendation.Score a >= Algorithms.Recommendation.Score b)
       (Algorithms.ContentBasedFilteringEngine.GenerateRecommendations rt c userID topN)
  /\ (List.length
        (Algorithms.ContentBasedFilteringEngine.GenerateRecommendations rt c userID topN)
      <= topN)%nat.
Proof.
  unfold Algorithms.ContentBasedFilteringEngine.GenerateRecommendations.
  destruct (GoMap.get _ userID) as [profile|];
    [|split; [reflexivity | split; [constructor | simpl; lia]]].
  split; [|split].
  - apply Forall_forall. intros r Hr.
    apply truncate_incl, sort_slice_In, in_flat_map in Hr.
    destruct Hr as ([itemID item] & Hentry & Hr). cbn [fst snd] in Hr.
    destruct (GoMap.mem _ itemID); [destruct Hr|].
    destruct (Rgeb _ _) eqn:E; [|destruct Hr].
    destruct Hr as [<-|[]]. simpl. exists item.
    apply range_In in Hentry. apply Rgeb_spec in E. auto.
  - apply truncate_sorted.
    now apply (sort_slice_sorted rt _ Algorithms.Recommendation.Score).
  - apply truncate_length.
Qed.

(** ** Profile learning *)

Lemma at0_bump (m : GoMap.t R) (k i : string) (w : R) :
  GoMap.at0 (Algorithms.ContentBasedFilteringEngine.bump m k w) i
  = GoMap.at0 m i + (if String.eqb k i then w else 0).
Proof.
  unfold Algorithms.ContentBasedFilteringEngine.bump.
  destruct (Reqb (GoMap.at0 m k) 0) eqn:E; unfold GoMap.at0, GoMap.index in *.
  - apply Reqb_spec in E.
    destruct (String.eqb_spec k i) as [->|Hne].
    + rewrite !get_set_same. lra.
    + rewrite !get_set_other by exact Hne. lra.
  - destruct (String.eqb_spec k i) as [->|Hne].
    + rewrite get_set_same. lra.
    + rewrite get_set_other by exact Hne. lra.
Qed.

Lemma at0_scale (m : GoMap.t R) (d : R) (i : string) :
  GoMap.at0 (map (fun entry => (fst entry, snd entry * d)) m) i = GoMap.at0 m i * d.
Proof.
  unfold GoMap.at0, GoMap.index.
  induction m as [|[k v] m IH]; simpl; [lra|].
  destruct (String.eqb k i); [reflexivity | exact IH].
Qed.

Lemma at0_fold_features (l : list (string * R)) (s : R) (fv : GoMap.t R) (i : string) :
  GoMap.at0
    (fold_left
       (fun fv entry =>
          Algorithms.ContentBasedFilteringEngine.bump fv (fst entry) (s * snd entry))
       l fv) i
  = GoMap.at0 fv i
    + Rsum (map (fun e => if String.eqb (fst e) i then s * snd e else 0) l).
Proof.
  revert fv. induction l as [|e l IH]; intros fv; simpl; [lra|].
  rewrite IH, at0_bump. lra.
Qed.

Lemma at0_fold_keywords (keywords : list string) (w : R) (prefs : GoMap.t R) (i : string) :
  GoMap.at0
    (fold_left
       (fun prefs keyword => Algorithms.ContentBasedFilteringEngine.bump prefs keyword w)
       keywords prefs) i
  = GoMap.at0 prefs i + INR (count_occ string_dec keywords i) * w.
Proof.
  revert prefs. induction keywords as [|k keywords IH]; intros prefs.
  - simpl. lra.
  - cbn [fold_left count_occ]. rewrite IH, at0_bump.
    destruct (string_dec k i) as [->|Hne].
    + rewrite String.eqb_refl, S_INR. lra.
    + apply String.eqb_neq in Hne. rewrite Hne. lra.
Qed.

(** The profile [updateUserProfile] starts from. *)
Definition profileBefore (c : Algorithms.ContentBasedFilteringEngine.t) (userID : string)
  : Algorithms.UserProfile.t :=
  match GoMap.get (Algorithms.ContentBasedFilteringEngine.userProfiles c) userID with
  | Some profile => profile
  | None => {| Algorithms.UserProfile.UserID := userID;
               Algorithms.UserProfile.FeatureVector := [];
               Algorithms.UserProfile.Preferences := [];
               Algorithms.UserProfile.UpdateTime := 0 |}
  end.

(** The factor by which a profile last updated at [updateTime] fades
    until [now]: [DecayFactor] to the power of the elapsed days. *)
Definition fade (c : Algorithms.ContentBasedFilteringEngine.t) (updateTime now : Z) : R :=
  if (updateTime <? now)%Z
  then Rpower (Algorithms.ContentBasedFilteringConfig.DecayFactor
                 (Algorithms.ContentBasedFilteringEngine.config c))
              (IZR (now - updateTime) / 86400)
  else 1.

Lemma applyFeatureDecay_at0 (now : Z) (c : Algorithms.ContentBasedFilteringEngine.t)
      (profile : Algorithms.UserProfile.t) (i : string) :
  GoMap.at0 (Algorithms.UserProfile.FeatureVector
               (Algorithms.ContentBasedFilteringEngine.applyFeatureDecay now c profile)) i
  = GoMap.at0 (Algorithms.UserProfile.FeatureVector profile) i
    * fade c (Algorithms.UserProfile.UpdateTime profile) now
  /\ GoMap.at0 (Algorithms.UserProfile.Preferences
                  (Algorithms.ContentBasedFilteringEngine.applyFeatureDecay now c profile)) i
     = GoMap.at0 (Algorithms.UserProfile.Preferences profile) i
       * fade c (Algorithms.UserProfile.UpdateTime profile) now.
Proof.
  unfold Algorithms.ContentBasedFilteringEngine.applyFeatureDecay, fade.
  replace (0 <? now - Algorithms.UserProfile.UpdateTime profile)%Z
    with (Algorithms.UserProfile.UpdateTime profile <? now)%Z
    by (destruct (Z.ltb_spec (Algorithms.UserProfile.UpdateTime profile) now),
                 (Z.ltb_spec 0 (now - Algorithms.UserProfile.UpdateTime profile));
        (reflexivity || lia)).
  destruct (_ <? now)%Z; cbn [Algorithms.UserProfile.FeatureVector
                               Algorithms.UserProfile.Preferences].
  - now rewrite !at0_scale.
  - split; lra.
Qed.

Lemma AddUserBehavior_profile
        (rt : Runtime) (now : Z) (c : Algorithms.ContentBasedFilteringEngine.t)
        (userID itemID : string) (rating : R) (item : Algorithms.ItemFeatures.t) :
  GoMap.get (Algorithms.ContentBasedFilteringEngine.itemFeatures c) itemID = Some item ->
  GoMap.wf (Algorithms.ItemFeatures.Features item) ->
  let old := profileBefore c userID in
  let d := fade c (Algorithms.UserProfile.UpdateTime old) now in
  let step := Algorithms.ContentBasedFilteringConfig.LearningRate
                (Algorithms.ContentBasedFilteringEngine.config c) * rating in
  exists profile,
    GoMap.get (Algorithms.ContentBasedFilteringEngine.userProfiles
                 (Algorithms.ContentBasedFilteringEngine.AddUserBehavior
                    rt now c userID itemID rating)) userID = Some profile
    /\ Algorithms.UserProfile.UpdateTime profile = now
    /\ (forall feature,
           GoMap.at0 (Algorithms.UserProfile.FeatureVector profile) feature
           = GoMap.at0 (Algorithms.UserProfile.FeatureVector old) feature * d
             + step * GoMap.at0 (Algorithms.ItemFeatures.Features item) feature)
    /\ (forall key,
           GoMap.at0 (Algorithms.UserProfile.Preferences profile) key
           = GoMap.at0 (Algorithms.UserProfile.Preferences old) key * d
             + step * (INR (count_occ string_dec (Algorithms.ItemFeatures.Keywords item) key)
                       + (if String.eqb (Algorithms.ItemFeatures.Category item) key
                          then 1 else 0))).
Proof.
  intros Hitem Hwf old d step.
  unfold Algorithms.ContentBasedFilteringEngine.AddUserBehavior.
  cbn [Algorithms.ContentBasedFilteringEngine.itemFeatures]. rewrite Hitem.
  unfold Algorithms.ContentBasedFilteringEngine.updateUserProfile.
  cbn [Algorithms.ContentBasedFilteringEngine.userProfiles
       Algorithms.ContentBasedFilteringEngine.config].
  fold (profileBefore c userID). fold old.
  rewrite get_set_same. eexists. split; [reflexivity|].
  cbn [Algorithms.UserProfile.UpdateTime Algorithms.UserProfile.FeatureVector
       Algorithms.UserProfile.Preferences].
  split; [reflexivity|]. split.
  - intros feature. rewrite at0_fold_features. unfold range.
    rewrite (Rsum_map_perm _ _ _ (range_order_perm rt _ _)).
    rewrite (Rsum_row _ _ _ Hwf).
    match goal with
    | |- context [Algorithms.ContentBasedFilteringEngine.applyFeatureDecay ?n ?e ?p] =>
        destruct (applyFeatureDecay_at0 n e p feature) as [-> _]
    end.
    reflexivity.
  - intros key. rewrite at0_bump, at0_fold_keywords.
    match goal with
    | |- context [Algorithms.ContentBasedFilteringEngine.applyFeatureDecay ?n ?e ?p] =>
        destruct (applyFeatureDecay_at0 n e p key) as [_ ->]
    end.
    fold step. unfold d, fade.
    cbn [Algorithms.ContentBasedFilteringEngine.config].
    destruct (String.eqb _ key); lra.
Qed.

(** X10. The learning rule of [AddUserBehavior] for an item of the
    catalog (with a positive [DecayFactor], and the item's feature map a
    map).  The user's profile after the call is stamped with the current
    time; each feature weight is the old weight, faded by
    [DecayFactor ^ (elapsed days)] when time has passed since the last
    update, plus [LearningRate * rating * value] for the item's value of
    that feature; each preference is the old preference, faded alike,
    plus [LearningRate * rating] once for every occurrence of the key
    among the item's keywords and once more when the key is the item's
    category.  A user without a profile starts from an empty one dated
    0. *)
Theorem AddUserBehavior_learning_rule
        (rt : Runtime) (now : Z) (c : Algorithms.ContentBasedFilteringEngine.t)
        (userID itemID : string) (rating : R) (item : Algorithms.ItemFeatures.t) :
  GoMap.get (Algorithms.ContentBasedFilteringEngine.itemFeatures c) itemID = Some item ->
  GoMap.wf (Algorithms.ItemFeatures.Features item) ->
  0 < Algorithms.ContentBasedFilteringConfig.DecayFactor
        (Algorithms.ContentBasedFilteringEngine.config c) ->
  let old := profileBefore c userID in
  let d := fade c (Algorithms.UserProfile.UpdateTime old) now in
  let step := Algorithms.ContentBasedFilteringConfig.LearningRate
                (Algorithms.ContentBasedFilteringEngine.config c) * rating in
  exists profile,
    GoMap.get (Algorithms.ContentBasedFilteringEngine.userProfiles
                 (Algorithms.ContentBasedFilteringEngine.AddUserBehavior
                    rt now c userID itemID rating)) userID = Some profile
    /\ Algorithms.UserProfile.UpdateTime profile = now
    /\ (forall feature,
           GoMap.at0 (Algorithms.UserProfile.FeatureVector profile) feature
           = GoMap.at0 (Algorithms.UserProfile.FeatureVector old) feature * d
             + step * GoMap.at0 (Algorithms.ItemFeatures.Features item) feature)
    /\ (forall key,
           GoMap.at0 (Algorithms.UserProfile.Preferences profile) key
           = GoMap.at0 (Algorithms.UserProfile.Preferences old) key * d
             + step * (INR (count_occ string_dec (Algorithms.ItemFeatures.Keywords item) key)
                       + (if String.eqb (Algorithms.ItemFeatures.Category item) key
                          then 1 else 0))).
Proof. intros Hitem Hwf _. now apply AddUserBehavior_profile. Qed.


Lemma AddUserBehavior_learning_rule_witness :
  let c := Algorithms.ContentBasedFilteringEngine.AddItemFeatures
             Algorithms.ContentBasedFilteringEngine.NewContentBasedFilteringEngine
             "A" "cat1" ["k"; "k"] [("f", 2)] in
  let item := {| Algorithms.ItemFeatures.ItemID := "A";
                 Algorithms.ItemFeatures.Category := "cat1";
                 Algorithms.ItemFeatures.Keywords := ["k"; "k"];
                 Algorithms.ItemFeatures.Features := [("f", 2)];
                 Algorithms.ItemFeatures.Metadata := [] |} in
  let old := profileBefore c "u" in
  let d := fade c (Algorithms.UserProfile.UpdateTime old) 86400 in
  let step := Algorithms.ContentBasedFilteringConfig.LearningRate
                (Algorithms.ContentBasedFilteringEngine.config c) * 5 in
  exists profile,
    GoMap.get (Algorithms.ContentBasedFilteringEngine.userProfiles
                 (Algorithms.ContentBasedFilteringEngine.AddUserBehavior
                    inOrder 86400 c "u" "A" 5)) "u" = Some profile
    /\ Algorithms.UserProfile.UpdateTime profile = 86400%Z
    /\ (forall feature,
           GoMap.at0 (Algorithms.UserProfile.FeatureVector profile) feature
           = GoMap.at0 (Algorithms.UserProfile.FeatureVector old) feature * d
             + step * GoMap.at0 (Algorithms.ItemFeatures.Features item) feature)
    /\ (forall key,
           GoMap.at0 (Algorithms.UserProfile.Preferences profile) key
           = GoMap.at0 (Algorithms.UserProfile.Preferences old) key * d
             + step * (INR (count_occ string_dec (Algorithms.ItemFeatures.Keywords item) key)
                       + (if String.eqb (Algorithms.ItemFeatures.Category item) key
                          then 1 else 0))).
Proof.
  intros c item.
  apply (AddUserBehavior_learning_rule inOrder 86400 c "u" "A" 5 item).
  - reflexivity.
  - repeat constructor. simpl. tauto.
  - simpl. lra.
Defined.

(** X11. What [AddUserBehavior] touches.  The rating is always recorded
    in the user's history, overwriting an earlier rating of the same item
    and leaving every other cell alone; the catalog and the
    configuration are unchanged; no other user's profile changes; and
    for an item that is not in the catalog no profile changes at all, so
    the behaviour only hides the item from later recommendations. *)
Theorem AddUserBehavior_frame
        (rt : Runtime) (now : Z) (c : Algorithms.ContentBasedFilteringEngine.t)
        (userID itemID : string) (rating : R) (u i : string) :
  let c' := Algorithms.ContentBasedFilteringEngine.AddUserBehavior
              rt now c userID itemID rating in
  ratingOf (Algorithms.ContentBasedFilteringEngine.userItemHistory c') u i
  = (if String.eqb u userID && String.eqb i itemID then Some rating
     else ratingOf (Algorithms.ContentBasedFilteringEngine.userItemHistory c) u i)
  /\ Algorithms.ContentBasedFilteringEngine.itemFeatures c'
     = Algorithms.ContentBasedFilteringEngine.itemFeatures c
  /\ Algorithms.ContentBasedFilteringEngine.config c'
     = Algorithms.ContentBasedFilteringEngine.config c
  /\ (if String.eqb userID u then True
      else GoMap.get (Algorithms.ContentBasedFilteringEngine.userProfiles c') u
           = GoMap.get (Algorithms.ContentBasedFilteringEngine.userProfiles c) u)
  /\ (if GoMap.mem (Algorithms.ContentBasedFilteringEngine.itemFeatures c) itemID then True
      else Algorithms.ContentBasedFilteringEngine.userProfiles c'
           = Algorithms.ContentBasedFilteringEngine.userProfiles c).
Proof.
  intros c'. subst c'.
  unfold Algorithms.ContentBasedFilteringEngine.AddUserBehavior, GoMap.mem.
  cbn [Algorithms.ContentBasedFilteringEngine.itemFeatures].
  destruct (GoMap.get _ itemID) as [item|];
    [unfold Algorithms.ContentBasedFilteringEngine.updateUserProfile|];
    cbn [Algorithms.ContentBasedFilteringEngine.userItemHistory
         Algorithms.ContentBasedFilteringEngine.itemFeatures
         Algorithms.ContentBasedFilteringEngine.userProfiles
         Algorithms.ContentBasedFilteringEngine.config];
    rewrite setRating_ratingOf; repeat split;
    destruct (String.eqb_spec userID u) as [->|Hne]; try exact I;
    try reflexivity.
  now rewrite get_set_other.
Qed.

(** ** The feature similarity *)










(** * Further properties of the hybrid blend *)

(** ** Slice updates and swaps *)

Lemma list_set_length {A : Type} (l : list A) (i : nat) (x : A) :
  List.length (Algorithms.HybridFilteringEngine.list_set l i x) = List.length l.
Proof.
  revert i. induction l as [|y l IH]; intros [|i]; simpl; try reflexivity.
  now rewrite IH.
Qed.

Lemma nth_error_list_set_same {A : Type} (l : list A) (i : nat) (x : A) :
  (i < List.length l)%nat ->
  nth_error (Algorithms.HybridFilteringEngine.list_set l i x) i = Some x.
Proof.
  revert i. induction l as [|y l IH]; intros [|i]; simpl; intros H; try lia.
  - reflexivity.
  - apply IH. lia.
Qed.

Lemma nth_error_list_set_other {A : Type} (l : list A) (i j : nat) (x : A) :
  i <> j ->
  nth_error (Algorithms.HybridFilteringEngine.list_set l i x) j = nth_error l j.
Proof.
  revert i j. induction l as [|y l IH]; intros [|i] [|j]; simpl; intros H;
    try reflexivity; try lia.
  apply IH. lia.
Qed.

Lemma firstn_list_set {A : Type} (l : list A) (i j : nat) (x : A) :
  (i <= j)%nat ->
  firstn i (Algorithms.HybridFilteringEngine.list_set l j x) = firstn i l.
Proof.
  revert i j. induction l as [|y l IH]; intros [|i] [|j]; simpl; intros H;
    try reflexivity; try lia.
  f_equal. apply IH. lia.
Qed.

Lemma list_set_exchange {A : Type} (l : list A) (j : nat) (a b : A) :
  nth_error l j = Some b ->
  Permutation (b :: Algorithms.HybridFilteringEngine.list_set l j a) (a :: l).
Proof.
  revert j. induction l as [|y l IH]; intros [|j]; simpl; intros H; try discriminate.
  - injection H as ->. apply perm_swap.
  - etransitivity; [apply perm_swap|].
    etransitivity; [apply perm_skip, IH, H|]. apply perm_swap.
Qed.

Lemma list_set_swap_perm {A : Type} (l : list A) (i j : nat) (a b : A) :
  nth_error l i = Some a -> nth_error l j = Some b ->
  Permutation
    (Algorithms.HybridFilteringEngine.list_set
       (Algorithms.HybridFilteringEngine.list_set l i b) j a) l.
Proof.
  revert i j. induction l as [|y l IH]; intros [|i] [|j]; simpl; intros Hi Hj;
    try discriminate.
  - injection Hi as ->. reflexivity.
  - injection Hi as ->. now apply list_set_exchange.
  - injection Hj as ->. now apply list_set_exchange.
  - apply perm_skip. now apply IH.
Qed.

Lemma swap_perm {A : Type} (l : list A) (i j : nat) :
  Permutation (Algorithms.HybridFilteringEngine.swap l i j) l.
Proof.
  unfold Algorithms.HybridFilteringEngine.swap.
  destruct (nth_error l i) as [a|] eqn:Ei; [|reflexivity].
  destruct (nth_error l j) as [b|] eqn:Ej; [|reflexivity].
  now apply list_set_swap_perm.
Qed.

Lemma nth_error_swap {A : Type} (l : list A) (i j : nat) (b : A) :
  (i <= j)%nat -> nth_error l j = Some b ->
  nth_error (Algorithms.HybridFilteringEngine.swap l i j) i = Some b.
Proof.
  intros Hle Hj. unfold Algorithms.HybridFilteringEngine.swap.
  assert (Hlen : (j < List.length l)%nat) by (apply nth_error_Some; congruence).
  destruct (nth_error l i) as [a|] eqn:Ei;
    [|apply nth_error_None in Ei; lia].
  rewrite Hj. destruct (Nat.eq_dec i j) as [->|Hne].
  - rewrite nth_error_list_set_same by (rewrite list_set_length; lia). congruence.
  - rewrite nth_error_list_set_other by lia.
    apply nth_error_list_set_same. lia.
Qed.

Lemma firstn_swap {A : Type} (l : list A) (i j : nat) :
  (i <= j)%nat ->
  firstn i (Algorithms.HybridFilteringEngine.swap l i j) = firstn i l.
Proof.
  intros Hle. unfold Algorithms.HybridFilteringEngine.swap.
  destruct (nth_error l i) as [a|]; [|reflexivity].
  destruct (nth_error l j) as [b|]; [|reflexivity].
  rewrite !firstn_list_set by lia. reflexivity.
Qed.

Lemma firstn_snoc {A : Type} (l : list A) (i : nat) (x : A) :
  nth_error l i = Some x -> firstn (S i) l = firstn i l ++ [x].
Proof.
  revert i. induction l as [|y l IH]; intros [|i]; simpl; intros H; try discriminate.
  - now injection H as ->.
  - f_equal. now apply IH.
Qed.

Lemma In_skipn_nth {A : Type} (l : list A) (k : nat) (x : A) :
  In x (skipn k l) -> exists j, (k <= j)%nat /\ nth_error l j = Some x.
Proof.
  revert k. induction l as [|y l IH]; intros [|k]; simpl; try tauto.
  - intros [->|H]; [exists 0%nat; split; [lia | reflexivity]|].
    apply In_nth_error in H. destruct H as [j Hj]. exists (S j). split; [lia | exact Hj].
  - intros H. apply IH in H. destruct H as (j & Hle & Hj).
    exists (S j). split; [lia | exact Hj].
Qed.

(** ** The diversity pass *)

Section DiversityPass.
Variable h : Algorithms.HybridFilteringEngine.t.

Definition inCatalog (rec : Algorithms.HybridRecommendation.t) : Prop :=
  GoMap.mem (Algorithms.ContentBasedFilteringEngine.itemFeatures
               (Algorithms.HybridFilteringEngine.contentBased h))
            (Algorithms.HybridRecommendation.ItemID rec) = true.

(** The diversity score the inner loop compares: halved when the item's
    category has been selected already. *)
Definition comparedScore (selectedCategories : GoMap.t bool)
           (itemFeatures : Algorithms.ItemFeatures.t)
           (rec : Algorithms.HybridRecommendation.t) : R :=
  if GoMap.index false selectedCategories (Algorithms.ItemFeatures.Category itemFeatures)
  then Algorithms.HybridRecommendation.DiversityScore rec * 0.5
  else Algorithms.HybridRecommendation.DiversityScore rec.

(** A candidate the inner loop cannot pick: it has no features, or its
    compared score does not exceed the initial best of -1. *)
Definition unselectable (selectedCategories : GoMap.t bool)
           (rec : Algorithms.HybridRecommendation.t) : Prop :=
  match GoMap.get (Algorithms.ContentBasedFilteringEngine.itemFeatures
                     (Algorithms.HybridFilteringEngine.contentBased h))
                  (Algorithms.HybridRecommendation.ItemID rec) with
  | None => True
  | Some itemFeatures => comparedScore selectedCategories itemFeatures rec <= -1
  end.

Lemma bestCandidate_scan (selectedCategories : GoMap.t bool)
      (recommendations : list Algorithms.HybridRecommendation.t)
      (js : list nat) (best : option nat * R) :
  (fst best = None -> snd best = -1) -> -1 <= snd best ->
  let result :=
    fold_left
      (fun best j =>
         match nth_error recommendations j with
         | None => best
         | Some rec =>
             match GoMap.get (Algorithms.ContentBasedFilteringEngine.itemFeatures
                                (Algorithms.HybridFilteringEngine.contentBased h))
                             (Algorithms.HybridRecommendation.ItemID rec) with
             | None => best
             | Some itemFeatures =>
                 let diversityScore :=
                   if GoMap.index false selectedCategories
                                  (Algorithms.ItemFeatures.Category itemFeatures)
                   then Algorithms.HybridRecommendation.DiversityScore rec * 0.5
                   else Algorithms.HybridRecommendation.DiversityScore rec in
                 if Rgtb diversityScore (snd best) then (Some j, diversityScore) else best
             end
         end) js best in
  (fst result = None ->
   fst best = None
   /\ forall j rec, In j js -> nth_error recommendations j = Some rec ->
                    unselectable selectedCategories rec)
  /\ (forall j, fst result = Some j ->
                fst best = Some j
                \/ (In j js /\ exists rec, nth_error recommendations j = Some rec
                                           /\ inCatalog rec
                                           /\ ~ unselectable selectedCategories rec)).
Proof.
  revert best.
  induction js as [|j js IH]; intros best Hbest Hlow; cbv zeta; cbn [fold_left].
  - split; [intros H; split; [exact H | intros ? ? []]|]. intros j Hj. now left.
  - match goal with
    | |- context [fold_left ?f js ?b] => specialize (IH b)
    end.
    cbv zeta in IH.
    destruct (nth_error recommendations j) as [rec|] eqn:Enth.
    + destruct (GoMap.get _ (Algorithms.HybridRecommendation.ItemID rec))
        as [itemFeatures|] eqn:Ecat.
      * fold (comparedScore selectedCategories itemFeatures rec) in *.
        destruct (Rgtb (comparedScore selectedCategories itemFeatures rec) (snd best))
          eqn:Egt.
        -- apply Rgtb_spec in Egt.
           destruct IH as [IHn IHs]; [discriminate | cbn [snd]; lra|]. split.
           ++ intros H. apply IHn in H. destruct H as [H _]. discriminate.
           ++ intros j' H. apply IHs in H. right. destruct H as [H|(Hin & Hrec)].
              ** injection H as <-. split; [now left|]. exists rec. split; [exact Enth|].
                 unfold inCatalog, unselectable, GoMap.mem. rewrite Ecat.
                 split; [reflexivity | lra].
              ** split; [now right | exact Hrec].
        -- destruct (IH Hbest Hlow) as [IHn IHs]. split.
           ++ intros H. destruct (IHn H) as [Hnone Hrest]. split; [exact Hnone|].
              intros j' rec' [<-|Hin] Hnth; [|now apply (Hrest j')].
              rewrite Enth in Hnth. injection Hnth as <-.
              unfold unselectable. rewrite Ecat.
              apply Hbest in Hnone. rewrite Hnone in Egt.
              unfold Rgtb in Egt. destruct (Rgt_dec _ _); [discriminate | lra].
           ++ intros j' H. destruct (IHs j' H) as [H'|(Hin & Hrec)];
                [now left | right; split; [now right | exact Hrec]].
      * destruct (IH Hbest Hlow) as [IHn IHs]. split.
        -- intros H. destruct (IHn H) as [Hnone Hrest]. split; [exact Hnone|].
           intros j' rec' [<-|Hin] Hnth; [|now apply (Hrest j')].
           rewrite Enth in Hnth. injection Hnth as <-.
           unfold unselectable. now rewrite Ecat.
        -- intros j' H. destruct (IHs j' H) as [H'|(Hin & Hrec)];
             [now left | right; split; [now right | exact Hrec]].
    + destruct (IH Hbest Hlow) as [IHn IHs]. split.
      * intros H. destruct (IHn H) as [Hnone Hrest]. split; [exact Hnone|].
        intros j' rec' [<-|Hin] Hnth; [congruence | now apply (Hrest j')].
      * intros j' H. destruct (IHs j' H) as [H'|(Hin & Hrec)];
          [now left | right; split; [now right | exact Hrec]].
Qed.

Lemma bestCandidate_None (selectedCategories : GoMap.t bool)
      (recommendations : list Algorithms.HybridRecommendation.t) (i : nat) :
  fst (Algorithms.HybridFilteringEngine.bestCandidate h selectedCategories recommendations i)
  = None ->
  Forall (unselectable selectedCategories) (skipn i recommendations).
Proof.
  intros H. unfold Algorithms.HybridFilteringEngine.bestCandidate in H.
  apply bestCandidate_scan in H; [|reflexivity | cbn [snd]; lra]. destruct H as [_ H].
  apply Forall_forall. intros rec Hin.
  apply In_skipn_nth in Hin. destruct Hin as (j & Hle & Hj).
  apply (H j rec); [|exact Hj]. apply in_seq.
  assert ((j < List.length recommendations)%nat) by (apply nth_error_Some; congruence).
  lia.
Qed.

Lemma bestCandidate_Some (selectedCategories : GoMap.t bool)
      (recommendations : list Algorithms.HybridRecommendation.t) (i j : nat) :
  fst (Algorithms.HybridFilteringEngine.bestCandidate h selectedCategories recommendations i)
  = Some j ->
  (i <= j)%nat
  /\ exists rec, nth_error recommendations j = Some rec /\ inCatalog rec
                 /\ ~ unselectable selectedCategories rec.
Proof.
  intros H. unfold Algorithms.HybridFilteringEngine.bestCandidate in H.
  apply bestCandidate_scan in H; [|reflexivity | cbn [snd]; lra].
  destruct H as [H|(Hin & Hrec)]; [discriminate|].
  apply in_seq in Hin. split; [lia | exact Hrec].
Qed.

End DiversityPass.

Lemma unselectable_dropped (h : Algorithms.HybridFilteringEngine.t)
      (selectedCategories : GoMap.t bool) (rec : Algorithms.HybridRecommendation.t) :
  unselectable h selectedCategories rec ->
  ~ inCatalog h rec \/ Algorithms.HybridRecommendation.DiversityScore rec <= -1.
Proof.
  unfold unselectable, inCatalog, GoMap.mem, comparedScore.
  destruct (GoMap.get _ _) as [itemFeatures|]; [|intros _; left; discriminate].
  destruct (GoMap.index false _ _); intros H; right; lra.
Qed.

Lemma applyDiversityOptimization_shape
        (h : Algorithms.HybridFilteringEngine.t)
        (recommendations : list Algorithms.HybridRecommendation.t) :
  hd_error (Algorithms.HybridFilteringEngine.applyDiversityOptimization h recommendations)
  = hd_error recommendations
  /\ Forall (inCatalog h)
            (tl (Algorithms.HybridFilteringEngine.applyDiversityOptimization
                   h recommendations))
  /\ exists dropped,
       Permutation recommendations
         (Algorithms.HybridFilteringEngine.applyDiversityOptimization h recommendations
          ++ dropped)
       /\ Forall (fun rec => ~ inCatalog h rec
                             \/ Algorithms.HybridRecommendation.DiversityScore rec <= -1)
                 dropped.
Proof.
  unfold Algorithms.HybridFilteringEngine.applyDiversityOptimization.
  destruct (List.length recommendations <=? 1)%nat eqn:Elen.
  { split; [reflexivity|]. split.
    - destruct recommendations as [|a [|b l]]; [constructor | constructor | discriminate].
    - exists []. rewrite app_nil_r. split; [reflexivity | constructor]. }
  destruct recommendations as [|first others]; [discriminate|].
  set (l := first :: others).
  match goal with
  | |- context [fold_left ?f _ _] => set (step := f)
  end.
  set (Inv := fun (i : nat)
                  (st : list Algorithms.HybridRecommendation.t * GoMap.t bool
                        * list Algorithms.HybridRecommendation.t) =>
                Permutation (fst (fst st)) l
                /\ (exists rest, snd st = first :: rest /\ Forall (inCatalog h) rest)
                /\ (snd st = firstn i (fst (fst st))
                    \/ exists k, (k <= i)%nat
                                 /\ snd st = firstn k (fst (fst st))
                                 /\ Forall (unselectable h (snd (fst st)))
                                           (skipn k (fst (fst st))))).
  assert (Hstep : forall i st, Inv i st -> Inv (S i) (step st i)).
  { intros i [[recs sel] opt] (Hperm & (rest & Hopt & Hrest) & Hpos).
    unfold step, Inv. cbn [fst snd] in *.
    destruct (fst (Algorithms.HybridFilteringEngine.bestCandidate h sel recs i))
      as [j|] eqn:Ebest.
    - apply bestCandidate_Some in Ebest.
      destruct Ebest as (Hle & x & Hj & Hcat & Hsel).
      rewrite (nth_error_swap recs i j x Hle Hj). cbn [fst snd].
      split; [etransitivity; [apply swap_perm | exact Hperm]|].
      split.
      + exists (rest ++ [x]). rewrite Hopt. split; [reflexivity|].
        apply Forall_app. split; [exact Hrest | now constructor].
      + destruct Hpos as [Hpos|(k & Hk & Hpos & Hstuck)].
        * left. rewrite (firstn_snoc _ i x) by now apply nth_error_swap.
          rewrite firstn_swap by exact Hle. now rewrite Hpos.
        * exfalso. apply Hsel.
          rewrite Forall_forall in Hstuck. apply Hstuck.
          rewrite <- (firstn_skipn k recs) in Hj.
          assert (Hlen : (List.length (firstn k recs) <= j)%nat).
          { rewrite length_firstn. lia. }
          rewrite nth_error_app2 in Hj by exact Hlen.
          now apply nth_error_In in Hj.
    - cbn [fst snd]. split; [exact Hperm|]. split; [now exists rest|].
      right. destruct Hpos as [Hpos|(k & Hk & Hpos & Hstuck)].
      + exists i. split; [lia|]. split; [exact Hpos|].
        now apply bestCandidate_None.
      + exists k. split; [lia|]. now split. }
  assert (Hloop : forall cnt i st, Inv i st -> Inv (i + cnt)%nat (fold_left step (seq i cnt) st)).
  { induction cnt as [|cnt IH]; intros i st Hst; cbn [seq fold_left].
    - now rewrite Nat.add_0_r.
    - replace (i + S cnt)%nat with (S i + cnt)%nat by lia.
      apply IH, Hstep, Hst. }
  specialize (Hloop (List.length l - 1)%nat 1%nat
                    (l, Algorithms.HybridFilteringEngine.selectCategory h [] first, [first])).
  destruct Hloop as (Hperm & (rest & Hopt & Hrest) & Hpos).
  { unfold Inv. cbn [fst snd]. split; [reflexivity|]. split.
    - exists []. split; [reflexivity | constructor].
    - left. reflexivity. }
  destruct (fold_left step _ _) as [[recs sel] opt]. cbn [fst snd] in *.
  subst opt. split; [reflexivity|]. split; [exact Hrest|].
  destruct Hpos as [Hpos|(k & Hk & Hpos & Hstuck)].
  - exists []. rewrite app_nil_r. split; [|constructor].
    rewrite Hpos. rewrite firstn_all2; [now symmetry|].
    rewrite (Permutation_length Hperm).
    apply Nat.leb_gt in Elen. fold l in Elen. lia.
  - exists (skipn k recs). split.
    + rewrite Hpos, firstn_skipn. now symmetry.
    + eapply Forall_impl; [|exact Hstuck]. intros rec. apply unselectable_dropped.
Qed.

(** X13. What [applyDiversityOptimization] keeps.  The first candidate
    stays first; every other candidate it returns has features in the
    catalog; the returned list together with the candidates it drops is a
    rearrangement of the input, and a dropped candidate has no features
    in the catalog or a diversity score of at most -1.  So a candidate
    without features survives the pass only when it happens to come
    first. *)
Theorem applyDiversityOptimization_keeps_catalog_items
        (h : Algorithms.HybridFilteringEngine.t)
        (recommendations : list Algorithms.HybridRecommendation.t) :
  hd_error (Algorithms.HybridFilteringEngine.applyDiversityOptimization h recommendations)
  = hd_error recommendations
  /\ Forall (inCatalog h)
            (tl (Algorithms.HybridFilteringEngine.applyDiversityOptimization
                   h recommendations))
  /\ exists dropped,
       Permutation recommendations
         (Algorithms.HybridFilteringEngine.applyDiversityOptimization h recommendations
          ++ dropped)
       /\ Forall (fun rec => ~ inCatalog h rec
                             \/ Algorithms.HybridRecommendation.DiversityScore rec <= -1)
                 dropped.
Proof. apply applyDiversityOptimization_shape. Qed.



(** ** Component scores of the blend *)

Lemma INR_ratio_nonneg (a b : nat) : b <> 0%nat -> 0 <= INR a / INR b.
Proof.
  intros Hb. apply Rmult_le_pos; [apply pos_INR|].
  apply Rlt_le, Rinv_0_lt_compat, lt_0_INR. lia.
Qed.

Lemma calculateDiversityScore_range (rt : Runtime) (h : Algorithms.HybridFilteringEngine.t)
      (userID itemID : string) :
  0 <= Algorithms.HybridFilteringEngine.calculateDiversityScore rt h userID itemID <= 1.
Proof.
  unfold Algorithms.HybridFilteringEngine.calculateDiversityScore.
  destruct (List.length _ =? 0)%nat; [lra|].
  destruct (GoMap.get _ itemID) as [itemFeatures|]; [|lra].
  cbv zeta.
  match goal with
  | |- context [(?n =? 0)%nat] => destruct (Nat.eqb_spec n 0) as [_|Hmax]; [lra|]
  end.
  match goal with
  | |- context [INR ?a / INR ?b] => pose proof (INR_ratio_nonneg a b Hmax)
  end.
  split; [apply Rmax_l|]. apply Rmax_lub; lra.
Qed.

Lemma calculatePopularityScore_nonneg (rt : Runtime) (h : Algorithms.HybridFilteringEngine.t)
      (itemID : string) :
  0 <= Algorithms.HybridFilteringEngine.calculatePopularityScore rt h itemID.
Proof.
  unfold Algorithms.HybridFilteringEngine.calculatePopularityScore. cbv zeta.
  match goal with
  | |- context [(?n =? 0)%nat] => destruct (Nat.eqb_spec n 0) as [_|Hmax]; [lra|]
  end.
  now apply INR_ratio_nonneg.
Qed.

Lemma calculateRecencyScore_range (rt : Runtime) (h : Algorithms.HybridFilteringEngine.t)
      (itemID : string) :
  0 <= Algorithms.HybridFilteringEngine.calculateRecencyScore rt h itemID <= 1.
Proof.
  unfold Algorithms.HybridFilteringEngine.calculateRecencyScore.
  pose proof (pos_INR (Algorithms.HybridFilteringEngine.ratingCount rt h itemID)).
  split; [apply Rmin_glb; lra | apply Rmin_l].
Qed.

(** X14. Every recommendation of the hybrid [GenerateRecommendations]
    carries a diversity score and a recency score in [[0, 1]], a
    popularity score that is not negative, and a confidence of 0.9, 0.3
    or 0.7; the list is in descending order of final score and holds at
    most [topN] entries. *)
Theorem blend_components_in_range
        (rt : Runtime) (h : Algorithms.HybridFilteringEngine.t)
        (userID : string) (topN : nat) :
  Forall
    (fun rec =>
       0 <= Algorithms.HybridRecommendation.DiversityScore rec <= 1
       /\ 0 <= Algorithms.HybridRecommendation.RecencyScore rec <= 1
       /\ 0 <= Algorithms.HybridRecommendation.PopularityScore rec
       /\ (Algorithms.HybridRecommendation.Confidence rec = 0.9
           \/ Algorithms.HybridRecommendation.Confidence rec = 0.3
           \/ Algorithms.HybridRecommendation.Confidence rec = 0.7))
    (Algorithms.HybridFilteringEngine.GenerateRecommendations rt h userID topN)
  /\ StronglySorted
       (fun a b => Algorithms.HybridRecommendation.Score a
                   >= Algorithms.HybridRecommendation.Score b)
       (Algorithms.HybridFilteringEngine.GenerateRecommendations rt h userID topN)
  /\ (List.length (Algorithms.HybridFilteringEngine.GenerateRecommendations
                     rt h userID topN) <= topN)%nat.
Proof.
  split; [|split].
  - apply Forall_forall. intros rec Hin.
    apply GenerateRecommendations_candidates in Hin.
    destruct Hin as (k & candidate & _ & ->).
    unfold Algorithms.HybridFilteringEngine.scoreCandidate.
    cbn [Algorithms.HybridRecommendation.DiversityScore
         Algorithms.HybridRecommendation.RecencyScore
         Algorithms.HybridRecommendation.PopularityScore
         Algorithms.HybridRecommendation.Confidence
         Algorithms.HybridRecommendation.CollaborativeScore
         Algorithms.HybridRecommendation.ContentBasedScore].
    split; [|split; [|split]].
    + destruct (Algorithms.HybridFilteringConfig.EnableDiversity _);
        [apply calculateDiversityScore_range | lra].
    + destruct (Algorithms.HybridFilteringConfig.EnableRecency _);
        [apply calculateRecencyScore_range | lra].
    + destruct (Algorithms.HybridFilteringConfig.EnablePopularity _);
        [apply calculatePopularityScore_nonneg | lra].
    + unfold Algorithms.HybridFilteringEngine.calculateConfidence.
      cbn [Algorithms.HybridRecommendation.CollaborativeScore
           Algorithms.HybridRecommendation.ContentBasedScore].
      destruct (_ && _); [now left|].
      destruct (Rgtb _ 0.8); [right; now left | right; now right].
  - unfold Algorithms.HybridFilteringEngine.GenerateRecommendations.
    apply truncate_sorted.
    now apply (sort_slice_sorted rt _ Algorithms.HybridRecommendation.Score).
  - apply truncate_length.
Qed.

(** ** Weights and cold start *)


Lemma sort_slice_nil {A : Type} (rt : Runtime) (less : A -> A -> bool) :
  sort_slice rt A less [] = [].
Proof. apply Permutation_nil. symmetry. apply sort_slice_perm. Qed.

Lemma range_nil {V : Type} (rt : Runtime) : range rt ([] : GoMap.t V) = [].
Proof. apply Permutation_nil. symmetry. apply range_order_perm. Qed.

(** X17. Cold start: for a user who has no row in the rating matrix and
    no profile in the content engine the hybrid [GenerateRecommendations]
    returns the empty list; there is no fallback to popular items. *)
Theorem blend_is_empty_for_unknown_user
        (rt : Runtime) (h : Algorithms.HybridFilteringEngine.t)
        (userID : string) (topN : nat) :
  GoMap.get (Algorithms.CollaborativeFilteringEngine.userItemMatrix
               (Algorithms.HybridFilteringEngine.collaborative h)) userID = None ->
  GoMap.get (Algorithms.ContentBasedFilteringEngine.userProfiles
               (Algorithms.HybridFilteringEngine.contentBased h)) userID = None ->
  Algorithms.HybridFilteringEngine.GenerateRecommendations rt h userID topN = [].
Proof.
  intros Hcf Hcb.
  unfold Algorithms.HybridFilteringEngine.GenerateRecommendations,
         Algorithms.CollaborativeFilteringEngine.UserBasedRecommend,
         Algorithms.ContentBasedFilteringEngine.GenerateRecommendations.
  rewrite Hcf, Hcb.
  unfold Algorithms.HybridFilteringEngine.mergeRecommendations,
         Algorithms.HybridFilteringEngine.calculateHybridScores.
  cbn [fold_left]. rewrite range_nil. cbn [map].
  unfold Algorithms.HybridFilteringEngine.applyDiversityOptimization.
  cbn [List.length Nat.leb].
  destruct (Algorithms.HybridFilteringConfig.EnableDiversity _);
    now rewrite sort_slice_nil.
Qed.

Lemma blend_is_empty_for_unknown_user_witness :
  Algorithms.HybridFilteringEngine.GenerateRecommendations inOrder blender3 "w" 3 = [].
Proof.
  apply (blend_is_empty_for_unknown_user inOrder blender3 "w" 3); reflexivity.
Defined.

(** * Popular keywords *)

Section PopularKeywords.
Import Algorithms.



End PopularKeywords.









(** * Explicit preferences *)

(** X19. [UpdateUserPreference] overwrites one preference, leaves the
    feature vector and the other preferences as they are, without
    fading, and stamps the profile with the current time.  Fading
    therefore restarts: when [AddUserBehavior] follows at time [later]
    for an item of the catalog, the old feature weights fade for the time
    from the preference update to [later] only, whatever the age of the
    profile was before the update. *)
Theorem UpdateUserPreference_restarts_fading
        (rt : Runtime) (now later : Z) (c : Algorithms.ContentBasedFilteringEngine.t)
        (userID preference : string) (weight : R)
        (itemID : string) (rating : R) (item : Algorithms.ItemFeatures.t) :
  GoMap.get (Algorithms.ContentBasedFilteringEngine.itemFeatures c) itemID = Some item ->
  GoMap.wf (Algorithms.ItemFeatures.Features item) ->
  0 < Algorithms.ContentBasedFilteringConfig.DecayFactor
        (Algorithms.ContentBasedFilteringEngine.config c) ->
  let old := profileBefore c userID in
  let c1 := Algorithms.ContentBasedFilteringEngine.UpdateUserPreference
              now c userID preference weight in
  let c2 := Algorithms.ContentBasedFilteringEngine.AddUserBehavior
              rt later c1 userID itemID rating in
  exists p1 p2,
    GoMap.get (Algorithms.ContentBasedFilteringEngine.userProfiles c1) userID = Some p1
    /\ GoMap.get (Algorithms.ContentBasedFilteringEngine.userProfiles c2) userID = Some p2
    /\ Algorithms.UserProfile.UpdateTime p1 = now
    /\ Algorithms.UserProfile.FeatureVector p1 = Algorithms.UserProfile.FeatureVector old
    /\ (forall key,
           GoMap.get (Algorithms.UserProfile.Preferences p1) key
           = if String.eqb preference key then Some weight
             else GoMap.get (Algorithms.UserProfile.Preferences old) key)
    /\ (forall feature,
           GoMap.at0 (Algorithms.UserProfile.FeatureVector p2) feature
           = GoMap.at0 (Algorithms.UserProfile.FeatureVector old) feature
             * fade c now later
             + Algorithms.ContentBasedFilteringConfig.LearningRate
                 (Algorithms.ContentBasedFilteringEngine.config c) * rating
               * GoMap.at0 (Algorithms.ItemFeatures.Features item) feature).
Proof.
  intros Hitem Hwf _ old c1 c2.
  assert (H1 : exists p1,
             GoMap.get (Algorithms.ContentBasedFilteringEngine.userProfiles c1) userID
             = Some p1
             /\ Algorithms.UserProfile.UpdateTime p1 = now
             /\ Algorithms.UserProfile.FeatureVector p1
                = Algorithms.UserProfile.FeatureVector old
             /\ (forall key,
                    GoMap.get (Algorithms.UserProfile.Preferences p1) key
                    = if String.eqb preference key then Some weight
                      else GoMap.get (Algorithms.UserProfile.Preferences old) key)).
  { unfold c1, Algorithms.ContentBasedFilteringEngine.UpdateUserPreference.
    cbn [Algorithms.ContentBasedFilteringEngine.userProfiles].
    rewrite get_set_same. eexists. split; [reflexivity|].
    cbn [Algorithms.UserProfile.UpdateTime Algorithms.UserProfile.FeatureVector
         Algorithms.UserProfile.Preferences].
    unfold old, profileBefore.
    split; [reflexivity|]. split.
    - now destruct (GoMap.get _ userID).
    - intros key. destruct (String.eqb_spec preference key) as [->|Hne].
      + apply get_set_same.
      + rewrite get_set_other by exact Hne. now destruct (GoMap.get _ userID). }
  destruct H1 as (p1 & Hp1 & Htime & Hfv & Hprefs).
  destruct (AddUserBehavior_profile rt later c1 userID itemID rating item Hitem Hwf)
    as (p2 & Hp2 & _ & Hfeat & _).
  exists p1, p2. repeat (split; [assumption|]).
  intros feature. rewrite Hfeat.
  unfold profileBefore at 1 2. rewrite Hp1, Hfv, Htime. reflexivity.
Qed.

Lemma UpdateUserPreference_restarts_fading_witness :
  let c := Algorithms.ContentBasedFilteringEngine.AddUserBehavior inOrder 1000
             (Algorithms.ContentBasedFilteringEngine.AddItemFeatures
                Algorithms.ContentBasedFilteringEngine.NewContentBasedFilteringEngine
                "A" "cat1" ["k"] [("f", 2)])
             "u" "A" 4 in
  let item := {| Algorithms.ItemFeatures.ItemID := "A";
                 Algorithms.ItemFeatures.Category := "cat1";
                 Algorithms.ItemFeatures.Keywords := ["k"];
                 Algorithms.ItemFeatures.Features := [("f", 2)];
                 Algorithms.ItemFeatures.Metadata := [] |} in
  let old := profileBefore c "u" in
  let c1 := Algorithms.ContentBasedFilteringEngine.UpdateUserPreference
              87400 c "u" "cat2" 3 in
  let c2 := Algorithms.ContentBasedFilteringEngine.AddUserBehavior
              inOrder 173800 c1 "u" "A" 5 in
  exists p1 p2,
    GoMap.get (Algorithms.ContentBasedFilteringEngine.userProfiles c1) "u" = Some p1
    /\ GoMap.get (Algorithms.ContentBasedFilteringEngine.userProfiles c2) "u" = Some p2
    /\ Algorithms.UserProfile.UpdateTime p1 = 87400%Z
    /\ Algorithms.UserProfile.FeatureVector p1 = Algorithms.UserProfile.FeatureVector old
    /\ (forall key,
           GoMap.get (Algorithms.UserProfile.Preferences p1) key
           = if String.eqb "cat2" key then Some 3
             else GoMap.get (Algorithms.UserProfile.Preferences old) key)
    /\ (forall feature,
           GoMap.at0 (Algorithms.UserProfile.FeatureVector p2) feature
           = GoMap.at0 (Algorithms.UserProfile.FeatureVector old) feature
             * fade c 87400 173800
             + Algorithms.ContentBasedFilteringConfig.LearningRate
                 (Algorithms.ContentBasedFilteringEngine.config c) * 5
               * GoMap.at0 (Algorithms.ItemFeatures.Features item) feature).
Proof.
  intros c item.
  apply (UpdateUserPreference_restarts_fading
           inOrder 87400 173800 c "u" "cat2" 3 "A" 5 item).
  - reflexivity.
  - repeat constructor. simpl. tauto.
  - simpl. lra.
Defined.

(** * Further properties of the recall merge *)

Section MergeSpec.
Import Datasource.

(** Every recalled item with the name and the score of its source. *)
Definition recalled (m : MultiRecall) : list (string * R * ItemRecord.t) :=
  flat_map (fun entry =>
              map (fun item => (fst entry, RecallResult.Score (snd entry), item))
                  (RecallResult.Items (snd entry)))
           m.

Definition recalledID (t : string * R * ItemRecord.t) : string :=
  ItemRecord.ItemID (snd t).

(** The metadata maps the recalled items refer to. *)
Definition recalledRefs (ts : list (string * R * ItemRecord.t)) : list nat :=
  flat_map (fun t => match ItemRecord.Metadata (snd t) with
                     | Some a => [a]
                     | None => []
                     end) ts.

End MergeSpec.

Lemma store_length (h : Datasource.Heap) (a : nat) (m : Datasource.MetaMap) :
  List.length (Datasource.store h a m) = List.length h.
Proof.
  revert a. induction h as [|x h IH]; intros [|a]; simpl; try reflexivity.
  now rewrite IH.
Qed.

Lemma load_store_same (h : Datasource.Heap) (a : nat) (m : Datasource.MetaMap) :
  (a < List.length h)%nat -> Datasource.load (Datasource.store h a m) a = Some m.
Proof.
  unfold Datasource.load.
  revert a. induction h as [|x h IH]; intros [|a]; simpl; intros H; try lia.
  - reflexivity.
  - apply IH. lia.
Qed.

Lemma load_store_other (h : Datasource.Heap) (a b : nat) (m : Datasource.MetaMap) :
  a <> b -> Datasource.load (Datasource.store h a m) b = Datasource.load h b.
Proof.
  unfold Datasource.load.
  revert a b. induction h as [|x h IH]; intros [|a] [|b]; simpl; intros H;
    try reflexivity; try lia.
  apply IH. lia.
Qed.

Lemma load_valid (h : Datasource.Heap) (a : nat) :
  (a < List.length h)%nat -> exists md, Datasource.load h a = Some md.
Proof.
  intros H. unfold Datasource.load.
  destruct (nth_error h a) eqn:E; [now eexists|].
  apply nth_error_None in E. lia.
Qed.

Lemma keys_set_fresh {V : Type} (m : GoMap.t V) (k : string) (v : V) :
  GoMap.get m k = None -> GoMap.keys (GoMap.set m k v) = GoMap.keys m ++ [k].
Proof.
  unfold GoMap.keys. induction m as [|[k' v'] m IH]; simpl; [reflexivity|].
  destruct (String.eqb k' k); [discriminate|]. intros H. simpl. now rewrite IH.
Qed.

Lemma foldM_flat {A B S : Type} (f : S -> B -> option S) (g : A -> list B)
      (l : list A) (s : S) :
  Datasource.foldM (fun s x => Datasource.foldM f (g x) s) l s
  = Datasource.foldM f (flat_map g l) s.
Proof.
  assert (Happ : forall l1 l2 s,
             Datasource.foldM f (l1 ++ l2) s
             = match Datasource.foldM f l1 s with
               | Some s' => Datasource.foldM f l2 s'
               | None => None
               end).
  { induction l1 as [|x l1 IH]; intros l2 s0; simpl; [reflexivity|].
    destruct (f s0 x); [apply IH | reflexivity]. }
  revert s. induction l as [|x l IH]; intros s; simpl; [reflexivity|].
  rewrite Happ. destruct (Datasource.foldM f (g x) s); [apply IH | reflexivity].
Qed.

Lemma foldM_ext {A S : Type} (f g : S -> A -> option S) (l : list A) (s : S) :
  (forall s x, f s x = g s x) -> Datasource.foldM f l s = Datasource.foldM g l s.
Proof.
  intros H. revert s. induction l as [|x l IH]; intros s; simpl; [reflexivity|].
  rewrite H. destruct (g s x); [apply IH | reflexivity].
Qed.

Lemma foldM_map {A B S : Type} (f : S -> B -> option S) (g : A -> B)
      (l : list A) (s : S) :
  Datasource.foldM f (map g l) s = Datasource.foldM (fun s x => f s (g x)) l s.
Proof.
  revert s. induction l as [|x l IH]; intros s; simpl; [reflexivity|].
  destruct (f s (g x)); [apply IH | reflexivity].
Qed.

(** The loops of [MergeResults] visit the recalled items one by one. *)
Lemma MergeResults_loops (l : list (string * Datasource.RecallResult.t))
      (st : Datasource.Heap * GoMap.t Datasource.ItemRecord.t) :
  Datasource.foldM
    (fun st '(source, result) =>
       Datasource.foldM
         (Datasource.mergeItem source (Datasource.RecallResult.Score result))
         (Datasource.RecallResult.Items result) st)
    l st
  = Datasource.foldM
      (fun st t => Datasource.mergeItem (fst (fst t)) (snd (fst t)) st (snd t))
      (recalled l) st.
Proof.
  unfold recalled. rewrite <- foldM_flat. apply foldM_ext.
  intros s [source result]. cbn [fst snd]. now rewrite foldM_map.
Qed.

Section MergeInvariant.
Import Datasource.

(** What [MergeResults] has built after the recalled items [processed],
    none of them recalled twice: [itemMap] files each of them under its
    identifier, with the score of its source as popularity and a
    metadata map whose provenance list is that source alone. *)
Definition mergedSoFar (h0 h : Heap) (itemMap : GoMap.t ItemRecord.t)
           (processed : list (string * R * ItemRecord.t)) : Prop :=
  (List.length h0 <= List.length h)%nat
  /\ GoMap.keys itemMap = map recalledID processed
  /\ forall k item, In (k, item) itemMap ->
       exists source score item0 a md,
         In (source, score, item0) processed
         /\ ItemRecord.ItemID item0 = k
         /\ item = set_Metadata (set_Popularity item0 score) (Some a)
         /\ (ItemRecord.Metadata item0 = Some a
             \/ (ItemRecord.Metadata item0 = None /\ (List.length h0 <= a)%nat))
         /\ load h a = Some md
         /\ GoMap.get md "sources" = Some (VStrings [source]).

End MergeInvariant.

Lemma set_Metadata_same (item : Datasource.ItemRecord.t) (a : nat) :
  Datasource.ItemRecord.Metadata item = Some a ->
  Datasource.set_Metadata item (Some a) = item.
Proof. destruct item. simpl. now intros ->. Qed.

Lemma mergeItem_fresh (h0 h : Datasource.Heap)
      (itemMap : GoMap.t Datasource.ItemRecord.t)
      (processed : list (string * R * Datasource.ItemRecord.t))
      (source : string) (score : R) (item0 : Datasource.ItemRecord.t) :
  mergedSoFar h0 h itemMap processed ->
  ~ In (Datasource.ItemRecord.ItemID item0) (map recalledID processed) ->
  (forall a, Datasource.ItemRecord.Metadata item0 = Some a ->
             (a < List.length h0)%nat /\ ~ In a (recalledRefs processed)) ->
  exists h' itemMap',
    Datasource.mergeItem source score (h, itemMap) item0 = Some (h', itemMap')
    /\ mergedSoFar h0 h' itemMap' (processed ++ [(source, score, item0)]).
Proof.
  intros (Hlen & Hkeys & Hentries) Hfresh Hrefs.
  assert (Hnone : GoMap.get itemMap (Datasource.ItemRecord.ItemID item0) = None).
  { apply get_None_not_In. now rewrite Hkeys. }
  unfold Datasource.mergeItem. rewrite Hnone.
  unfold Datasource.ensureMetadata.
  cbn [Datasource.set_Popularity Datasource.ItemRecord.Metadata].
  destruct (Datasource.ItemRecord.Metadata item0) as [a|] eqn:Emeta.
  - destruct (Hrefs a eq_refl) as [Ha Hnew].
    destruct (load_valid h a) as [md Hmd]; [lia|].
    cbn [Datasource.ItemRecord.Metadata Datasource.set_Popularity]. rewrite Emeta, Hmd.
    do 2 eexists. split; [reflexivity|].
    split; [rewrite store_length; exact Hlen|]. split.
    + cbn [Datasource.ItemRecord.ItemID Datasource.set_Popularity].
      rewrite keys_set_fresh by exact Hnone.
      rewrite map_app, Hkeys. reflexivity.
    + intros k item Hin. cbn [Datasource.ItemRecord.ItemID Datasource.set_Popularity] in Hin.
      apply In_set in Hin. destruct Hin as [[-> ->]|Hin].
      * exists source, score, item0, a, (GoMap.set md "sources" (Datasource.VStrings [source])).
        split; [apply in_or_app; right; now left|]. split; [reflexivity|].
        split; [symmetry; apply set_Metadata_same; simpl; exact Emeta|].
        split; [now left|]. split; [apply load_store_same; lia|].
        apply get_set_same.
      * destruct (Hentries k item Hin)
          as (source' & score' & item' & b & md' & Hproc & Hid & Hitem & Href & Hload & Hsrc).
        exists source', score', item', b, md'.
        split; [apply in_or_app; now left|]. repeat (split; [assumption|]).
        split; [|exact Hsrc]. rewrite load_store_other; [exact Hload|].
        intros <-. destruct Href as [Href|[_ Href]]; [|lia].
        apply Hnew. unfold recalledRefs. apply in_flat_map.
        exists (source', score', item'). split; [exact Hproc|].
        cbn [snd]. rewrite Href. now left.
  - unfold Datasource.alloc.
    cbn [Datasource.ItemRecord.Metadata Datasource.set_Metadata Datasource.set_Popularity].
    assert (Hfreshmap : Datasource.load (h ++ [[]]) (List.length h) = Some []).
    { unfold Datasource.load. rewrite nth_error_app2 by lia.
      now rewrite Nat.sub_diag. }
    rewrite Hfreshmap.
    do 2 eexists. split; [reflexivity|].
    split; [rewrite store_length, length_app; simpl; lia|]. split.
    + cbn [Datasource.ItemRecord.ItemID Datasource.set_Popularity Datasource.set_Metadata].
      rewrite keys_set_fresh by exact Hnone.
      rewrite map_app, Hkeys. reflexivity.
    + intros k item Hin.
      cbn [Datasource.ItemRecord.ItemID Datasource.set_Popularity Datasource.set_Metadata]
        in Hin.
      apply In_set in Hin. destruct Hin as [[-> ->]|Hin].
      * exists source, score, item0, (List.length h),
               (GoMap.set [] "sources" (Datasource.VStrings [source])).
        split; [apply in_or_app; right; now left|]. split; [reflexivity|].
        split; [reflexivity|]. split; [right; split; [exact Emeta | exact Hlen]|].
        split; [apply load_store_same; rewrite length_app; simpl; lia|].
        reflexivity.
      * destruct (Hentries k item Hin)
          as (source' & score' & item' & b & md' & Hproc & Hid & Hitem & Href & Hload & Hsrc).
        exists source', score', item', b, md'.
        split; [apply in_or_app; now left|]. repeat (split; [assumption|]).
        split; [|exact Hsrc].
        assert (Hb : (b < List.length h)%nat).
        { unfold Datasource.load in Hload. apply nth_error_Some. congruence. }
        rewrite load_store_other by lia.
        unfold Datasource.load. rewrite nth_error_app1 by exact Hb. exact Hload.
Qed.

Lemma merge_recalled (h0 : Datasource.Heap)
      (ts processed : list (string * R * Datasource.ItemRecord.t))
      (h : Datasource.Heap) (itemMap : GoMap.t Datasource.ItemRecord.t) :
  mergedSoFar h0 h itemMap processed ->
  NoDup (map recalledID (processed ++ ts)) ->
  NoDup (recalledRefs (processed ++ ts)) ->
  Forall (fun t => forall a, Datasource.ItemRecord.Metadata (snd t) = Some a ->
                             (a < List.length h0)%nat) ts ->
  exists h' itemMap',
    Datasource.foldM
      (fun st t => Datasource.mergeItem (fst (fst t)) (snd (fst t)) st (snd t))
      ts (h, itemMap) = Some (h', itemMap')
    /\ mergedSoFar h0 h' itemMap' (processed ++ ts).
Proof.
  revert processed h itemMap.
  induction ts as [|[[source score] item0] ts IH];
    intros processed h itemMap Hinv Hids Hrefs Hvalid.
  - exists h, itemMap. rewrite app_nil_r. now split.
  - inversion Hvalid as [|? ? Hitem Hvalid']; subst. cbn [fst snd] in Hitem.
    destruct (mergeItem_fresh h0 h itemMap processed source score item0 Hinv)
      as (h1 & itemMap1 & Hstep & Hinv1).
    + rewrite map_app in Hids. cbn [map] in Hids.
      apply NoDup_remove_2 in Hids. intros Hin. apply Hids.
      apply in_or_app. now left.
    + intros a Ha. split; [now apply Hitem|].
      unfold recalledRefs in Hrefs. rewrite flat_map_app in Hrefs.
      cbn [flat_map snd] in Hrefs. rewrite Ha in Hrefs. cbn [app] in Hrefs.
      apply NoDup_remove_2 in Hrefs. intros Hin. apply Hrefs.
      apply in_or_app. now left.
    + cbn [Datasource.foldM fst snd]. rewrite Hstep.
      replace (processed ++ (source, score, item0) :: ts)
        with ((processed ++ [(source, score, item0)]) ++ ts) in *
        by (rewrite <- app_assoc; reflexivity).
      now apply IH.
Qed.

(** X20. When no item is recalled twice, [MergeResults] does what its
    comments say.  Assume the recalled items have pairwise distinct
    identifiers, each metadata map they carry exists, and no two of them
    share a metadata map.  Then the call does not panic, and it returns
    every recalled item exactly once, unchanged but for two fields: its
    popularity is the score of the source that recalled it, and its
    metadata map (a new one when the item had none) lists that source
    alone under ["sources"]. *)
Theorem MergeResults_without_collisions
        (rt : Runtime) (h : Datasource.Heap) (m : Datasource.MultiRecall) :
  NoDup (map recalledID (recalled m)) ->
  NoDup (recalledRefs (recalled m)) ->
  Forall (fun t => forall a, Datasource.ItemRecord.Metadata (snd t) = Some a ->
                             (a < List.length h)%nat) (recalled m) ->
  exists items h',
    Datasource.MergeResults rt h m = Some (items, h')
    /\ Permutation (map Datasource.ItemRecord.ItemID items)
                   (map recalledID (recalled m))
    /\ Forall
         (fun item =>
            exists source score item0,
              In (source, score, item0) (recalled m)
              /\ item = Datasource.set_Metadata
                          (Datasource.set_Popularity item0 score)
                          (Datasource.ItemRecord.Metadata item)
              /\ Datasource.sourcesOf h' item = Some (Datasource.VStrings [source]))
         items.
Proof.
  intros Hids Hrefs Hvalid.
  assert (Hperm : Permutation (recalled (range rt m)) (recalled m)).
  { unfold recalled. apply Permutation_flat_map, range_order_perm. }
  unfold Datasource.MergeResults. rewrite MergeResults_loops.
  destruct (merge_recalled h (recalled (range rt m)) [] h [])
    as (h' & itemMap & Hrun & Hlen & Hkeys & Hentries).
  - split; [lia|]. split; [reflexivity|]. intros k item [].
  - cbn [app]. eapply Permutation_NoDup; [|exact Hids].
    symmetry. apply Permutation_map, Hperm.
  - cbn [app]. eapply Permutation_NoDup; [|exact Hrefs].
    symmetry. unfold recalledRefs. apply Permutation_flat_map, Hperm.
  - rewrite Forall_forall in *. intros t Ht. apply Hvalid.
    eapply Permutation_in; [exact Hperm | exact Ht].
  - rewrite Hrun. cbn [app] in *. exists (map snd (range rt itemMap)), h'.
    split; [reflexivity|]. split.
    + etransitivity; [apply Permutation_map, Permutation_map, range_order_perm|].
      etransitivity; [|apply Permutation_map, Hperm].
      rewrite <- Hkeys. unfold GoMap.keys. rewrite map_map.
      replace (map (fun x => Datasource.ItemRecord.ItemID (snd x)) itemMap)
        with (map fst itemMap); [reflexivity|].
      apply map_ext_in. intros [k item] Hin.
      destruct (Hentries k item Hin) as (? & ? & item0 & ? & ? & _ & <- & -> & _).
      reflexivity.
    + apply Forall_forall. intros item Hin. apply in_map_iff in Hin.
      destruct Hin as ([k item'] & <- & Hin). cbn [snd].
      apply range_In in Hin.
      destruct (Hentries k item' Hin)
        as (source & score & item0 & a & md & Hproc & _ & -> & _ & Hload & Hsrc).
      exists source, score, item0.
      split; [eapply Permutation_in; [exact Hperm | exact Hproc]|].
      split; [reflexivity|].
      unfold Datasource.sourcesOf. cbn. now rewrite Hload.
Qed.

Section MergeWitness.
Import Datasource.

(** Item ["y"], recalled by another source than ["x"]. *)
Definition item_y (metadata : option nat) : ItemRecord.t :=
  {| ItemRecord.ItemID := "y";
     ItemRecord.Category := "music";
     ItemRecord.Title := "";
     ItemRecord.Description := "";
     ItemRecord.Features := None;
     ItemRecord.Metadata := metadata;
     ItemRecord.Popularity := 0 |}.

Definition disjoint_sources : MultiRecall :=
  AddResult (AddResult NewMultiRecall "a" (result_of [item_x (Some 0%nat)] 0.6))
            "b" (result_of [item_y None] 0.8).

End MergeWitness.

Lemma MergeResults_without_collisions_witness :
  exists items h',
    Datasource.MergeResults inOrder heap_of_fresh_records disjoint_sources
    = Some (items, h')
    /\ Permutation (map Datasource.ItemRecord.ItemID items)
                   (map recalledID (recalled disjoint_sources))
    /\ Forall
         (fun item =>
            exists source score item0,
              In (source, score, item0) (recalled disjoint_sources)
              /\ item = Datasource.set_Metadata
                          (Datasource.set_Popularity item0 score)
                          (Datasource.ItemRecord.Metadata item)
              /\ Datasource.sourcesOf h' item = Some (Datasource.VStrings [source]))
         items.
Proof.
  apply (MergeResults_without_collisions inOrder heap_of_fresh_records disjoint_sources).
  - simpl. repeat constructor; simpl; intuition discriminate.
  - simpl. repeat constructor. simpl. tauto.
  - simpl. apply Forall_cons; [intros a H; injection H as <-; lia|].
    apply Forall_cons; [intros a H; discriminate|]. apply Forall_nil.
Defined.

(** * The engine manager *)

Section ManagerSpec.
Import Recommendation.

(** The algorithm [Recommend] resolves a request to. *)
Definition resolvedAlgorithm (m : RecommendationEngineManager.t)
           (request : RecommendationRequest.t) : string :=
  if String.eqb (RecommendationRequest.Algorithm request) ""
  then EngineConfig.DefaultAlgorithm (RecommendationEngineManager.config m)
  else RecommendationRequest.Algorithm request.


End ManagerSpec.


Section ManagerExamples.
Import Recommendation.

Definition result_of_engine (itemID : string) (score confidence : R)
  : RecommendationResult.t :=
  {| RecommendationResult.ItemID := itemID;
     RecommendationResult.Score := score;
     RecommendationResult.Reason := "";
     RecommendationResult.Algorithm := "collaborative_filtering";
     RecommendationResult.Confidence := confidence;
     RecommendationResult.Metadata := None |}.

Definition three_results : RecommendationResponse.t :=
  {| RecommendationResponse.UserID := "u";
     RecommendationResponse.Recommendations :=
       [result_of_engine "a" 0.2 0.9; result_of_engine "b" 0.9 0.05;
        result_of_engine "c" 0.7 0.5];
     RecommendationResponse.TotalCount := 3;
     RecommendationResponse.Algorithm := "collaborative_filtering";
     RecommendationResponse.ProcessingTime := 0;
     RecommendationResponse.Metadata := None |}.

(** An engine that answers every request with [three_results], and one
    that fails. *)
Definition steady : RecommendationEngine.t :=
  {| RecommendationEngine.Recommend := fun _ => (Some three_results, None) |}.

Definition failing : RecommendationEngine.t :=
  {| RecommendationEngine.Recommend :=
       fun _ => (None, Some (EngineError (Datasource.New "unavailable"))) |}.

Definition request_of (algorithm : string) (limit : Z) : RecommendationRequest.t :=
  {| RecommendationRequest.UserID := "u";
     RecommendationRequest.Scenario := "home_page";
     RecommendationRequest.Context := None;
     RecommendationRequest.Filters := None;
     RecommendationRequest.Limit := limit;
     RecommendationRequest.Algorithm := algorithm;
     RecommendationRequest.Parameters := None |}.


Definition manager_fallback : RecommendationEngineManager.t :=
  RecommendationEngineManager.RegisterEngine
    (RecommendationEngineManager.RegisterEngine
       RecommendationEngineManager.NewRecommendationEngineManager
       "collaborative_filtering" failing)
    "content_based_filtering" steady.

End ManagerExamples.


(** X22. Where the fallback of the manager's [Recommend] applies, and
    what it skips.  A request whose algorithm has no registered engine
    fails at once, whatever the fallback settings are.  When the engine
    is registered and fails, fallback is enabled, and the resolved
    algorithm is not the fallback algorithm itself, the answer is exactly
    what the fallback engine returns for the request re-addressed to it:
    the confidence filter, the ordering by score, [Limit] and
    [TotalCount] are not applied to it, and an error of the fallback
    engine is passed on. *)
Theorem Recommend_fallback_is_returned_unfiltered
        (rt : Runtime) (elapsed : Z)
        (m : Recommendation.RecommendationEngineManager.t)
        (request : Recommendation.RecommendationRequest.t) :
  match GoMap.get (Recommendation.RecommendationEngineManager.engines m)
                  (resolvedAlgorithm m request) with
  | None =>
      Recommendation.RecommendationEngineManager.Recommend rt elapsed m request
      = Some (None,
              Some (Recommendation.RecommendationError
                      ("算法引擎不存在: " ++ resolvedAlgorithm m request)))
  | Some engine =>
      forall fallbackEngine err,
        snd (Recommendation.RecommendationEngine.Recommend engine request) = Some err ->
        Recommendation.EngineConfig.EnableFallback
          (Recommendation.RecommendationEngineManager.config m) = true ->
        resolvedAlgorithm m request
        <> Recommendation.EngineConfig.FallbackAlgorithm
             (Recommendation.RecommendationEngineManager.config m) ->
        GoMap.get (Recommendation.RecommendationEngineManager.engines m)
                  (Recommendation.EngineConfig.FallbackAlgorithm
                     (Recommendation.RecommendationEngineManager.config m))
        = Some fallbackEngine ->
        Recommendation.RecommendationEngineManager.Recommend rt elapsed m request
        = Some (Recommendation.RecommendationEngine.Recommend fallbackEngine
                  (Recommendation.RecommendationEngineManager.set_Algorithm request
                     (Recommendation.EngineConfig.FallbackAlgorithm
                        (Recommendation.RecommendationEngineManager.config m))))
  end.
Proof.
  unfold Recommendation.RecommendationEngineManager.Recommend.
  fold (resolvedAlgorithm m request).
  destruct (GoMap.get _ (resolvedAlgorithm m request)) as [engine|]; [|reflexivity].
  intros fallbackEngine err Herr Hon Hne Hfb.
  destruct (Recommendation.RecommendationEngine.Recommend engine request) as [r e].
  cbn [snd] in Herr. subst e. rewrite Hon, Hfb.
  apply String.eqb_neq in Hne. rewrite Hne.
  now destruct r.
Qed.

Lemma Recommend_fallback_is_returned_unfiltered_witness :
  Recommendation.RecommendationEngineManager.Recommend
    inOrder 7 manager_fallback (request_of "" 1)
  = Some (Some three_results, None).
Proof.
  pose proof (Recommend_fallback_is_returned_unfiltered
                inOrder 7 manager_fallback (request_of "" 1)) as H.
  cbn in H.
  apply (H steady (Recommendation.EngineError (Datasource.New "unavailable")));
    try reflexivity.
  discriminate.
Defined.

(** * Recall dispatch *)

Definition supportedRecallType (recallType : string) : bool :=
  String.eqb recallType "popular"
  || String.eqb recallType "similar_users"
  || String.eqb recallType "recent_behavior"
  || String.eqb recallType "category_preference".

Section RecallFacts.
Context {Source : Type}.
Variable GetName : Source -> string.
Variables recallPopularItems recallSimilarUsersItems
          recallRecentBehaviorItems recallCategoryPreferenceItems :
  Source -> string -> option (option Datasource.RecallResult.t * option Datasource.error).

Local Abbreviation executeRecall :=
  (MultiDataSource.executeRecall recallPopularItems recallSimilarUsersItems
     recallRecentBehaviorItems recallCategoryPreferenceItems).

Local Abbreviation ParallelRecall :=
  (MultiDataSource.ParallelRecall GetName recallPopularItems recallSimilarUsersItems
     recallRecentBehaviorItems recallCategoryPreferenceItems).

Lemma executeRecall_skips (source : Source) (userID : string)
      (skipped rest : list string) :
  forallb (fun t => negb (supportedRecallType t)) skipped = true ->
  executeRecall source userID (skipped ++ rest) = executeRecall source userID rest.
Proof.
  induction skipped as [|t skipped IH]; intros H; [reflexivity|].
  cbn [forallb] in H. apply andb_prop in H. destruct H as [Ht H].
  unfold supportedRecallType in Ht.
  cbn [app MultiDataSource.executeRecall].
  destruct (String.eqb t "popular"); [discriminate|].
  destruct (String.eqb t "similar_users"); [discriminate|].
  destruct (String.eqb t "recent_behavior"); [discriminate|].
  destruct (String.eqb t "category_preference"); [discriminate|].
  now apply IH.
Qed.

(** X23. [executeRecall] runs one strategy at most: that of the first
    recall type of the list it supports.  Unsupported types before it are
    skipped, the types after it are never tried (also when the strategy
    fails), and a list without a supported type gives the error that no
    strategy is available. *)
Theorem executeRecall_runs_first_supported_type
        (source : Source) (userID : string)
        (skipped : list string) (recallType : string) (rest : list string) :
  forallb (fun t => negb (supportedRecallType t)) skipped = true ->
  supportedRecallType recallType = true ->
  executeRecall source userID (skipped ++ recallType :: rest)
  = executeRecall source userID [recallType]
  /\ executeRecall source userID skipped
     = Some (None, Some (Datasource.New "没有可用的召回策略")).
Proof.
  intros Hskipped Hsupported. split.
  - rewrite executeRecall_skips by exact Hskipped.
    unfold supportedRecallType in Hsupported.
    cbn [MultiDataSource.executeRecall].
    destruct (String.eqb recallType "popular"); [reflexivity|].
    destruct (String.eqb recallType "similar_users"); [reflexivity|].
    destruct (String.eqb recallType "recent_behavior"); [reflexivity|].
    destruct (String.eqb recallType "category_preference"); [reflexivity|].
    discriminate.
  - rewrite <- (app_nil_r skipped). now rewrite executeRecall_skips.
Qed.

(** The results [ParallelRecall] has filed after the goroutines of
    [done]. *)
Lemma ParallelRecall_filed (userID : string) (recallTypes : list string)
      (done : list Source) (multiRecall : Datasource.MultiRecall) :
  Forall (fun src => executeRecall src userID recallTypes <> None) done ->
  exists filed,
    Datasource.foldM
      (fun multiRecall src =>
         match executeRecall src userID recallTypes with
         | None => None
         | Some (_, Some err) => Some multiRecall
         | Some (Some result, None) =>
             Some (Datasource.AddResult multiRecall (GetName src) result)
         | Some (None, None) => Some multiRecall
         end)
      done multiRecall = Some filed
    /\ (GoMap.wf multiRecall -> GoMap.wf filed)
    /\ (forall name result,
           In (name, result) filed ->
           In (name, result) multiRecall
           \/ exists src, In src done /\ GetName src = name
                          /\ executeRecall src userID recallTypes
                             = Some (Some result, None))
    /\ (forall name, In name (GoMap.keys multiRecall) -> In name (GoMap.keys filed))
    /\ (forall src result,
           In src done ->
           executeRecall src userID recallTypes = Some (Some result, None) ->
           In (GetName src) (GoMap.keys filed)).
Proof.
  revert multiRecall. induction done as [|src done IH]; intros multiRecall Hok.
  - exists multiRecall. split; [reflexivity|]. split; [tauto|].
    split; [intros; now left|]. split; [tauto|]. intros ? ? [].
  - inversion Hok as [|? ? Hsrc Hok']; subst. cbn [Datasource.foldM].
    destruct (executeRecall src userID recallTypes) as [[[result|] [err|]]|] eqn:E;
      try congruence.
    + destruct (IH multiRecall Hok') as (filed & Hrun & Hwf & Hfrom & Hgrow & Hkeys).
      exists filed. split; [exact Hrun|]. split; [exact Hwf|]. split; [|split].
      * intros name r Hin. destruct (Hfrom name r Hin) as [H|(s & Hs & Hname & Hr)];
          [now left | right; exists s; split; [now right | now split]].
      * exact Hgrow.
      * intros s r [Heq|Hs] Hr; [congruence | now apply (Hkeys s r)].
    + destruct (IH (Datasource.AddResult multiRecall (GetName src) result) Hok')
        as (filed & Hrun & Hwf & Hfrom & Hgrow & Hkeys).
      exists filed. split; [exact Hrun|]. split; [|split; [|split]].
      * intros H. apply Hwf. now apply wf_set.
      * intros name r Hin. destruct (Hfrom name r Hin) as [H|(s & Hs & Hname & Hr)].
        -- apply In_set in H. destruct H as [[-> ->]|H]; [|now left].
           right. exists src. split; [now left | now split].
        -- right. exists s. split; [now right | now split].
      * intros name Hname. apply Hgrow. apply keys_set. now right.
      * intros s r [Heq|Hs] Hr; [|now apply (Hkeys s r)].
        subst s. apply Hgrow. apply keys_set. now left.
    + destruct (IH multiRecall Hok') as (filed & Hrun & Hwf & Hfrom & Hgrow & Hkeys).
      exists filed. split; [exact Hrun|]. split; [exact Hwf|]. split; [|split].
      * intros name r Hin. destruct (Hfrom name r Hin) as [H|(s & Hs & Hname & Hr)];
          [now left | right; exists s; split; [now right | now split]].
      * exact Hgrow.
      * intros s r [Heq|Hs] Hr; [congruence | now apply (Hkeys s r)].
    + destruct (IH multiRecall Hok') as (filed & Hrun & Hwf & Hfrom & Hgrow & Hkeys).
      exists filed. split; [exact Hrun|]. split; [exact Hwf|]. split; [|split].
      * intros name r Hin. destruct (Hfrom name r Hin) as [H|(s & Hs & Hname & Hr)];
          [now left | right; exists s; split; [now right | now split]].
      * exact Hgrow.
      * intros s r [Heq|Hs] Hr; [congruence | now apply (Hkeys s r)].
Qed.

Lemma NoDup_map_injective {A B : Type} (f : A -> B) (l : list A) (a b : A) :
  NoDup (map f l) -> In a l -> In b l -> f a = f b -> a = b.
Proof.
  induction l as [|x l IH]; simpl; [tauto|].
  intros Hnd Ha Hb Heq. inversion Hnd as [|? ? Hnotin Hnd']; subst.
  destruct Ha as [->|Ha], Hb as [->|Hb]; try reflexivity.
  - exfalso. apply Hnotin. rewrite Heq. now apply in_map.
  - exfalso. apply Hnotin. rewrite <- Heq. now apply in_map.
  - now apply IH.
Qed.

(** X24. [ParallelRecall] never returns an error.  When no strategy
    panics and the sources have distinct names, the [MultiRecall] it
    returns holds, under the name of each source, exactly the result of
    the sources whose [executeRecall] succeeded with a result; sources
    that failed leave no trace, and the outcome does not depend on the
    order in which the goroutines finish. *)
Theorem ParallelRecall_files_the_successes
        (rt : Runtime) (sources : list Source) (userID : string)
        (recallTypes : list string) :
  Forall (fun src => executeRecall src userID recallTypes <> None) sources ->
  NoDup (map GetName sources) ->
  exists multiRecall,
    ParallelRecall rt sources userID recallTypes = Some (multiRecall, None)
    /\ GoMap.wf multiRecall
    /\ forall name result,
         GoMap.get multiRecall name = Some result
         <-> exists src, In src sources /\ GetName src = name
                         /\ executeRecall src userID recallTypes
                            = Some (Some result, None).
Proof.
  intros Hok Hnames.
  pose proof (range_order_perm rt _ sources) as Hperm.
  destruct (ParallelRecall_filed userID recallTypes (range_order rt _ sources)
                                 Datasource.NewMultiRecall)
    as (filed & Hrun & Hwf & Hfrom & _ & Hkeys).
  { rewrite Forall_forall in *. intros src Hin. apply Hok.
    eapply Permutation_in; [exact Hperm | exact Hin]. }
  exists filed. unfold MultiDataSource.ParallelRecall. rewrite Hrun.
  split; [reflexivity|].
  assert (Hwf' : GoMap.wf filed) by (apply Hwf; constructor).
  split; [exact Hwf'|].
  intros name result. split.
  - intros Hget. apply get_In in Hget.
    destruct (Hfrom name result Hget) as [[]|(src & Hin & Hname & Hres)].
    exists src. split; [|now split].
    eapply Permutation_in; [exact Hperm | exact Hin].
  - intros (src & Hin & Hname & Hres).
    assert (Hin' : In src (range_order rt _ sources)).
    { eapply Permutation_in; [symmetry; exact Hperm | exact Hin]. }
    pose proof (Hkeys src result Hin' Hres) as Hkey. rewrite Hname in Hkey.
    destruct (GoMap.get filed name) as [result'|] eqn:Eget.
    + apply get_In in Eget.
      destruct (Hfrom name result' Eget) as [[]|(src' & Hin'' & Hname' & Hres')].
      assert (src' = src).
      { apply (NoDup_map_injective GetName sources); try assumption.
        - eapply Permutation_in; [exact Hperm | exact Hin''].
        - congruence. }
      subst src'. congruence.
    + apply get_None_not_In in Eget. contradiction.
Qed.

End RecallFacts.

Section RecallExamples.
Import Datasource.

(** Strategies for the examples: the popular-items recall fails for the
    source named ["down"] and recalls item ["x"] elsewhere; the other
    strategies recall nothing. *)
Definition popular_unless_down (src : DataSource.t) (userID : string)
  : option (option RecallResult.t * option error) :=
  if String.eqb (DataSource.GetName src) "down"
  then Some (None, Some (Wrap "获取用户数据失败" (New "unavailable")))
  else Some (Some (result_of [item_x None] 0.8), None).

Definition recalls_nothing (score : R) (src : DataSource.t) (userID : string)
  : option (option RecallResult.t * option error) :=
  Some (Some (result_of [] score), None).

End RecallExamples.

Lemma executeRecall_runs_first_supported_type_witness :
  MultiDataSource.executeRecall
    popular_unless_down (recalls_nothing 0.7) (recalls_nothing 0.6) (recalls_nothing 0.75)
    (source "down" None None) "u" (["trending"] ++ "popular" :: ["similar_users"])
  = MultiDataSource.executeRecall
      popular_unless_down (recalls_nothing 0.7) (recalls_nothing 0.6) (recalls_nothing 0.75)
      (source "down" None None) "u" ["popular"]
  /\ MultiDataSource.executeRecall
       popular_unless_down (recalls_nothing 0.7) (recalls_nothing 0.6)
       (recalls_nothing 0.75)
       (source "down" None None) "u" ["trending"]
     = Some (None, Some (Datasource.New "没有可用的召回策略")).
Proof.
  apply (executeRecall_runs_first_supported_type
           popular_unless_down (recalls_nothing 0.7) (recalls_nothing 0.6)
           (recalls_nothing 0.75)
           (source "down" None None) "u" ["trending"] "popular" ["similar_users"]);
    reflexivity.
Defined.

Lemma ParallelRecall_files_the_successes_witness :
  exists multiRecall,
    MultiDataSource.ParallelRecall
      Datasource.DataSource.GetName
      popular_unless_down (recalls_nothing 0.7) (recalls_nothing 0.6) (recalls_nothing 0.75)
      rotated [source "a" None None; source "down" None None] "u" ["popular"]
    = Some (multiRecall, None)
    /\ GoMap.wf multiRecall
    /\ forall name result,
         GoMap.get multiRecall name = Some result
         <-> exists src, In src [source "a" None None; source "down" None None]
                         /\ Datasource.DataSource.GetName src = name
                         /\ MultiDataSource.executeRecall
                              popular_unless_down (recalls_nothing 0.7)
                              (recalls_nothing 0.6) (recalls_nothing 0.75)
                              src "u" ["popular"]
                            = Some (Some result, None).
Proof.
  apply (ParallelRecall_files_the_successes
           Datasource.DataSource.GetName
           popular_unless_down (recalls_nothing 0.7) (recalls_nothing 0.6)
           (recalls_nothing 0.75)
           rotated [source "a" None None; source "down" None None] "u" ["popular"]).
  - repeat constructor; discriminate.
  - simpl. repeat constructor; simpl; intuition discriminate.
Defined.

(** * The in-memory data source *)

(** ** Bubble sort *)

Section BubbleSort.
Context {A : Type}.
Variable less : A -> A -> bool.

(** One pass over the first [k+1] elements, by recursion on the list. *)
Fixpoint bubblePass (k : nat) (l : list A) : list A :=
  match k, l with
  | S k', a :: b :: rest =>
      if less a b then b :: bubblePass k' (a :: rest) else a :: bubblePass k' (b :: rest)
  | _, _ => l
  end.

Lemma nth_error_adjacent (pre : list A) (a b : A) (rest : list A) :
  nth_error (pre ++ a :: b :: rest) (List.length pre) = Some a
  /\ nth_error (pre ++ a :: b :: rest) (S (List.length pre)) = Some b.
Proof.
  split.
  - rewrite nth_error_app2 by lia. now rewrite Nat.sub_diag.
  - rewrite nth_error_app2 by lia.
    now replace (S (List.length pre) - List.length pre)%nat with 1%nat by lia.
Qed.

Lemma swap_adjacent (pre : list A) (a b : A) (rest : list A) :
  Algorithms.HybridFilteringEngine.swap (pre ++ a :: b :: rest)
                                        (List.length pre) (S (List.length pre))
  = pre ++ b :: a :: rest.
Proof.
  unfold Algorithms.HybridFilteringEngine.swap.
  destruct (nth_error_adjacent pre a b rest) as [-> ->].
  induction pre as [|x pre IH]; [reflexivity|].
  cbn [app List.length Algorithms.HybridFilteringEngine.list_set]. now rewrite IH.
Qed.

Lemma inner_loop_idle (js : list nat) (l : list A) :
  (forall j, In j js -> (List.length l <= S j)%nat) ->
  fold_left
    (fun l j =>
       match nth_error l j, nth_error l (S j) with
       | Some a, Some b =>
           if less a b then Algorithms.HybridFilteringEngine.swap l j (S j) else l
       | _, _ => l
       end) js l = l.
Proof.
  induction js as [|j js IH]; intros H; [reflexivity|]. cbn [fold_left].
  assert (Hnone : nth_error l (S j) = None).
  { apply nth_error_None. apply H. now left. }
  rewrite Hnone. destruct (nth_error l j); apply IH; intros j' Hj'; apply H; now right.
Qed.

Lemma inner_loop_pass (k : nat) (pre l : list A) :
  fold_left
    (fun l j =>
       match nth_error l j, nth_error l (S j) with
       | Some a, Some b =>
           if less a b then Algorithms.HybridFilteringEngine.swap l j (S j) else l
       | _, _ => l
       end) (seq (List.length pre) k) (pre ++ l)
  = pre ++ bubblePass k l.
Proof.
  revert pre l. induction k as [|k IH]; intros pre l; [reflexivity|].
  destruct l as [|a [|b rest]].
  - cbn [bubblePass]. apply inner_loop_idle. intros j Hj. apply in_seq in Hj.
    rewrite length_app. simpl. lia.
  - cbn [bubblePass]. apply inner_loop_idle. intros j Hj. apply in_seq in Hj.
    rewrite length_app. simpl. lia.
  - cbn [seq fold_left bubblePass].
    destruct (nth_error_adjacent pre a b rest) as [-> ->].
    destruct (less a b).
    + rewrite swap_adjacent.
      replace (pre ++ b :: a :: rest) with ((pre ++ [b]) ++ a :: rest)
        by (rewrite <- app_assoc; reflexivity).
      replace (S (List.length pre)) with (List.length (pre ++ [b]))
        by (rewrite length_app; simpl; lia).
      rewrite IH, <- app_assoc. reflexivity.
    + replace (pre ++ a :: b :: rest) with ((pre ++ [a]) ++ b :: rest)
        by (rewrite <- app_assoc; reflexivity).
      replace (S (List.length pre)) with (List.length (pre ++ [a]))
        by (rewrite length_app; simpl; lia).
      rewrite IH, <- app_assoc. reflexivity.
Qed.

Lemma inner_loop_bubblePass (k : nat) (l : list A) :
  fold_left
    (fun l j =>
       match nth_error l j, nth_error l (S j) with
       | Some a, Some b =>
           if less a b then Algorithms.HybridFilteringEngine.swap l j (S j) else l
       | _, _ => l
       end) (seq 0 k) l
  = bubblePass k l.
Proof. exact (inner_loop_pass k [] l). Qed.

Lemma bubblePass_perm (k : nat) (l : list A) : Permutation (bubblePass k l) l.
Proof.
  revert l. induction k as [|k IH]; intros l; [destruct l; reflexivity|].
  destruct l as [|a [|b rest]]; try reflexivity. cbn [bubblePass].
  destruct (less a b).
  - etransitivity; [apply perm_skip, IH | apply perm_swap].
  - apply perm_skip, IH.
Qed.

Lemma bubblePass_app (k : nat) (l1 l2 : list A) :
  (k < List.length l1)%nat -> bubblePass k (l1 ++ l2) = bubblePass k l1 ++ l2.
Proof.
  revert l1. induction k as [|k IH]; intros l1 Hlen.
  - destruct l1; reflexivity.
  - destruct l1 as [|a [|b rest]]; cbn [List.length] in Hlen; try lia.
    cbn [app bubblePass]. destruct (less a b); cbn [app]; f_equal.
    + apply (IH (a :: rest)). simpl. lia.
    + apply (IH (b :: rest)). simpl. lia.
Qed.

End BubbleSort.

Lemma Rltb_spec (x y : R) : MemoryDataSource.Rltb x y = true <-> x < y.
Proof.
  unfold MemoryDataSource.Rltb. destruct (Rlt_dec x y); split; intros;
    try tauto; discriminate.
Qed.

Lemma Rltb_false (x y : R) : MemoryDataSource.Rltb x y = false <-> x >= y.
Proof.
  unfold MemoryDataSource.Rltb. destruct (Rlt_dec x y); split; intros;
    try discriminate; try reflexivity; lra.
Qed.

Section BubbleSortByKey.
Context {A : Type}.
Variable key : A -> R.

Local Abbreviation less := (fun a b => MemoryDataSource.Rltb (key a) (key b)).

Lemma bubblePass_sinks_minimum (k : nat) (l : list A) :
  List.length l = S k ->
  exists front m,
    bubblePass less k l = front ++ [m]
    /\ forall x, In x front -> key x >= key m.
Proof.
  revert l. induction k as [|k IH]; intros l Hlen.
  - destruct l as [|a [|b rest]]; try discriminate.
    exists [], a. split; [reflexivity | intros x []].
  - destruct l as [|a [|b rest]]; try discriminate. cbn [bubblePass].
    destruct (MemoryDataSource.Rltb (key a) (key b)) eqn:E;
      [apply Rltb_spec in E | apply Rltb_false in E].
    + destruct (IH (a :: rest)) as (front & m & Hpass & Hmin);
        [simpl in *; lia|].
      exists (b :: front), m. rewrite Hpass. split; [reflexivity|].
      assert (Ha : key a >= key m).
      { assert (Hin : In a (front ++ [m])).
        { rewrite <- Hpass.
          eapply Permutation_in; [symmetry; apply bubblePass_perm | now left]. }
        apply in_app_or in Hin. destruct Hin as [Hin|[<-|[]]]; [now apply Hmin | lra]. }
      intros x [<-|Hx]; [lra | now apply Hmin].
    + destruct (IH (b :: rest)) as (front & m & Hpass & Hmin);
        [simpl in *; lia|].
      exists (a :: front), m. rewrite Hpass. split; [reflexivity|].
      assert (Hb : key b >= key m).
      { assert (Hin : In b (front ++ [m])).
        { rewrite <- Hpass.
          eapply Permutation_in; [symmetry; apply bubblePass_perm | now left]. }
        apply in_app_or in Hin. destruct Hin as [Hin|[<-|[]]]; [now apply Hmin | lra]. }
      intros x [<-|Hx]; [lra | now apply Hmin].
Qed.

(** The list after [i] passes: the last [i] elements are in their final
    place. *)
Definition settled (i : nat) (l : list A) : Prop :=
  exists front sorted,
    l = front ++ sorted
    /\ List.length sorted = i
    /\ StronglySorted (fun a b => key a >= key b) sorted
    /\ forall x y, In x front -> In y sorted -> key x >= key y.

Lemma bubblePass_settles (i : nat) (l : list A) :
  (S i <= List.length l - 1)%nat ->
  settled i l ->
  settled (S i) (bubblePass less (List.length l - i - 1) l).
Proof.
  intros Hi (front & sorted & -> & Hlen & Hsorted & Hfront).
  rewrite length_app in *.
  rewrite bubblePass_app by lia.
  destruct (bubblePass_sinks_minimum (List.length front + List.length sorted - i - 1) front)
    as (front' & m & Hpass & Hmin); [lia|].
  rewrite Hpass, <- app_assoc. cbn [app].
  assert (Hperm : Permutation (front' ++ [m]) front).
  { rewrite <- Hpass. apply bubblePass_perm. }
  exists front', (m :: sorted). split; [reflexivity|]. split; [simpl; lia|]. split.
  - constructor; [exact Hsorted|]. apply Forall_forall. intros y Hy.
    apply Hfront; [|exact Hy].
    eapply Permutation_in; [exact Hperm | apply in_or_app; right; now left].
  - intros x y Hx [<-|Hy]; [now apply Hmin|].
    apply Hfront; [|exact Hy].
    eapply Permutation_in; [exact Hperm | apply in_or_app; now left].
Qed.

Lemma bubbleSort_passes (cnt i : nat) (l : list A) :
  (i + cnt <= List.length l - 1)%nat ->
  settled i l ->
  let result :=
    fold_left
      (fun l i =>
         fold_left
           (fun l j =>
              match nth_error l j, nth_error l (S j) with
              | Some a, Some b =>
                  if less a b then Algorithms.HybridFilteringEngine.swap l j (S j) else l
              | _, _ => l
              end)
           (seq 0 (List.length l - i - 1)) l)
      (seq i cnt) l in
  settled (i + cnt) result /\ Permutation result l.
Proof.
  revert i l. induction cnt as [|cnt IH]; intros i l Hbound Hset; cbv zeta.
  - cbn [seq fold_left]. rewrite Nat.add_0_r. now split.
  - cbn [seq fold_left].
    rewrite (inner_loop_bubblePass less (List.length l - i - 1) l).
    pose proof (bubblePass_perm less (List.length l - i - 1) l) as Hperm.
    destruct (IH (S i) (bubblePass less (List.length l - i - 1) l)) as [Hres Hp].
    + rewrite (Permutation_length Hperm). lia.
    + apply bubblePass_settles; [lia | exact Hset].
    + cbv zeta in Hres, Hp. replace (i + S cnt)%nat with (S i + cnt)%nat by lia.
      split; [exact Hres|]. etransitivity; [exact Hp | exact Hperm].
Qed.

Lemma bubbleSort_sorted (l : list A) :
  StronglySorted (fun a b => key a >= key b) (MemoryDataSource.bubbleSort less l)
  /\ Permutation (MemoryDataSource.bubbleSort less l) l.
Proof.
  unfold MemoryDataSource.bubbleSort.
  destruct (bubbleSort_passes (List.length l - 1) 0 l) as [Hset Hperm].
  - lia.
  - exists l, []. rewrite app_nil_r. split; [reflexivity|]. split; [reflexivity|].
    split; [constructor | intros x y _ []].
  - cbv zeta in Hset, Hperm. cbn [Nat.add] in Hset. split; [|exact Hperm].
    destruct Hset as (front & sorted & Heq & Hlen & Hsorted & Hfront).
    rewrite Heq.
    assert (Hlength : List.length (front ++ sorted) = List.length l).
    { rewrite <- Heq. apply Permutation_length, Hperm. }
    rewrite length_app in Hlength.
    destruct front as [|f [|g front]].
    + exact Hsorted.
    + cbn [app]. constructor; [exact Hsorted|]. apply Forall_forall.
      intros y Hy. apply Hfront; [now left | exact Hy].
    + simpl in Hlength. lia.
Qed.

End BubbleSortByKey.

(** X25. [sortItemsByPopularity] and [sortSimilarUsers] sort: each
    returns a rearrangement of its input in descending order of
    popularity (similarity). *)
Theorem memory_sorts_are_correct
        (items : list Datasource.ItemRecord.t)
        (users : list MemoryDataSource.SimilarUserRecord.t) :
  (StronglySorted
     (fun a b => Datasource.ItemRecord.Popularity a >= Datasource.ItemRecord.Popularity b)
     (MemoryDataSource.sortItemsByPopularity items)
   /\ Permutation (MemoryDataSource.sortItemsByPopularity items) items)
  /\ (StronglySorted
        (fun a b => MemoryDataSource.SimilarUserRecord.Similarity a
                    >= MemoryDataSource.SimilarUserRecord.Similarity b)
        (MemoryDataSource.sortSimilarUsers users)
      /\ Permutation (MemoryDataSource.sortSimilarUsers users) users).
Proof.
  split.
  - apply (bubbleSort_sorted Datasource.ItemRecord.Popularity).
  - apply (bubbleSort_sorted MemoryDataSource.SimilarUserRecord.Similarity).
Qed.

(** ** Limits *)





(** ** Similar users *)

Section SimilarUsers.
Import MemoryDataSource.


End SimilarUsers.


(** ** Popular items *)

Section PopularItems.
Import Datasource.


End PopularItems.






Section PopularItemsExample.
Import Datasource.


End PopularItemsExample.


(** * The data source factory *)

Section FactorySpec.
Import DataSourceFactory.

(** What [CreateDataSource] creates for a configuration: [None] when the
    type has no creator or the creator fails. *)
Definition created (f : DataSourceFactory.t) (config : DataSourceConfig.t)
  : option (option Datasource.DataSource.t) :=
  match GoMap.get (creators f) (DataSourceConfig.Type_ config) with
  | Some creator =>
      match creator config with
      | (source, None) => Some source
      | (_, Some _) => None
      end
  | None => None
  end.

(** The cache after the sources of [configs] have been filed, one after
    the other. *)
Definition registered (f : DataSourceFactory.t) (configs : list DataSourceConfig.t)
           (cache : GoMap.t (option Datasource.DataSource.t))
  : GoMap.t (option Datasource.DataSource.t) :=
  fold_left
    (fun cache config =>
       match created f config with
       | Some source => GoMap.set cache (DataSourceConfig.Name config) source
       | None => cache
       end)
    configs cache.

(** The sources a [MultiDataSource] gets for [configs]. *)
Definition sourcesFor (f : DataSourceFactory.t) (configs : list DataSourceConfig.t)
  : list (option Datasource.DataSource.t) :=
  flat_map (fun config => match created f config with
                          | Some source => [source]
                          | None => []
                          end) configs.

End FactorySpec.

Lemma CreateDataSource_created (f : DataSourceFactory.t) (cache : GoMap.t _)
      (config : DataSourceConfig.t) :
  let f0 := {| DataSourceFactory.creators := DataSourceFactory.creators f;
               DataSourceFactory.sources := cache |} in
  match created f config with
  | Some source =>
      DataSourceFactory.CreateDataSource f0 config
      = ({| DataSourceFactory.creators := DataSourceFactory.creators f;
            DataSourceFactory.sources :=
              GoMap.set cache (DataSourceConfig.Name config) source |},
         (source, None))
  | None =>
      exists cause,
        DataSourceFactory.CreateDataSource f0 config = (f0, (None, Some cause))
  end.
Proof.
  cbv zeta. unfold created, DataSourceFactory.CreateDataSource.
  cbn [DataSourceFactory.creators DataSourceFactory.sources].
  destruct (GoMap.get _ (DataSourceConfig.Type_ config)) as [creator|];
    [|eexists; reflexivity].
  destruct (creator config) as [source [err|]]; [eexists; reflexivity | reflexivity].
Qed.

Lemma createAll_done (f : DataSourceFactory.t) (done tail : list DataSourceConfig.t)
      (cache : GoMap.t _) (acc : list (option Datasource.DataSource.t)) :
  Forall (fun config => created f config <> None) done ->
  DataSourceFactory.createAll
    {| DataSourceFactory.creators := DataSourceFactory.creators f;
       DataSourceFactory.sources := cache |}
    (done ++ tail) acc
  = DataSourceFactory.createAll
      {| DataSourceFactory.creators := DataSourceFactory.creators f;
         DataSourceFactory.sources := registered f done cache |}
      tail (acc ++ sourcesFor f done).
Proof.
  revert cache acc. induction done as [|config done IH]; intros cache acc Hok.
  - cbn. now rewrite app_nil_r.
  - inversion Hok as [|? ? Hconfig Hok']; subst.
    cbn [app DataSourceFactory.createAll].
    pose proof (CreateDataSource_created f cache config) as Hstep. cbv zeta in Hstep.
    unfold sourcesFor, registered. cbn [flat_map fold_left].
    destruct (created f config) as [source|]; [|congruence].
    rewrite Hstep, IH by exact Hok'.
    unfold sourcesFor, registered. now rewrite <- app_assoc.
Qed.

(** X28. [CreateMultiDataSource] has no rollback.  When the
    configurations [done] can all be created, the call on [done] returns
    their sources in order and leaves each cached under its name (a later
    configuration of the same name replaces an earlier one in the
    cache, while the [MultiDataSource] holds both).  When they are
    followed by a configuration that cannot be created, the call fails
    with an error naming that configuration, yet the sources of [done]
    stay in the cache of the factory, and nothing after the failing
    configuration is created. *)
Theorem CreateMultiDataSource_keeps_what_it_created
        (f : DataSourceFactory.t) (done : list DataSourceConfig.t) :
  Forall (fun config => created f config <> None) done ->
  DataSourceFactory.CreateMultiDataSource f done
  = ({| DataSourceFactory.creators := DataSourceFactory.creators f;
        DataSourceFactory.sources := registered f done (DataSourceFactory.sources f) |},
     (Some (sourcesFor f done), None))
  /\ forall bad rest,
      created f bad = None ->
      exists cause,
        DataSourceFactory.CreateMultiDataSource f (done ++ bad :: rest)
        = ({| DataSourceFactory.creators := DataSourceFactory.creators f;
              DataSourceFactory.sources :=
                registered f done (DataSourceFactory.sources f) |},
           (None,
            Some (Datasource.Wrap
                    ("创建数据源 " ++ DataSourceConfig.Name bad ++ " 失败") cause))).
Proof.
  intros Hok. unfold DataSourceFactory.CreateMultiDataSource.
  assert (Hf : f = {| DataSourceFactory.creators := DataSourceFactory.creators f;
                      DataSourceFactory.sources := DataSourceFactory.sources f |})
    by now destruct f.
  split.
  - pose proof (createAll_done f done [] (DataSourceFactory.sources f) [] Hok) as H.
    rewrite app_nil_r, <- Hf in H. rewrite H. reflexivity.
  - intros bad rest Hbad.
    pose proof (createAll_done f done (bad :: rest) (DataSourceFactory.sources f) [] Hok)
      as H.
    rewrite <- Hf in H. rewrite H. cbn [DataSourceFactory.createAll].
    pose proof (CreateDataSource_created
                  f (registered f done (DataSourceFactory.sources f)) bad) as Hstep.
    cbv zeta in Hstep. rewrite Hbad in Hstep. destruct Hstep as [cause Hstep].
    rewrite Hstep. now exists cause.
Qed.

Section FactoryExamples.

Definition config_of (type name : string) : DataSourceConfig.t :=
  {| DataSourceConfig.Type_ := type;
     DataSourceConfig.Name := name;
     DataSourceConfig.Address := "";
     DataSourceConfig.Port := 0;
     DataSourceConfig.Username := "";
     DataSourceConfig.Password := "";
     DataSourceConfig.Database := "";
     DataSourceConfig.Options := None |}.

End FactoryExamples.

Lemma CreateMultiDataSource_keeps_what_it_created_witness :
  exists cause,
    DataSourceFactory.CreateMultiDataSource
      DataSourceFactory.NewDataSourceFactory
      ([config_of "memory" "m1"] ++ config_of "redis" "r1" :: [config_of "memory" "m2"])
    = ({| DataSourceFactory.creators :=
            DataSourceFactory.creators DataSourceFactory.NewDataSourceFactory;
          DataSourceFactory.sources :=
            registered DataSourceFactory.NewDataSourceFactory [config_of "memory" "m1"]
                       (DataSourceFactory.sources DataSourceFactory.NewDataSourceFactory) |},
       (None,
        Some (Datasource.Wrap
                ("创建数据源 " ++ DataSourceConfig.Name (config_of "redis" "r1") ++ " 失败")
                cause))).
Proof.
  apply (proj2 (CreateMultiDataSource_keeps_what_it_created
                  DataSourceFactory.NewDataSourceFactory [config_of "memory" "m1"]
                  ltac:(repeat constructor; discriminate))
               (config_of "redis" "r1") [config_of "memory" "m2"]).
  reflexivity.
Defined.

Lemma Close_loop (l : list (string * option Datasource.DataSource.t))
      (lastErr : option Datasource.error) :
  Forall (fun entry => snd entry <> None) l ->
  exists result,
    Datasource.foldM
      (fun lastErr entry =>
         match snd entry with
         | None => None
         | Some source =>
             match Datasource.DataSource.Close source with
             | Some err => Some (Some err)
             | None => Some lastErr
             end
         end) l lastErr = Some result
    /\ (result = None
        <-> lastErr = None
            /\ forall name source, In (name, Some source) l ->
                                   Datasource.DataSource.Close source = None)
    /\ forall err, result = Some err ->
         lastErr = Some err
         \/ exists name source, In (name, Some source) l
                                /\ Datasource.DataSource.Close source = Some err.
Proof.
  revert lastErr. induction l as [|[name [source|]] l IH]; intros lastErr Hok.
  - exists lastErr. split; [reflexivity|]. split; [|intros; now left].
    split; [intros ->; split; [reflexivity | intros ? ? []] | tauto].
  - inversion Hok as [|? ? _ Hok']; subst. cbn [Datasource.foldM snd].
    destruct (Datasource.DataSource.Close source) as [err|] eqn:Eclose.
    + destruct (IH (Some err) Hok') as (result & Hrun & Hnone & Hsome).
      exists result. split; [exact Hrun|]. split.
      * split.
        -- intros H. apply Hnone in H. destruct H as [H _]. discriminate.
        -- intros [_ H]. specialize (H name source (or_introl eq_refl)). congruence.
      * intros e He. right. destruct (Hsome e He) as [H|(n & s & Hin & Hs)].
        -- injection H as <-. exists name, source. split; [now left | exact Eclose].
        -- exists n, s. split; [now right | exact Hs].
    + destruct (IH lastErr Hok') as (result & Hrun & Hnone & Hsome).
      exists result. split; [exact Hrun|]. split.
      * split.
        -- intros H. apply Hnone in H. destruct H as [H Hall]. split; [exact H|].
           intros n s [Heq|Hin]; [|now apply (Hall n s)].
           injection Heq as <- <-. exact Eclose.
        -- intros [H Hall]. apply Hnone. split; [exact H|].
           intros n s Hin. apply (Hall n s). now right.
      * intros e He. destruct (Hsome e He) as [H|(n & s & Hin & Hs)]; [now left|].
        right. exists n, s. split; [now right | exact Hs].
  - inversion Hok as [|? ? Hnil _]; subst. now contradiction Hnil.
Qed.

(** X29. [Close] of the factory, when no cached source is nil: the call
    does not panic, and it empties the cache whether or not a source
    fails to close, so that afterwards [GetDataSource] finds no source.
    It returns nil exactly when every cached source closes without
    error; otherwise it returns the error of one of the sources that
    failed. *)
Theorem factory_Close_empties_the_cache
        (rt : Runtime) (f : DataSourceFactory.t) :
  Forall (fun entry => snd entry <> None) (DataSourceFactory.sources f) ->
  exists lastErr,
    DataSourceFactory.Close rt f
    = Some ({| DataSourceFactory.creators := DataSourceFactory.creators f;
               DataSourceFactory.sources := [] |}, lastErr)
    /\ (lastErr = None
        <-> forall name source,
            In (name, Some source) (DataSourceFactory.sources f) ->
            Datasource.DataSource.Close source = None)
    /\ (forall err,
           lastErr = Some err ->
           exists name source,
             In (name, Some source) (DataSourceFactory.sources f)
             /\ Datasource.DataSource.Close source = Some err)
    /\ forall name,
         DataSourceFactory.GetDataSource
           {| DataSourceFactory.creators := DataSourceFactory.creators f;
              DataSourceFactory.sources := [] |} name
         = (None, Some (Datasource.New ("数据源不存在: " ++ name))).
Proof.
  intros Hok.
  destruct (Close_loop (range rt (DataSourceFactory.sources f)) None)
    as (lastErr & Hrun & Hnone & Hsome).
  { rewrite Forall_forall in *. intros entry Hin. apply Hok. now apply range_In in Hin. }
  exists lastErr. unfold DataSourceFactory.Close. rewrite Hrun.
  split; [reflexivity|]. split; [|split].
  - rewrite Hnone. split.
    + intros [_ H] name source Hin. apply (H name source). now apply range_In.
    + intros H. split; [reflexivity|]. intros name source Hin.
      apply (H name source). now apply range_In in Hin.
  - intros err Herr. destruct (Hsome err Herr) as [H|(name & source & Hin & Hs)];
      [discriminate|].
    exists name, source. split; [now apply range_In in Hin | exact Hs].
  - reflexivity.
Qed.

Lemma factory_Close_empties_the_cache_witness :
  exists lastErr,
    DataSourceFactory.Close
      rotated
      {| DataSourceFactory.creators := [];
         DataSourceFactory.sources :=
           [("a", Some (source "a" None (Some (Datasource.New "busy"))));
            ("b", Some (source "b" None None))] |}
    = Some ({| DataSourceFactory.creators := []; DataSourceFactory.sources := [] |},
            lastErr)
    /\ (lastErr = None
        <-> forall name src,
            In (name, Some src)
               [("a", Some (source "a" None (Some (Datasource.New "busy"))));
                ("b", Some (source "b" None None))] ->
            Datasource.DataSource.Close src = None)
    /\ (forall err,
           lastErr = Some err ->
           exists name src,
             In (name, Some src)
                [("a", Some (source "a" None (Some (Datasource.New "busy"))));
                 ("b", Some (source "b" None None))]
             /\ Datasource.DataSource.Close src = Some err)
    /\ forall name,
         DataSourceFactory.GetDataSource
           {| DataSourceFactory.creators := []; DataSourceFactory.sources := [] |} name
         = (None, Some (Datasource.New ("数据源不存在: " ++ name))).
Proof.
  apply (factory_Close_empties_the_cache
           rotated
           {| DataSourceFactory.creators := [];
              DataSourceFactory.sources :=
                [("a", Some (source "a" None (Some (Datasource.New "busy"))));
                 ("b", Some (source "b" None None))] |}).
  repeat constructor; discriminate.
Defined.

(** * Profiles of the content-based engine *)

Section ProfileInvariant.
Import Algorithms.


End ProfileInvariant.





